(** * Smart-money signal engine: a shallow embedding of [analysis/smart_money.py]

    The detectors of [analysis/smart_money.py] are embedded as total
    functions over candle frames.

    Modelling conventions, used throughout:
    - Python floats are exact rationals ([Q]); rounding error of binary
      floating point is outside the model, and so are NaN and infinities.
    - A [pd.DataFrame] is the list of its rows together with a flag telling
      whether the frame has a [volume] column; rows are typed records, so the
      per-index [try/except] blocks of the detectors, which only guard
      against malformed rows, never fire and their [logger.warning] calls are
      not part of the model.
    - A timestamp is a whole number of seconds ([Z]); candle counts, window
      sizes and indices are natural numbers.
    - The [description] and [additional_data] fields of a signal are
      presentation data that no modelled function reads; they are left out.
    - [np.polyfit] and [pd.Series.std] belong to external libraries and are
      taken as an interface ([Numeric]).
    - Of the dashboard ([ui/dashboard.py]) only the use it makes of the
      analyzer is embedded: the results dictionary [execute_analysis] stores,
      and the slices and counters the panels take from its signal list. *)

From Stdlib Require Import QArith Qabs Qround Lqa ZArith String List Sorting.Sorted.
From stdpp Require Import gmap strings list.

Local Open Scope Q_scope.

(** ** Python arithmetic on exact rationals *)

Module Py.

Definition Qltb (x y : Q) : bool := negb (Qle_bool y x).

(** [min(a, b)] returns [b] only when [b < a]. *)
Definition min (a b : Q) : Q := if Qltb b a then b else a.

(** [max(a, b)] returns [b] only when [b > a]. *)
Definition max (a b : Q) : Q := if Qltb a b then b else a.

(** [min(100, max(0, strength))], the final clamp of every composite score. *)
Definition clamp100 (s : Q) : Q := min 100 (max 0 s).

Definition sum (l : list Q) : Q := fold_left Qplus l 0.

Definition len {A} (l : list A) : Q := inject_Z (Z.of_nat (length l)).

(** [Series.mean()] of a non-empty column. *)
Definition mean (l : list Q) : Q := sum l / len l.

(** [Series.max()] and [Series.min()]; [None] stands for the empty column. *)
Definition col_max (l : list Q) : option Q :=
  match l with
  | [] => None
  | x :: r => Some (fold_left (fun m y => if Qltb m y then y else m) r x)
  end.

Definition col_min (l : list Q) : option Q :=
  match l with
  | [] => None
  | x :: r => Some (fold_left (fun m y => if Qltb y m then y else m) r x)
  end.

(** Python slicing [l[lo:hi]] for non-negative bounds. *)
Definition slice {A} (lo hi : nat) (l : list A) : list A :=
  take (hi - lo)%nat (drop lo l).

(** [Series.tail(n)]. *)
Definition tail {A} (n : nat) (l : list A) : list A :=
  drop (length l - n)%nat l.

(** [enumerate(l, start)]. *)
Fixpoint enumerate {A} (start : nat) (l : list A) : list (nat * A) :=
  match l with
  | [] => []
  | x :: r => (start, x) :: enumerate (S start) r
  end.

(** [range(lo, hi)]. *)
Definition range (lo hi : nat) : list nat := seq lo (hi - lo)%nat.

(** [sub in s] on strings. *)
Definition contains (sub s : string) : bool :=
  match index 0 sub s with Some _ => true | None => false end.

(** [round(x, 1)]: nearest multiple of one tenth, ties to the even one. *)
Definition round_half_even (x : Q) : Z :=
  let f := Qfloor x in
  let r := x - inject_Z f in
  if Qltb r (1 # 2) then f
  else if Qltb (1 # 2) r then (f + 1)%Z
  else if Z.even f then f else (f + 1)%Z.

Definition round1 (x : Q) : Q := inject_Z (round_half_even (x * 10)) / 10.

(** [list.sort(key=key)]: stable, ascending. *)
Fixpoint insert_by {A} (key : A -> Q) (x : A) (l : list A) : list A :=
  match l with
  | [] => [x]
  | y :: r => if Qltb (key y) (key x) then y :: insert_by key x r else x :: l
  end.

Definition sort_by {A} (key : A -> Q) (l : list A) : list A :=
  fold_right (insert_by key) [] l.

(** [list.sort(key=key, reverse=True)]: stable, descending. *)
Fixpoint insert_by_desc {A} (key : A -> Q) (x : A) (l : list A) : list A :=
  match l with
  | [] => [x]
  | y :: r => if Qltb (key x) (key y) then y :: insert_by_desc key x r else x :: l
  end.

Definition sort_by_desc {A} (key : A -> Q) (l : list A) : list A :=
  fold_right (insert_by_desc key) [] l.

End Py.

(** ** Data model *)

Record Candle := mkCandle {
  datetime : Z;
  open : Q;
  high : Q;
  low : Q;
  close : Q;
  volume : Q
}.

Record DataFrame := mkDF {
  rows : list Candle;
  has_volume : bool
}.

(** [df.iloc[lo:hi]] keeps the columns of [df]. *)
Definition iloc_slice (lo hi : nat) (df : DataFrame) : DataFrame :=
  mkDF (Py.slice lo hi (rows df)) (has_volume df).

Record SmartMoneySignal := mkSignal {
  signal_type : string;
  direction : string;
  price : Q;
  timestamp : Z;
  strength : Q;
  timeframe : string
}.

Definition pip_value (pair : string) : Q :=
  if Py.contains "JPY" pair then 0.01 else 0.0001.

(** The external numeric routines used by the trend score. *)
Class Numeric := {
  polyfit_slope : list Q -> Q;   (* np.polyfit(arange(len(c)), c, 1)[0] *)
  series_std : list Q -> Q       (* pd.Series.std() *)
}.

(** ** FairValueGapAnalyzer *)

Record FairValueGapAnalyzer := mkFVG {
  min_gap_pips : Q;
  max_age_hours : Z
}.

Definition default_fvg_analyzer : FairValueGapAnalyzer := mkFVG 3.0 24.

Definition _is_bullish_impulse (candle : Candle) : bool :=
  let body := Qabs (close candle - open candle) in
  let rng := high candle - low candle in
  let is_green := Py.Qltb (open candle) (close candle) in
  let has_significant_body :=
    if Py.Qltb 0 rng then Py.Qltb (rng * 0.6) body else false in
  is_green && has_significant_body.

Definition _is_bearish_impulse (candle : Candle) : bool :=
  let body := Qabs (open candle - close candle) in
  let rng := high candle - low candle in
  let is_red := Py.Qltb (close candle) (open candle) in
  let has_significant_body :=
    if Py.Qltb 0 rng then Py.Qltb (rng * 0.6) body else false in
  is_red && has_significant_body.

Section TrendScore.
Context `{Numeric}.

Definition _calculate_trend_strength (closes : list Q) : Q :=
  if (length closes <? 2)%nat then 0.5
  else
    let slope := polyfit_slope closes in
    let price_std := series_std closes in
    if Py.Qltb 0 price_std
    then Py.min 1.0 ((Qabs slope / price_std) / 2)
    else 0.5.

(** The four factors of [_calculate_fvg_strength]; each is what one
    [strength += ...] statement adds. *)

(* Fator 1: tamanho do gap *)
Definition fvg_gap_score (gap_pips : Q) : Q := Py.min 25 (gap_pips * 2).

(* Fator 2: forca do impulso; nothing is added for a flat candle *)
Definition fvg_impulse_score (impulse_candle : Candle) : Q :=
  let body := Qabs (close impulse_candle - open impulse_candle) in
  let rng := high impulse_candle - low impulse_candle in
  if Py.Qltb 0 rng then (body / rng) * 25 else 0.

(* Fator 3: volume relativo; nothing is added when the mean is not positive *)
Definition fvg_volume_score (impulse_candle : Candle) (context_data : DataFrame) : Q :=
  if has_volume context_data && (5 <? length (rows context_data))%nat
  then
    let avg_volume := Py.mean (map volume (rows context_data)) in
    if Py.Qltb 0 avg_volume
    then Py.min 25 ((volume impulse_candle / avg_volume) * 10)
    else 0
  else 15.

(* Fator 4: contexto de mercado *)
Definition fvg_trend_score (context_data : DataFrame) : Q :=
  if (10 <=? length (rows context_data))%nat
  then _calculate_trend_strength (Py.tail 10 (map close (rows context_data))) * 25
  else 12.5.

Definition _calculate_fvg_strength (gap_pips : Q) (impulse_candle : Candle)
    (context_data : DataFrame) : Q :=
  let strength := 0.0 in
  let strength := strength + fvg_gap_score gap_pips in
  let strength := strength + fvg_impulse_score impulse_candle in
  let strength := strength + fvg_volume_score impulse_candle context_data in
  let strength := strength + fvg_trend_score context_data in
  Py.clamp100 strength.

(** [df.iloc[max(0, i-10):i+1]], the context handed to the scorer. *)
Definition fvg_context (df : DataFrame) (i : nat) : DataFrame :=
  iloc_slice (Nat.max 0 (i - 10)) (i + 1) df.

(** The body of the scan loop at index [i]: the signals it appends. *)
Definition fvg_at (self : FairValueGapAnalyzer) (df : DataFrame) (pip : Q)
    (i : nat) : list SmartMoneySignal :=
  match rows df !! (i - 2)%nat, rows df !! (i - 1)%nat, rows df !! i with
  | Some candle_1, Some candle_2, Some candle_3 =>
      if Py.Qltb (high candle_3) (low candle_1) then
        let gap_size := low candle_1 - high candle_3 in
        let gap_pips := gap_size / pip in
        if Qle_bool (min_gap_pips self) gap_pips && _is_bullish_impulse candle_2 then
          [ mkSignal "FVG_Bullish" "bullish"
              ((low candle_1 + high candle_3) / 2)
              (datetime candle_3)
              (_calculate_fvg_strength gap_pips candle_2
                 (iloc_slice (Nat.max 0 (i - 10)) (i + 1) df))
              "current" ]
        else []
      else if Py.Qltb (high candle_1) (low candle_3) then
        let gap_size := low candle_3 - high candle_1 in
        let gap_pips := gap_size / pip in
        if Qle_bool (min_gap_pips self) gap_pips && _is_bearish_impulse candle_2 then
          [ mkSignal "FVG_Bearish" "bearish"
              ((low candle_3 + high candle_1) / 2)
              (datetime candle_3)
              (_calculate_fvg_strength gap_pips candle_2
                 (iloc_slice (Nat.max 0 (i - 10)) (i + 1) df))
              "current" ]
        else []
      else []
  | _, _, _ => []   (* an index error is caught and the index skipped *)
  end.

(** The signals collected by the scan, before the age filter. *)
Definition detected_fvgs (self : FairValueGapAnalyzer) (df : DataFrame)
    (pair : string) : list SmartMoneySignal :=
  flat_map (fvg_at self df (pip_value pair)) (Py.range 2 (length (rows df))).

Definition age_hours (current_time : Z) (signal : SmartMoneySignal) : Q :=
  inject_Z (current_time - timestamp signal) / 3600.

Definition identify_fvgs (self : FairValueGapAnalyzer) (df : DataFrame)
    (pair : string) : list SmartMoneySignal :=
  if (length (rows df) <? 3)%nat then []
  else
    let signals := detected_fvgs self df pair in
    match last (rows df) with
    | Some final =>
        let current_time := datetime final in
        List.filter
          (fun signal =>
             Qle_bool (age_hours current_time signal) (inject_Z (max_age_hours self)))
          signals
    | None => []   (* not reached: the frame has at least three rows *)
    end.

End TrendScore.

(** ** OrderBlockAnalyzer *)

Record OrderBlockAnalyzer := mkOB {
  min_size_pips : Q;
  confirmation_candles : nat
}.

Definition default_ob_analyzer : OrderBlockAnalyzer := mkOB 5.0 2.

Definition _is_potential_bullish_ob (self : OrderBlockAnalyzer) (candle : Candle)
    (future_candles : DataFrame) (pip : Q) : bool :=
  let is_bearish := Py.Qltb (close candle) (open candle) in
  match Py.col_max (map high (rows future_candles)) with
  | None => false                       (* len(future_candles) == 0 *)
  | Some highest_after =>
      let move_pips := (highest_after - high candle) / pip in
      is_bearish && Qle_bool (min_size_pips self) move_pips
  end.

Definition _is_potential_bearish_ob (self : OrderBlockAnalyzer) (candle : Candle)
    (future_candles : DataFrame) (pip : Q) : bool :=
  let is_bullish := Py.Qltb (open candle) (close candle) in
  match Py.col_min (map low (rows future_candles)) with
  | None => false
  | Some lowest_after =>
      let move_pips := (low candle - lowest_after) / pip in
      is_bullish && Qle_bool (min_size_pips self) move_pips
  end.

Definition _calculate_confirmation_move (future_candles : DataFrame)
    (direction : string) : Q :=
  match rows future_candles with
  | [] => 0.0
  | first :: _ =>
      if String.eqb direction "bullish" then
        let start_price := close first in
        match Py.col_max (map high (rows future_candles)) with
        | Some max_price => max_price - start_price
        | None => 0.0
        end
      else
        let start_price := close first in
        match Py.col_min (map low (rows future_candles)) with
        | Some min_price => start_price - min_price
        | None => 0.0
        end
  end.

Definition _calculate_ob_strength (ob_candle : Candle) (future_candles context : DataFrame)
    (direction : string) : Q :=
  let strength := 0.0 in
  (* Fator 1: tamanho do movimento de confirmacao *)
  let confirmation_move := _calculate_confirmation_move future_candles direction in
  let strength :=
    if Py.Qltb 0 confirmation_move
    then strength + Py.min 30 (confirmation_move * 10000)
    else strength in
  (* Fator 2: velocidade do movimento *)
  let strength :=
    if (0 <? length (rows future_candles))%nat
    then
      let speed := confirmation_move / Py.len (rows future_candles) in
      strength + Py.min 25 (speed * 50000)
    else strength in
  (* Fator 3: volume da vela OB *)
  let strength :=
    if has_volume context && (5 <? length (rows context))%nat
    then
      let avg_volume := Py.mean (map volume (rows context)) in
      if Py.Qltb 0 avg_volume
      then strength + Py.min 25 ((volume ob_candle / avg_volume) * 10)
      else strength
    else strength + 15 in
  (* Fator 4: qualidade da vela OB *)
  let body := Qabs (close ob_candle - open ob_candle) in
  let rng := high ob_candle - low ob_candle in
  let strength :=
    if Py.Qltb 0 rng
    then strength + (body / rng) * 20
    else strength + 10 in
  Py.clamp100 strength.

(** [df.iloc[i+1:i+1+confirmation_candles]], the candles after candle [i]. *)
Definition ob_future (self : OrderBlockAnalyzer) (df : DataFrame) (i : nat) : DataFrame :=
  iloc_slice (i + 1) (i + 1 + confirmation_candles self) df.

(** [df.iloc[max(0, i-10):i+10]], the context handed to the scorer. *)
Definition ob_context (df : DataFrame) (i : nat) : DataFrame :=
  iloc_slice (Nat.max 0 (i - 10)) (i + 10) df.

(** The two signals the loop can append at index [i]. *)
Definition bullish_ob_signal (self : OrderBlockAnalyzer) (df : DataFrame) (i : nat)
    (current_candle : Candle) : SmartMoneySignal :=
  mkSignal "OB_Bullish" "bullish"
    (low current_candle)
    (datetime current_candle)
    (_calculate_ob_strength current_candle (ob_future self df i) (ob_context df i) "bullish")
    "current".

Definition bearish_ob_signal (self : OrderBlockAnalyzer) (df : DataFrame) (i : nat)
    (current_candle : Candle) : SmartMoneySignal :=
  mkSignal "OB_Bearish" "bearish"
    (high current_candle)
    (datetime current_candle)
    (_calculate_ob_strength current_candle (ob_future self df i) (ob_context df i) "bearish")
    "current".

(** The body of the scan loop at index [i]. *)
Definition ob_at (self : OrderBlockAnalyzer) (df : DataFrame) (pip : Q)
    (i : nat) : list SmartMoneySignal :=
  match rows df !! i with
  | Some current_candle =>
      let future_candles := ob_future self df i in
      if _is_potential_bullish_ob self current_candle future_candles pip then
        [ bullish_ob_signal self df i current_candle ]
      else if _is_potential_bearish_ob self current_candle future_candles pip then
        [ bearish_ob_signal self df i current_candle ]
      else []
  | None => []
  end.

Definition identify_order_blocks (self : OrderBlockAnalyzer) (df : DataFrame)
    (pair : string) : list SmartMoneySignal :=
  if (length (rows df) <? 10)%nat then []
  else
    let pip := pip_value pair in
    let window := 5%nat in
    flat_map (ob_at self df pip)
      (Py.range window (length (rows df) - confirmation_candles self)).

(** ** MarketStructureAnalyzer *)

Inductive SwingType := swing_high | swing_low.

Definition SwingType_eqb (a b : SwingType) : bool :=
  match a, b with
  | swing_high, swing_high | swing_low, swing_low => true
  | _, _ => false
  end.

(** The dictionary built for each swing point. *)
Record SwingPoint := mkSwing {
  sw_type : SwingType;
  sw_price : Q;
  sw_timestamp : Z;
  sw_index : nat
}.

Record MarketStructureAnalyzer := mkMS {
  lookback_period : nat;
  min_break_pips : Q
}.

Definition default_structure_analyzer : MarketStructureAnalyzer := mkMS 20 2.0.

(** The body of the swing scan at index [i], for window size [window]. *)
Definition swing_at (df : DataFrame) (window i : nat) : list SwingPoint :=
  let high_window := Py.slice (i - window) (i + window + 1) (map high (rows df)) in
  let low_window := Py.slice (i - window) (i + window + 1) (map low (rows df)) in
  match rows df !! i, Py.col_max high_window, Py.col_min low_window with
  | Some c, Some hmax, Some lmin =>
      let current_high := high c in
      let current_low := low c in
      if Qeq_bool current_high hmax then
        [ mkSwing swing_high current_high (datetime c) i ]
      else if Qeq_bool current_low lmin then
        [ mkSwing swing_low current_low (datetime c) i ]
      else []
  | _, _, _ => []
  end.

Definition _identify_swing_points (df : DataFrame) (window : nat) : list SwingPoint :=
  flat_map (swing_at df window) (Py.range window (length (rows df) - window)).

Definition swings_of_type (t : SwingType) (l : list SwingPoint) : list SwingPoint :=
  List.filter (fun s => SwingType_eqb (sw_type s) t) l.

(** [all(p[k] <= p[k+1] for k in range(len(p) - 1))]. *)
Fixpoint non_decreasing (p : list Q) : bool :=
  match p with
  | x :: ((y :: _) as r) => Qle_bool x y && non_decreasing r
  | _ => true
  end.

Definition _calculate_structure_strength (swing_context : list SwingPoint)
    (structure_type : string) : Q :=
  if (length swing_context <? 2)%nat then 50.0
  else
    let strength := 0.0 in
    (* Fator 1: consistencia da tendencia anterior *)
    let strength :=
      if String.eqb structure_type "bullish_mss" then
        let lows := map sw_price (swings_of_type swing_low swing_context) in
        if (2 <=? length lows)%nat
        then strength + (if non_decreasing lows then 40 else 20)
        else strength
      else if String.eqb structure_type "bearish_mss" then
        let highs := map sw_price (swings_of_type swing_high swing_context) in
        if (2 <=? length highs)%nat
        then strength + (if non_decreasing highs then 40 else 20)
        else strength
      else strength in
    (* Fator 2: magnitude da quebra *)
    let strength :=
      match last swing_context, last (removelast swing_context) with
      | Some latest, Some previous =>
          let price_diff := Qabs (sw_price latest - sw_price previous) in
          let avg_price := (sw_price latest + sw_price previous) / 2 in
          if Py.Qltb 0 avg_price
          then strength + Py.min 30 ((price_diff / avg_price) * 100 * 1000)
          else strength
      | _, _ => strength
      end in
    (* Fator 3: contexto temporal *)
    let strength :=
      if (3 <=? length swing_context)%nat then strength + 30 else strength in
    Py.clamp100 strength.

Definition choch_bullish (self : MarketStructureAnalyzer) (lows highs : list SwingPoint)
    (pip : Q) : option SmartMoneySignal :=
  if (2 <=? length lows)%nat && (1 <=? length highs)%nat then
    match last lows, last (removelast lows), last highs with
    | Some last_low, Some prev_low, Some last_high =>
        if Py.Qltb (sw_price last_low) (sw_price prev_low)
           && (sw_index last_high <? sw_index last_low)%nat then
          let break_size := (sw_price last_high - sw_price prev_low) / pip in
          if Qle_bool (min_break_pips self) break_size then
            Some (mkSignal "ChoCh_Bullish" "bullish" (sw_price last_high)
                    (sw_timestamp last_low) 70.0 "current")
          else None
        else None
    | _, _, _ => None
    end
  else None.

Definition choch_bearish (self : MarketStructureAnalyzer) (lows highs : list SwingPoint)
    (pip : Q) : option SmartMoneySignal :=
  if (2 <=? length highs)%nat && (1 <=? length lows)%nat then
    match last highs, last (removelast highs), last lows with
    | Some last_high, Some prev_high, Some last_low =>
        if Py.Qltb (sw_price prev_high) (sw_price last_high)
           && (sw_index last_low <? sw_index last_high)%nat then
          let break_size := (sw_price prev_high - sw_price last_low) / pip in
          if Qle_bool (min_break_pips self) break_size then
            Some (mkSignal "ChoCh_Bearish" "bearish" (sw_price last_low)
                    (sw_timestamp last_high) 70.0 "current")
          else None
        else None
    | _, _, _ => None
    end
  else None.

Definition _identify_change_of_character (self : MarketStructureAnalyzer)
    (recent_swings : list SwingPoint) (pip : Q) : option SmartMoneySignal :=
  if (length recent_swings <? 4)%nat then None
  else
    let lows := swings_of_type swing_low recent_swings in
    let highs := swings_of_type swing_high recent_swings in
    match choch_bullish self lows highs pip with
    | Some signal => Some signal
    | None => choch_bearish self lows highs pip
    end.

(** The [if/elif] of the structure loop at swing index [i]: the MSS signal,
    if any. *)
Definition mss_at (self : MarketStructureAnalyzer) (swing_points : list SwingPoint)
    (pip : Q) (i : nat) : list SmartMoneySignal :=
  match swing_points !! i, swing_points !! (i - 1)%nat, swing_points !! (i - 2)%nat with
  | Some current_swing, Some previous_swing, Some prev_prev_swing =>
      if SwingType_eqb (sw_type current_swing) swing_high
         && SwingType_eqb (sw_type prev_prev_swing) swing_high
         && Py.Qltb (sw_price prev_prev_swing) (sw_price current_swing) then
        let break_size := (sw_price current_swing - sw_price prev_prev_swing) / pip in
        if Qle_bool (min_break_pips self) break_size then
          [ mkSignal "MSS_Bullish" "bullish" (sw_price current_swing)
              (sw_timestamp current_swing)
              (_calculate_structure_strength
                 (Py.slice (Nat.max 0 (i - 3)) (i + 1) swing_points) "bullish_mss")
              "current" ]
        else []
      else if SwingType_eqb (sw_type current_swing) swing_low
              && SwingType_eqb (sw_type prev_prev_swing) swing_low
              && Py.Qltb (sw_price current_swing) (sw_price prev_prev_swing) then
        let break_size := (sw_price prev_prev_swing - sw_price current_swing) / pip in
        if Qle_bool (min_break_pips self) break_size then
          [ mkSignal "MSS_Bearish" "bearish" (sw_price current_swing)
              (sw_timestamp current_swing)
              (_calculate_structure_strength
                 (Py.slice (Nat.max 0 (i - 3)) (i + 1) swing_points) "bearish_mss")
              "current" ]
        else []
      else []
  | _, _, _ => []
  end.

Definition choch_at (self : MarketStructureAnalyzer) (swing_points : list SwingPoint)
    (pip : Q) (i : nat) : list SmartMoneySignal :=
  match _identify_change_of_character self
          (Py.slice (Nat.max 0 (i - 4)) (i + 1) swing_points) pip with
  | Some choch_signal => [choch_signal]
  | None => []
  end.

(** The loop over the swing points, from swing index 2. *)
Definition structure_signals (self : MarketStructureAnalyzer)
    (swing_points : list SwingPoint) (pip : Q) : list SmartMoneySignal :=
  flat_map (fun i => mss_at self swing_points pip i ++ choch_at self swing_points pip i)
    (Py.range 2 (length swing_points)).

Definition identify_structure_shifts (self : MarketStructureAnalyzer) (df : DataFrame)
    (pair : string) : list SmartMoneySignal :=
  if (length (rows df) <? lookback_period self * 2)%nat then []
  else
    let swing_points := _identify_swing_points df 5 in
    if (length swing_points <? 4)%nat then []
    else structure_signals self swing_points (pip_value pair).

(** ** Greedy grouping

    [LiquidityAnalyzer._find_equal_levels] and
    [SmartMoneyAnalyzer.get_confluence_signals] run the same pair of nested
    loops over a list and a set of used indices; they differ in the test
    that lets a later element join the anchor ([matches]) and in what is
    appended for a finished group ([emit]). *)

Section GreedyScan.
Context {A B : Type} (matches : A -> A -> bool) (emit : list A -> option B).

(** Inner loop body: [for j, other in enumerate(xs[i+1:], i+1)]. *)
Definition collect_step (point : A) (st : list A * gset nat) (jo : nat * A)
    : list A * gset nat :=
  let '(group, used) := st in
  let '(j, other) := jo in
  if bool_decide (j ∈ used) then (group, used)
  else if matches point other then (group ++ [other], used ∪ {[j]})
  else (group, used).

(** Outer loop body: [for i, point in enumerate(xs)]. *)
Definition anchor_step (xs : list A) (st : list B * gset nat) (ip : nat * A)
    : list B * gset nat :=
  let '(out, used) := st in
  let '(i, point) := ip in
  if bool_decide (i ∈ used) then (out, used)
  else
    let '(group, used') :=
      fold_left (collect_step point)
        (Py.enumerate (i + 1) (drop (i + 1) xs))
        ([point], used ∪ {[i]}) in
    match emit group with
    | Some b => (out ++ [b], used')
    | None => (out, used')
    end.

Definition greedy_scan (xs : list A) : list B :=
  fst (fold_left (anchor_step xs) (Py.enumerate 0 xs) ([], ∅)).
End GreedyScan.

(** [abs(p - q) <= p * tolerance], with [p] the anchor's price. *)
Definition within_tolerance (tolerance p q : Q) : bool :=
  Qle_bool (Qabs (p - q)) (p * tolerance).

(** ** LiquidityAnalyzer *)

Record LiquidityAnalyzer := mkLiq {
  equal_level_tolerance : Q
}.

Definition default_liquidity_analyzer : LiquidityAnalyzer := mkLiq 0.0002.

Definition sort_by_timestamp (group : list SwingPoint) : list SwingPoint :=
  Py.sort_by (fun x => inject_Z (sw_timestamp x)) group.

(** The test of the inner loop: [price_diff <= tolerance]. *)
Definition level_match (tolerance : Q) (point other_point : SwingPoint) : bool :=
  within_tolerance tolerance (sw_price point) (sw_price other_point).

(** The end of the outer loop body: a group of two or more is sorted by
    timestamp and appended. *)
Definition emit_level (level_group : list SwingPoint) : option (list SwingPoint) :=
  if (2 <=? length level_group)%nat
  then Some (sort_by_timestamp level_group)
  else None.

Definition _find_equal_levels (self : LiquidityAnalyzer) (swing_points : list SwingPoint)
    (level_type : string) : list (list SwingPoint) :=
  if (length swing_points <? 2)%nat then []
  else greedy_scan (level_match (equal_level_tolerance self)) emit_level swing_points.

(** The signal built from one group of equal levels. *)
Definition liquidity_signal (kind dir : string) (level_group : list SwingPoint)
    : list SmartMoneySignal :=
  if (2 <=? length level_group)%nat then
    match head level_group, last level_group with
    | Some first, Some final =>
        [ mkSignal kind dir (sw_price first) (sw_timestamp final)
            (Py.min 100 (Py.len level_group * 25)) "current" ]
    | _, _ => []
    end
  else [].

(** The liquidity detector, over a given swing-point detector. *)
Definition liquidity_zones_with (swing_detector : DataFrame -> list SwingPoint)
    (self : LiquidityAnalyzer) (df : DataFrame) (pair : string)
    : list SmartMoneySignal :=
  if (length (rows df) <? 20)%nat then []
  else
    let swing_points := swing_detector df in
    let highs := swings_of_type swing_high swing_points in
    let lows := swings_of_type swing_low swing_points in
    let equal_highs := _find_equal_levels self highs "high" in
    let equal_lows := _find_equal_levels self lows "low" in
    flat_map (liquidity_signal "Liquidity_EqualHighs" "bearish") equal_highs
    ++ flat_map (liquidity_signal "Liquidity_EqualLows" "bullish") equal_lows.

(** [swing_analyzer = MarketStructureAnalyzer()] and its default window. *)
Definition identify_liquidity_zones (self : LiquidityAnalyzer) (df : DataFrame)
    (pair : string) : list SmartMoneySignal :=
  liquidity_zones_with (fun d => _identify_swing_points d 5) self df pair.

(** ** SmartMoneyAnalyzer *)

Record AnalysisResults := mkResults {
  fair_value_gaps : list SmartMoneySignal;
  order_blocks : list SmartMoneySignal;
  market_structure : list SmartMoneySignal;
  liquidity_zones : list SmartMoneySignal;
  all_signals : list SmartMoneySignal
}.

Definition exn := string.

Inductive outcome (A : Type) :=
  | Returned (a : A)
  | Raised (e : exn).
Arguments Returned {A} a.
Arguments Raised {A} e.

Inductive LogRecord :=
  | LogInfo (msg : string)
  | LogComplete (signal_count : nat)     (* "Analise completa: n sinais identificados" *)
  | LogError (e : exn).                  (* "Erro na analise Smart Money: e" *)

(** The four detector objects held by the analyzer, as the calls [analyze]
    makes on them: each either returns its signals or raises. *)
Record Detectors := mkDetectors {
  call_identify_fvgs : DataFrame -> string -> outcome (list SmartMoneySignal);
  call_identify_order_blocks : DataFrame -> string -> outcome (list SmartMoneySignal);
  call_identify_structure_shifts : DataFrame -> string -> outcome (list SmartMoneySignal);
  call_identify_liquidity_zones : DataFrame -> string -> outcome (list SmartMoneySignal)
}.

(** Statements of [analyze] run over the [results] dictionary and the log;
    a raised exception leaves both as they were when it was raised. *)
Module Run.

Definition state : Type := AnalysisResults * list LogRecord.
Definition M (A : Type) : Type := state -> state * outcome A.

Definition ret {A} (a : A) : M A := fun st => (st, Returned a).

Definition bind {A B} (m : M A) (k : A -> M B) : M B :=
  fun st =>
    match m st with
    | (st', Returned a) => k a st'
    | (st', Raised e) => (st', Raised e)
    end.

Definition call {A} (o : outcome A) : M A := fun st => (st, o).

Definition log (r : LogRecord) : M unit :=
  fun st => ((fst st, snd st ++ [r]), Returned tt).

Definition get : M AnalysisResults := fun st => (st, Returned (fst st)).

Definition update (f : AnalysisResults -> AnalysisResults) : M unit :=
  fun st => ((f (fst st), snd st), Returned tt).

(** [try: body except Exception as e: handler(e)]. *)
Definition try_except (body : M unit) (handler : exn -> M unit) : M unit :=
  fun st =>
    match body st with
    | (st', Returned tt) => (st', Returned tt)
    | (st', Raised e) => handler e st'
    end.

End Run.

Notation "x <- m ;; k" := (Run.bind m (fun x => k))
  (at level 62, m at level 50, right associativity).
Notation "m ;;; k" := (Run.bind m (fun _ => k))
  (at level 62, right associativity).

Definition set_fair_value_gaps v r :=
  mkResults v (order_blocks r) (market_structure r) (liquidity_zones r) (all_signals r).
Definition set_order_blocks v r :=
  mkResults (fair_value_gaps r) v (market_structure r) (liquidity_zones r) (all_signals r).
Definition set_market_structure v r :=
  mkResults (fair_value_gaps r) (order_blocks r) v (liquidity_zones r) (all_signals r).
Definition set_liquidity_zones v r :=
  mkResults (fair_value_gaps r) (order_blocks r) (market_structure r) v (all_signals r).
Definition set_all_signals v r :=
  mkResults (fair_value_gaps r) (order_blocks r) (market_structure r) (liquidity_zones r) v.

Definition empty_results : AnalysisResults := mkResults [] [] [] [] [].

(** [all_signals.sort(key=lambda x: x.timestamp, reverse=True)]. *)
Definition sort_newest_first (l : list SmartMoneySignal) : list SmartMoneySignal :=
  Py.sort_by_desc (fun x => inject_Z (timestamp x)) l.

Definition analyze_body (self : Detectors) (df : DataFrame) (pair : string) : Run.M unit :=
  Run.log (LogInfo "Analisando Fair Value Gaps...") ;;;
  fvgs <- Run.call (call_identify_fvgs self df pair) ;;
  Run.update (set_fair_value_gaps fvgs) ;;;
  Run.log (LogInfo "Analisando Order Blocks...") ;;;
  obs <- Run.call (call_identify_order_blocks self df pair) ;;
  Run.update (set_order_blocks obs) ;;;
  Run.log (LogInfo "Analisando Market Structure...") ;;;
  mss <- Run.call (call_identify_structure_shifts self df pair) ;;
  Run.update (set_market_structure mss) ;;;
  Run.log (LogInfo "Analisando Liquidez...") ;;;
  liq <- Run.call (call_identify_liquidity_zones self df pair) ;;
  Run.update (set_liquidity_zones liq) ;;;
  results <- Run.get ;;
  let all := sort_newest_first
               (fair_value_gaps results ++ order_blocks results
                ++ market_structure results ++ liquidity_zones results) in
  Run.update (set_all_signals all) ;;;
  Run.log (LogComplete (length all)).

(** [analyze] returns the [results] dictionary; the log is returned beside it. *)
Definition analyze (self : Detectors) (df : DataFrame) (pair : string)
    (timeframe : string) : AnalysisResults * list LogRecord :=
  fst (Run.try_except (analyze_body self df pair)
         (fun e => Run.log (LogError e))
         (empty_results, [])).

(** [SmartMoneyAnalyzer.__init__]: the four analyzers with their defaults.
    On typed frames none of them raises. *)
Definition SmartMoneyAnalyzer `{Numeric} : Detectors :=
  mkDetectors
    (fun df pair => Returned (identify_fvgs default_fvg_analyzer df pair))
    (fun df pair => Returned (identify_order_blocks default_ob_analyzer df pair))
    (fun df pair => Returned (identify_structure_shifts default_structure_analyzer df pair))
    (fun df pair => Returned (identify_liquidity_zones default_liquidity_analyzer df pair)).

Inductive Reasoning :=
  | NoSignals                       (* "Nenhum sinal disponivel" *)
  | Balanced                        (* "Sinais equilibrados" *)
  | Summary (strong total : nat) (bullish_percentage bearish_percentage : Q).

Record MarketBias := mkBias {
  bias : string;
  confidence : Q;
  reasoning : Reasoning
}.

(** One round of the scoring loop over [(bullish_score, bearish_score)]. *)
Definition score_step (acc : Q * Q) (signal : SmartMoneySignal) : Q * Q :=
  let weight := strength signal / 100.0 in
  if String.eqb (direction signal) "bullish" then (fst acc + weight, snd acc)
  else if String.eqb (direction signal) "bearish" then (fst acc, snd acc + weight)
  else acc.

Definition get_market_bias (signals : list SmartMoneySignal) : MarketBias :=
  match signals with
  | [] => mkBias "NEUTRAL" 0 NoSignals
  | _ =>
      let scores := fold_left score_step signals (0, 0) in
      let bullish_score := fst scores in
      let bearish_score := snd scores in
      let total_score := bullish_score + bearish_score in
      if Qeq_bool total_score 0 then mkBias "NEUTRAL" 0 Balanced
      else
        let bullish_percentage := (bullish_score / total_score) * 100 in
        let bearish_percentage := (bearish_score / total_score) * 100 in
        let strong_signals := List.filter (fun s => Py.Qltb 70 (strength s)) signals in
        let reasoning :=
          Summary (length strong_signals) (length signals)
            bullish_percentage bearish_percentage in
        if Py.Qltb 60 bullish_percentage then
          mkBias "BULLISH" (Py.round1 bullish_percentage) reasoning
        else if Py.Qltb 60 bearish_percentage then
          mkBias "BEARISH" (Py.round1 bearish_percentage) reasoning
        else
          mkBias "NEUTRAL" (Py.round1 50) reasoning
  end.

Definition filter_signals_by_strength (signals : list SmartMoneySignal)
    (min_strength : Q) : list SmartMoneySignal :=
  List.filter (fun s => Qle_bool min_strength (strength s)) signals.

(** The dictionary appended for one confluence; [signal_types] is
    [list(set(...))], whose order Python leaves open, so it is kept as a set. *)
Record ConfluenceGroup := mkConfluence {
  signals : list SmartMoneySignal;
  avg_price : Q;
  combined_strength : Q;
  dominant_direction : string;
  signal_count : nat;
  signal_types : gset string
}.

Definition count_direction (d : string) (l : list SmartMoneySignal) : nat :=
  length (List.filter (fun s => String.eqb (direction s) d) l).

Definition confluence_of (confluent_signals : list SmartMoneySignal) : ConfluenceGroup :=
  let combined := Py.sum (map strength confluent_signals) / Py.len confluent_signals in
  let combined := Py.min 100 (combined * 1.2) in
  let bullish_count := count_direction "bullish" confluent_signals in
  let bearish_count := count_direction "bearish" confluent_signals in
  let dominant := if (bearish_count <? bullish_count)%nat then "bullish" else "bearish" in
  mkConfluence confluent_signals
    (Py.sum (map price confluent_signals) / Py.len confluent_signals)
    combined dominant (length confluent_signals)
    (list_to_set (map signal_type confluent_signals)).

(** The test of the inner loop: [price_diff <= tolerance]. *)
Definition price_match (price_tolerance : Q) (signal other_signal : SmartMoneySignal)
    : bool :=
  within_tolerance price_tolerance (price signal) (price other_signal).

(** The end of the outer loop body: a group of two or more becomes a
    confluence. *)
Definition emit_confluence (confluent_signals : list SmartMoneySignal)
    : option ConfluenceGroup :=
  if (2 <=? length confluent_signals)%nat
  then Some (confluence_of confluent_signals)
  else None.

Definition get_confluence_signals (signals : list SmartMoneySignal)
    (price_tolerance : Q) : list ConfluenceGroup :=
  let confluences := greedy_scan (price_match price_tolerance) emit_confluence signals in
  Py.sort_by_desc combined_strength confluences.

Definition default_price_tolerance : Q := 0.001.

(** ** Definitions used to state the properties *)

(** The total a direction receives: [strength / 100] from each of its signals. *)
Definition direction_weight (d : string) (signals : list SmartMoneySignal) : Q :=
  Py.sum (map (fun s => strength s / 100.0)
            (List.filter (fun s => String.eqb (direction s) d) signals)).

(** First-anchor grouping, point by point: each point, in list order, joins
    the first group whose anchor accepts it and otherwise opens a new group
    as its anchor. A group is its anchor and the members that joined it, in
    arrival order. *)
Section FirstAnchor.
Context {A : Type} (matches : A -> A -> bool).

Fixpoint place (p : A) (groups : list (A * list A)) : list (A * list A) :=
  match groups with
  | [] => [(p, [])]
  | (anchor, members) :: rest =>
      if matches anchor p then (anchor, members ++ [p]) :: rest
      else (anchor, members) :: place p rest
  end.

Definition first_anchor_groups (xs : list A) : list (list A) :=
  map (fun g => fst g :: snd g) (fold_left (fun groups p => place p groups) xs []).

(** Anchor [a] accepts nothing of group [g]. *)
Definition rejects (a : A) (g : A * list A) : Prop :=
  matches a (fst g) = false /\ Forall (fun q => matches a q = false) (snd g).

(** Every member is accepted by its own anchor, and nothing in a group is
    accepted by the anchor of an earlier group. *)
Inductive first_anchor_ok : list (A * list A) -> Prop :=
  | first_anchor_ok_nil : first_anchor_ok []
  | first_anchor_ok_cons (a : A) (members : list A) (rest : list (A * list A)) :
      Forall (fun p => matches a p = true) members ->
      Forall (rejects a) rest ->
      first_anchor_ok rest ->
      first_anchor_ok ((a, members) :: rest).

(** The elements of [l], numbered from [start], whose index is not in [used]. *)
Fixpoint unused (used : gset nat) (start : nat) (l : list A) : list A :=
  match l with
  | [] => []
  | x :: r =>
      if bool_decide (start ∈ used) then unused used (S start) r
      else x :: unused used (S start) r
  end.
End FirstAnchor.

Definition in_range (s : SmartMoneySignal) : Prop := 0 <= strength s <= 100.

(** ** A reference instance of the numeric interface

    Used only to evaluate the detectors on concrete frames: the exact
    least-squares slope, and the sample standard deviation truncated to six
    decimals. *)

Module Reference.

Definition xs_of (ys : list Q) : list Q :=
  map (fun k => inject_Z (Z.of_nat k)) (seq 0 (length ys)).

Definition dot (a b : list Q) : Q :=
  Py.sum (map (fun p => fst p * snd p) (combine a b)).

Definition slope (ys : list Q) : Q :=
  let n := Py.len ys in
  let x := xs_of ys in
  (n * dot x ys - Py.sum x * Py.sum ys) / (n * dot x x - Py.sum x * Py.sum x).

Definition std (ys : list Q) : Q :=
  let n := Py.len ys in
  let m := Py.mean ys in
  let var := Py.sum (map (fun y => (y - m) * (y - m)) ys) / (n - 1) in
  inject_Z (Z.sqrt (Qfloor (var * 1000000000000))) / 1000000.

Definition numeric : Numeric :=
  {| polyfit_slope := slope; series_std := std |}.

End Reference.

(** ** Sample inputs *)

Module Samples.

(** A quiet candle around price [p]. *)
Definition quiet (t : Z) (p v : Q) : Candle :=
  mkCandle t p (p + 0.0002) (p - 0.0002) p v.

(** Twelve quarter-hour candles; candle 5 closes down and the next two
    candles rally 19 pips above its high. *)
Definition rally_rows : list Candle :=
  [ quiet 0 1.1000 1000; quiet 900 1.1000 1000; quiet 1800 1.1000 1000;
    quiet 2700 1.1000 1000; quiet 3600 1.1000 1000;
    mkCandle 4500 1.1000 1.1001 1.0989 1.0990 1000;   (* candle 5 *)
    mkCandle 5400 1.0990 1.1020 1.0990 1.1015 1000;
    mkCandle 6300 1.1015 1.1020 1.1012 1.1018 1000;
    quiet 7200 1.1018 1000; quiet 8100 1.1018 1000; quiet 9000 1.1018 1000;
    quiet 9900 1.1018 1000 ].

Definition rally12 : DataFrame := mkDF rally_rows true.


(** Fifty candles on a steady rise, with a spike of the high at candles 8,
    19, 30 and 41. *)
Definition rising_candle (k : nat) : Candle :=
  let base := 1 + inject_Z (Z.of_nat k) / 10000 in
  let top := if bool_decide (k ∈ [8; 19; 30; 41]%nat) then base + 0.0050 else base + 0.0005 in
  mkCandle (900 * Z.of_nat k) (base + 0.0001) top base (base + 0.0002) 1000.

Definition spikes50 : DataFrame := mkDF (map rising_candle (seq 0 50)) true.

(** Hourly candles with a volume column that is zero throughout; candles 3
    to 5 leave a 50 pip gap around a strong up candle. *)
Definition gap_rows (v : Q) : list Candle :=
  [ quiet 0 1.1000 v; quiet 3600 1.1000 v; quiet 7200 1.1000 v;
    quiet 10800 1.1002 v;
    mkCandle 14400 1.0960 1.0992 1.0958 1.0990 v;
    quiet 18000 1.0948 v ].

Definition gap_zero_volume : DataFrame := mkDF (gap_rows 0) true.

(** The same gap followed by thirty quiet hours and a second gap. *)
Definition gap_then_gap : DataFrame :=
  mkDF (gap_rows 1000
        ++ map (fun k => quiet (3600 * Z.of_nat k) 1.0948 1000) (seq 6 30)
        ++ [ quiet 129600 1.0950 1000;
             mkCandle 133200 1.0908 1.0940 1.0906 1.0938 1000;
             quiet 136800 1.0896 1000 ]) true.

(** Fifteen quiet candles at one price: every scanned candle is a swing high. *)
Definition flat15 : DataFrame :=
  mkDF (map (fun k => quiet (900 * Z.of_nat k) 1.1000 1000) (seq 0 15)) true.

Definition swing_high_at (p : Q) (t : Z) (i : nat) : SwingPoint :=
  mkSwing swing_high p t i.

Definition four_highs : list SwingPoint :=
  [ swing_high_at 1.1000 0 6; swing_high_at 1.1001 9900 17;
    swing_high_at 1.1050 19800 28; swing_high_at 1.1051 29700 39 ].

Definition three_highs : list SwingPoint :=
  [ swing_high_at 1.1000 0 6; swing_high_at 1.1010 9900 17;
    swing_high_at 1.1020 19800 28 ].

Definition signal_at (kind dir : string) (p s : Q) : SmartMoneySignal :=
  mkSignal kind dir p 0 s "current".

Definition bull (p s : Q) : SmartMoneySignal := signal_at "OB_Bullish" "bullish" p s.
Definition bear (p s : Q) : SmartMoneySignal := signal_at "OB_Bearish" "bearish" p s.


(** Bullish weight 8.0 against bearish weight 2.0. *)
Definition eight_to_two : list SmartMoneySignal :=
  repeat (bull 1.1000 100) 8 ++ repeat (bear 1.1000 100) 2.

(** Three signals within eleven pips of each other. *)
Definition near1 : SmartMoneySignal := bull 1.0000 50.
Definition near2 : SmartMoneySignal := bear 1.0009 60.
Definition near3 : SmartMoneySignal := bull 1.0011 90.
Definition near_three : list SmartMoneySignal := [near1; near2; near3].

(** Two signals five pips apart. *)
Definition near_pair : list SmartMoneySignal := [bull 1.1000 50; bear 1.1005 60].

(** The signal expected at the third of [three_highs]. *)
Definition three_highs_break : SmartMoneySignal :=
  mkSignal "MSS_Bullish" "bullish" 1.1020 19800
    (_calculate_structure_strength three_highs "bullish_mss") "current".

(** The two gaps detected in [gap_then_gap], before the age filter. *)
Definition detected_gaps : list SmartMoneySignal :=
  @detected_fvgs Reference.numeric default_fvg_analyzer gap_then_gap "EURUSD".
Definition old_gap : SmartMoneySignal := nth 0 detected_gaps (bull 0 0).
Definition recent_gap : SmartMoneySignal := nth 1 detected_gaps (bull 0 0).


(** The analyzer whose gap detector raises; the other three are the real ones. *)
Definition failing_gap_detector : Detectors :=
  mkDetectors
    (fun _ _ => Raised "KeyError: 'datetime'")
    (fun df pair => Returned (identify_order_blocks default_ob_analyzer df pair))
    (fun df pair => Returned (identify_structure_shifts default_structure_analyzer df pair))
    (fun df pair => Returned (identify_liquidity_zones default_liquidity_analyzer df pair)).

End Samples.

(** ** Definitions used to state further properties *)

(** Candle [c], at index [i], has the highest high (the lowest low) of the
    window [i - w .. i + w]. *)
Definition window_high (df : DataFrame) (w i : nat) (c : Candle) : Prop :=
  forall j c', (i - w <= j <= i + w)%nat -> rows df !! j = Some c' -> high c' <= high c.

Definition window_low (df : DataFrame) (w i : nat) (c : Candle) : Prop :=
  forall j c', (i - w <= j <= i + w)%nat -> rows df !! j = Some c' -> low c <= low c'.

(** Column [f] rises (falls) strictly from each row to the next. *)
Fixpoint rising_by (f : Candle -> Q) (l : list Candle) : bool :=
  match l with
  | x :: ((y :: _) as r) => Py.Qltb (f x) (f y) && rising_by f r
  | _ => true
  end.

Definition falling_by (f : Candle -> Q) (l : list Candle) : bool :=
  rising_by (fun c => - f c) l.

Definition strictly_monotone (f : Candle -> Q) (l : list Candle) : bool :=
  rising_by f l || falling_by f l.

(** Open and close lie between low and high. *)
Definition well_formed (c : Candle) : Prop :=
  low c <= open c /\ open c <= high c /\ low c <= close c /\ close c <= high c.

(** The two dictionaries the swing scan can append for candle [c] at index [i]. *)
Definition high_swing (c : Candle) (i : nat) : SwingPoint :=
  mkSwing swing_high (high c) (datetime c) i.
Definition low_swing (c : Candle) (i : nat) : SwingPoint :=
  mkSwing swing_low (low c) (datetime c) i.

(** A group as the list the loops build: the anchor, then the members. *)
Definition group_list {A} (g : A * list A) : list A := fst g :: snd g.

(** The kinds of signal the four detectors build, each with its direction. *)
Definition detector_vocabulary : list (string * string) :=
  [ ("FVG_Bullish", "bullish"); ("FVG_Bearish", "bearish");
    ("OB_Bullish", "bullish"); ("OB_Bearish", "bearish");
    ("MSS_Bullish", "bullish"); ("MSS_Bearish", "bearish");
    ("ChoCh_Bullish", "bullish"); ("ChoCh_Bearish", "bearish");
    ("Liquidity_EqualHighs", "bearish"); ("Liquidity_EqualLows", "bullish") ].

Definition in_vocabulary (s : SmartMoneySignal) : Prop :=
  In (signal_type s, direction s) detector_vocabulary /\ timeframe s = "current".

(** The signal carries the time of one of the frame's candles. *)
Definition stamped_in (df : DataFrame) (s : SmartMoneySignal) : Prop :=
  In (timestamp s) (map datetime (rows df)).

(** The four factors of [_calculate_ob_strength]; each is what one
    [strength += ...] statement adds. *)

(* Fator 1: tamanho do movimento de confirmacao *)
Definition ob_move_score (confirmation_move : Q) : Q :=
  if Py.Qltb 0 confirmation_move then Py.min 30 (confirmation_move * 10000) else 0.

(* Fator 2: velocidade do movimento *)
Definition ob_speed_score (confirmation_move : Q) (future_candles : DataFrame) : Q :=
  if (0 <? length (rows future_candles))%nat
  then Py.min 25 ((confirmation_move / Py.len (rows future_candles)) * 50000)
  else 0.

(* Fator 3: volume da vela OB *)
Definition ob_volume_score (ob_candle : Candle) (context : DataFrame) : Q :=
  if has_volume context && (5 <? length (rows context))%nat
  then
    let avg_volume := Py.mean (map volume (rows context)) in
    if Py.Qltb 0 avg_volume
    then Py.min 25 ((volume ob_candle / avg_volume) * 10)
    else 0
  else 15.

(* Fator 4: qualidade da vela OB *)
Definition ob_quality_score (ob_candle : Candle) : Q :=
  let body := Qabs (close ob_candle - open ob_candle) in
  let rng := high ob_candle - low ob_candle in
  if Py.Qltb 0 rng then (body / rng) * 20 else 10.

(** The percentage [x] is of [total]. *)
Definition share (x total : Q) : Q := (x / total) * 100.




(** ** The dashboard's use of the analyzer *)

(** Steps 4 and 5 of [execute_analysis]: the results dictionary stored under
    ['smart_money_signals'], with its ['all_signals'] entry overwritten by
    the filtered list. *)
Definition execute_analysis (self : Detectors) (forex_data : DataFrame)
    (pair timeframe : string) (min_signal_strength : Q) : AnalysisResults :=
  let smart_money_results := fst (analyze self forex_data pair timeframe) in
  let filtered_signals :=
    filter_signals_by_strength (all_signals smart_money_results) min_signal_strength in
  set_all_signals filtered_signals smart_money_results.

(** The signals listed by [render_signals_table]: [signals[:20]]. *)
Definition table_signals (signals : list SmartMoneySignal) : list SmartMoneySignal :=
  Py.slice 0 20 signals.

(** The confluences listed by [render_confluence_analysis]: nothing for an
    empty signal list, else [confluences[:5]]. *)
Definition shown_confluences (signals : list SmartMoneySignal) : list ConfluenceGroup :=
  match signals with
  | [] => []
  | _ => Py.slice 0 5 (get_confluence_signals signals default_price_tolerance)
  end.

(** The counters [render_key_metrics] shows for a frame that is not empty:
    all, bullish, bearish and strong signals. *)
Definition signal_counters (signals : list SmartMoneySignal) : nat * nat * nat * nat :=
  (length signals,
   length (List.filter (fun s => String.eqb (direction s) "bullish") signals),
   length (List.filter (fun s => String.eqb (direction s) "bearish") signals),
   length (List.filter (fun s => Py.Qltb 70 (strength s)) signals)).

(** ** Further sample inputs *)

Module Examples.

(** Forty-five candles on a steady climb: every high and every low lies above
    the one before. *)
Definition trend_candle (k : nat) : Candle :=
  let base := 1 + inject_Z (Z.of_nat k) / 1000 in
  mkCandle (900 * Z.of_nat k) base (base + 0.0008) (base - 0.0002) (base + 0.0005) 1000.

Definition trend45 : DataFrame := mkDF (map trend_candle (seq 0 45)) true.

(** A wider gap setting and a shorter memory than the defaults. *)
Definition strict_fvg_analyzer : FairValueGapAnalyzer := mkFVG 5 12.
Definition strict_ob_analyzer : OrderBlockAnalyzer := mkOB 8 2.

End Examples.

(** * Properties *)

(** ** Comparisons, [min], [max] and the clamp *)

Lemma Qltb_true (x y : Q) : Py.Qltb x y = true <-> x < y.
Proof.
  unfold Py.Qltb. rewrite negb_true_iff, <- not_true_iff_false, Qle_bool_iff.
  split; [apply Qnot_le_lt | apply Qlt_not_le].
Qed.

Lemma Qltb_false (x y : Q) : Py.Qltb x y = false <-> y <= x.
Proof.
  unfold Py.Qltb. rewrite negb_false_iff. apply Qle_bool_iff.
Qed.

Lemma Qltb_spec (x y : Q) : reflect (x < y) (Py.Qltb x y).
Proof.
  destruct (Py.Qltb x y) eqn:E; constructor.
  - now apply Qltb_true.
  - apply Qltb_false in E. now apply Qle_not_lt.
Qed.

#[local] Instance Qltb_proper : Proper (Qeq ==> Qeq ==> eq) Py.Qltb.
Proof. intros x x' Hx y y' Hy. unfold Py.Qltb. rewrite Hx, Hy. reflexivity. Qed.

#[local] Instance round_half_even_proper : Proper (Qeq ==> eq) Py.round_half_even.
Proof.
  intros x x' Hx. unfold Py.round_half_even.
  rewrite (Qfloor_comp _ _ Hx).
  assert (E : x - inject_Z (Qfloor x') == x' - inject_Z (Qfloor x'))
    by (rewrite Hx; reflexivity).
  rewrite (Qltb_proper _ _ E _ _ (Qeq_refl _)).
  rewrite (Qltb_proper _ _ (Qeq_refl (1 # 2)) _ _ E). reflexivity.
Qed.

#[local] Instance round1_proper : Proper (Qeq ==> Qeq) Py.round1.
Proof. intros x x' Hx. unfold Py.round1. rewrite Hx. reflexivity. Qed.

Lemma min_le_l (a b : Q) : Py.min a b <= a.
Proof. unfold Py.min. destruct (Qltb_spec b a); lra. Qed.

Lemma min_glb (a b c : Q) : c <= a -> c <= b -> c <= Py.min a b.
Proof. unfold Py.min. destruct (Qltb_spec b a); lra. Qed.

Lemma max_ge_l (a b : Q) : a <= Py.max a b.
Proof. unfold Py.max. destruct (Qltb_spec a b); lra. Qed.

Lemma clamp100_bounds (s : Q) : 0 <= Py.clamp100 s <= 100.
Proof.
  unfold Py.clamp100. split.
  - apply min_glb; [lra | apply max_ge_l].
  - apply min_le_l.
Qed.

Lemma len_nonneg {A} (l : list A) : 0 <= Py.len l.
Proof.
  unfold Py.len. change 0 with (inject_Z 0). rewrite <- Zle_Qle. lia.
Qed.

Lemma fold_plus_shift (l : list Q) (a : Q) :
  fold_left Qplus l a == a + fold_left Qplus l 0.
Proof.
  revert a. induction l as [|x l IH]; intros a; simpl.
  - lra.
  - rewrite (IH (a + x)), (IH (0 + x)). lra.
Qed.

Lemma sum_cons (x : Q) (l : list Q) : Py.sum (x :: l) == x + Py.sum l.
Proof. unfold Py.sum. simpl. rewrite fold_plus_shift. lra. Qed.

(** ** Lists, ranges and slices *)

Lemma in_range_iff (lo hi i : nat) : In i (Py.range lo hi) <-> (lo <= i < hi)%nat.
Proof. unfold Py.range. rewrite in_seq. lia. Qed.

Lemma slice_length {A} (lo hi : nat) (l : list A) :
  (hi <= length l)%nat -> length (Py.slice lo hi l) = (hi - lo)%nat.
Proof.
  intros Hhi. unfold Py.slice. rewrite length_take, length_drop. lia.
Qed.

Lemma Forall_flat_map_each {A B} (P : B -> Prop) (f : A -> list B) (l : list A) :
  (forall x, Forall P (f x)) -> Forall P (flat_map f l).
Proof.
  intros Hf. induction l as [|x l IH]; simpl; [constructor|].
  apply Forall_app. split; [apply Hf | exact IH].
Qed.

Lemma In_omap {A B} (f : A -> option B) (l : list A) (b : B) :
  In b (omap f l) <-> exists a, In a l /\ f a = Some b.
Proof.
  rewrite <- list_elem_of_In, list_elem_of_omap.
  split; intros (a & Ha & Hf); exists a; split; auto; now apply list_elem_of_In.
Qed.

(** ** Strength bounds *)

(** Cases on every test of a loop body, then the bound of the clamp. *)
Ltac by_clamp :=
  repeat case_match; repeat constructor; apply clamp100_bounds.

Section GapBounds.
Context `{Numeric}.

Lemma fvg_at_in_range self df pip i : Forall in_range (fvg_at self df pip i).
Proof. unfold fvg_at. by_clamp. Qed.

Lemma identify_fvgs_in_range self df pair :
  Forall in_range (identify_fvgs self df pair).
Proof.
  unfold identify_fvgs. repeat case_match; try constructor.
  apply List.Forall_forall. intros s [Hs _]%filter_In.
  unfold detected_fvgs in Hs. apply in_flat_map in Hs as (i & _ & Hs).
  pose proof (fvg_at_in_range self df (pip_value pair) i) as Hall.
  rewrite List.Forall_forall in Hall. exact (Hall s Hs).
Qed.
End GapBounds.

Lemma ob_at_in_range self df pip i : Forall in_range (ob_at self df pip i).
Proof. unfold ob_at, bullish_ob_signal, bearish_ob_signal. by_clamp. Qed.

Lemma identify_order_blocks_in_range self df pair :
  Forall in_range (identify_order_blocks self df pair).
Proof.
  unfold identify_order_blocks. case_match; [constructor|].
  apply Forall_flat_map_each. intros i. apply ob_at_in_range.
Qed.

Lemma structure_strength_in_range ctx ty :
  0 <= _calculate_structure_strength ctx ty <= 100.
Proof.
  unfold _calculate_structure_strength. case_match; [lra|].
  apply clamp100_bounds.
Qed.

Lemma mss_at_in_range self sp pip i : Forall in_range (mss_at self sp pip i).
Proof.
  unfold mss_at. repeat case_match; repeat constructor;
    apply structure_strength_in_range.
Qed.

Lemma choch_at_in_range self sp pip i : Forall in_range (choch_at self sp pip i).
Proof.
  unfold choch_at, _identify_change_of_character, choch_bullish, choch_bearish.
  repeat case_match; simplify_eq; repeat constructor; simpl; lra.
Qed.

Lemma structure_signals_in_range self sp pip :
  Forall in_range (structure_signals self sp pip).
Proof.
  apply Forall_flat_map_each. intros i. apply Forall_app.
  split; [apply mss_at_in_range | apply choch_at_in_range].
Qed.

Lemma identify_structure_shifts_in_range self df pair :
  Forall in_range (identify_structure_shifts self df pair).
Proof.
  unfold identify_structure_shifts. repeat case_match; try constructor.
  apply structure_signals_in_range.
Qed.

Lemma liquidity_signal_in_range kind dir g :
  Forall in_range (liquidity_signal kind dir g).
Proof.
  unfold liquidity_signal. repeat case_match; repeat constructor; simpl.
  - apply min_glb; [lra|]. pose proof (len_nonneg g). nra.
  - apply min_le_l.
Qed.

Lemma liquidity_zones_with_in_range det self df pair :
  Forall in_range (liquidity_zones_with det self df pair).
Proof.
  unfold liquidity_zones_with. case_match; [constructor|].
  apply Forall_app; split; apply Forall_flat_map_each; intros g;
    apply liquidity_signal_in_range.
Qed.

(** C2. On every frame and pair, and for every configuration of the four
    analyzers, each signal returned by the gap, order-block, structure and
    liquidity detectors has a strength between 0 and 100. *)
Theorem detector_strength_in_range `{Numeric}
    (fvg : FairValueGapAnalyzer) (ob : OrderBlockAnalyzer)
    (ms : MarketStructureAnalyzer) (liq : LiquidityAnalyzer)
    (df : DataFrame) (pair : string) :
  Forall (fun s => 0 <= strength s <= 100) (identify_fvgs fvg df pair)
  /\ Forall (fun s => 0 <= strength s <= 100) (identify_order_blocks ob df pair)
  /\ Forall (fun s => 0 <= strength s <= 100) (identify_structure_shifts ms df pair)
  /\ Forall (fun s => 0 <= strength s <= 100) (identify_liquidity_zones liq df pair).
Proof.
  repeat split.
  - apply identify_fvgs_in_range.
  - apply identify_order_blocks_in_range.
  - apply identify_structure_shifts_in_range.
  - apply liquidity_zones_with_in_range.
Qed.

(** ** The gap detector's age filter *)

Lemma age_hours_le (current_time max_age : Z) (s : SmartMoneySignal) :
  age_hours current_time s <= inject_Z max_age
  <-> (current_time - timestamp s <= 3600 * max_age)%Z.
Proof.
  unfold age_hours, Qle, Qdiv, Qmult, Qinv, inject_Z. simpl. lia.
Qed.

(** C8. On a frame of at least three rows, the list returned by
    [identify_fvgs] holds exactly the detected gap signals that are at most
    [max_age_hours] hours older than the last row; a detected signal
    timestamped more than [max_age_hours] hours before the last row is
    absent. *)
Theorem fvg_age_filter `{Numeric} (self : FairValueGapAnalyzer) (df : DataFrame)
    (pair : string) (final : Candle) :
  (3 <= length (rows df))%nat ->
  last (rows df) = Some final ->
  forall s,
    (In s (identify_fvgs self df pair) <->
       In s (detected_fvgs self df pair)
       /\ (datetime final - timestamp s <= 3600 * max_age_hours self)%Z)
    /\ ((timestamp s + 3600 * max_age_hours self < datetime final)%Z ->
        ~ In s (identify_fvgs self df pair)).
Proof.
  intros Hlen Hlast s.
  assert (Hiff : In s (identify_fvgs self df pair) <->
                 In s (detected_fvgs self df pair)
                 /\ (datetime final - timestamp s <= 3600 * max_age_hours self)%Z).
  { unfold identify_fvgs. rewrite Hlast.
    destruct (Nat.ltb_spec (length (rows df)) 3) as [Hlt|_]; [lia|].
    rewrite filter_In, Qle_bool_iff, age_hours_le. reflexivity. }
  split; [exact Hiff|].
  intros Hold Hin. apply Hiff in Hin as [_ Hle]. lia.
Qed.

(** ** The liquidity detector's length guard *)

(** C10. On a frame of fewer than 20 rows [identify_liquidity_zones] returns
    the empty list, whatever the swing-point detector would find: the result
    is the same for every detector put in its place. *)
Theorem liquidity_needs_twenty_rows (swing_detector : DataFrame -> list SwingPoint)
    (self : LiquidityAnalyzer) (df : DataFrame) (pair : string) :
  (length (rows df) < 20)%nat ->
  liquidity_zones_with swing_detector self df pair = []
  /\ identify_liquidity_zones self df pair = [].
Proof.
  intros Hlen. unfold identify_liquidity_zones, liquidity_zones_with.
  destruct (Nat.ltb_spec (length (rows df)) 20) as [_|Hge]; [split; reflexivity | lia].
Qed.

(** ** Market structure shifts *)

Lemma choch_at_types self sp pip i s :
  In s (choch_at self sp pip i) ->
  signal_type s = "ChoCh_Bullish" \/ signal_type s = "ChoCh_Bearish".
Proof.
  unfold choch_at, _identify_change_of_character, choch_bullish, choch_bearish.
  repeat case_match; simplify_eq; simpl; intuition (subst; simpl; auto).
Qed.

Lemma SwingType_eqb_eq a b : SwingType_eqb a b = true <-> a = b.
Proof. destruct a, b; simpl; split; congruence. Qed.

Ltac split_andb :=
  repeat match goal with
  | Hc : _ && _ = true |- _ => apply andb_prop in Hc as [? ?]
  end.

(** What [mss_at] appends, case by case. *)
Lemma mss_at_cases self sp pip i s :
  In s (mss_at self sp pip i) ->
  exists cur prev2,
    sp !! i = Some cur /\ sp !! (i - 2)%nat = Some prev2
    /\ price s = sw_price cur /\ timestamp s = sw_timestamp cur
    /\ ((signal_type s = "MSS_Bullish" /\ direction s = "bullish"
         /\ sw_type cur = swing_high /\ sw_type prev2 = swing_high
         /\ sw_price prev2 < sw_price cur
         /\ min_break_pips self <= (sw_price cur - sw_price prev2) / pip)
        \/ (signal_type s = "MSS_Bearish" /\ direction s = "bearish"
            /\ sw_type cur = swing_low /\ sw_type prev2 = swing_low
            /\ sw_price cur < sw_price prev2
            /\ min_break_pips self <= (sw_price prev2 - sw_price cur) / pip)).
Proof.
  unfold mss_at.
  destruct (sp !! i) as [cur|]; [|intros []].
  destruct (sp !! (i - 1)%nat) as [prev|]; [|intros []].
  destruct (sp !! (i - 2)%nat) as [prev2|]; [|intros []].
  intros Hin. exists cur, prev2. split; [reflexivity|]. split; [reflexivity|].
  repeat case_match; simpl in Hin; try contradiction;
    destruct Hin as [<-|[]]; simpl; (split; [reflexivity|]); (split; [reflexivity|]).
  - left. split_andb.
    repeat split; try reflexivity;
      try (now apply SwingType_eqb_eq);
      try (now apply Qltb_true); now apply Qle_bool_iff.
  - right. split_andb.
    repeat split; try reflexivity;
      try (now apply SwingType_eqb_eq);
      try (now apply Qltb_true); now apply Qle_bool_iff.
Qed.

(** The swing between the two plays no part: with swings [i] and [i - 2]
    both highs and the break large enough, the signal is appended whatever
    swing [i - 1] is. *)
Lemma mss_bullish_fires self sp pip i cur prev prev2 :
  sp !! i = Some cur -> sp !! (i - 1)%nat = Some prev -> sp !! (i - 2)%nat = Some prev2 ->
  sw_type cur = swing_high -> sw_type prev2 = swing_high ->
  sw_price prev2 < sw_price cur ->
  min_break_pips self <= (sw_price cur - sw_price prev2) / pip ->
  exists s, mss_at self sp pip i = [s] /\ signal_type s = "MSS_Bullish"
            /\ price s = sw_price cur /\ timestamp s = sw_timestamp cur.
Proof.
  intros Hc Hp Hpp Htc Htp Hlt Hbreak. unfold mss_at.
  rewrite Hc, Hp, Hpp, Htc, Htp. cbn [SwingType_eqb andb].
  apply Qltb_true in Hlt. rewrite Hlt.
  apply Qle_bool_iff in Hbreak. rewrite Hbreak.
  eexists. repeat split; reflexivity.
Qed.

Lemma identify_structure_shifts_signals self df pair s :
  In s (identify_structure_shifts self df pair) ->
  In s (structure_signals self (_identify_swing_points df 5) (pip_value pair)).
Proof.
  unfold identify_structure_shifts. repeat case_match; [intros []|intros []|auto].
Qed.

(** C3, as amended. For every swing-point sequence, a bullish MSS signal is
    emitted at swing index [i] only when swings [i] and [i - 2] are both highs
    and the price of swing [i] exceeds that of swing [i - 2] by at least
    [min_break_pips] pips; a bearish one only when both are lows and the
    price of swing [i] is below that of swing [i - 2] by at least
    [min_break_pips] pips. Nothing is required of swing [i - 1]. *)
Theorem mss_only_on_break (self : MarketStructureAnalyzer)
    (swing_points : list SwingPoint) (pip : Q) (s : SmartMoneySignal) :
  In s (structure_signals self swing_points pip) ->
  (signal_type s = "MSS_Bullish" ->
     exists i cur prev2,
       (2 <= i < length swing_points)%nat
       /\ swing_points !! i = Some cur /\ swing_points !! (i - 2)%nat = Some prev2
       /\ price s = sw_price cur /\ timestamp s = sw_timestamp cur
       /\ sw_type cur = swing_high /\ sw_type prev2 = swing_high
       /\ sw_price prev2 < sw_price cur
       /\ min_break_pips self <= (sw_price cur - sw_price prev2) / pip)
  /\ (signal_type s = "MSS_Bearish" ->
     exists i cur prev2,
       (2 <= i < length swing_points)%nat
       /\ swing_points !! i = Some cur /\ swing_points !! (i - 2)%nat = Some prev2
       /\ price s = sw_price cur /\ timestamp s = sw_timestamp cur
       /\ sw_type cur = swing_low /\ sw_type prev2 = swing_low
       /\ sw_price cur < sw_price prev2
       /\ min_break_pips self <= (sw_price prev2 - sw_price cur) / pip).
Proof.
  intros Hin. unfold structure_signals in Hin.
  apply in_flat_map in Hin as (i & Hi & Hs).
  apply in_range_iff in Hi. apply in_app_or in Hs as [Hs|Hs].
  - apply mss_at_cases in Hs as (cur & prev2 & Hc & Hp & Hpr & Hts & Hcase).
    split; intros Hty.
    + destruct Hcase as [(_ & _ & ? & ? & ? & ?)|(Hb & _)]; [|congruence].
      exists i, cur, prev2. repeat split; auto; lia.
    + destruct Hcase as [(Hb & _)|(_ & _ & ? & ? & ? & ?)]; [congruence|].
      exists i, cur, prev2. repeat split; auto; lia.
  - apply choch_at_types in Hs as [Hs|Hs]; split; intros Hty; congruence.
Qed.

(** ** Order blocks *)




(** ** The relative-volume factor of a gap's strength *)

Lemma fvg_context_length df i :
  (i < length (rows df))%nat ->
  length (rows (fvg_context df i)) = (Nat.min i 10 + 1)%nat.
Proof.
  intros Hi. unfold fvg_context, iloc_slice. simpl.
  rewrite slice_length; lia.
Qed.

Section VolumeScore.
Context `{Numeric}.

Lemma fvg_at_strength self df pip i s :
  In s (fvg_at self df pip i) ->
  exists impulse gap_pips,
    rows df !! (i - 1)%nat = Some impulse
    /\ (i < length (rows df))%nat
    /\ strength s = _calculate_fvg_strength gap_pips impulse (fvg_context df i).
Proof.
  unfold fvg_at.
  destruct (rows df !! (i - 2)%nat) as [c1|]; [|intros []].
  destruct (rows df !! (i - 1)%nat) as [c2|]; [|intros []].
  destruct (rows df !! i) as [c3|] eqn:E3; [|intros []].
  apply lookup_lt_Some in E3.
  intros Hin. exists c2.
  repeat case_match; simpl in Hin; try contradiction;
    destruct Hin as [<-|[]]; eexists; (split; [reflexivity|]);
    (split; [exact E3|]); reflexivity.
Qed.

(** C4, as amended. For every gap signal appended at index [i], with the
    impulse candle [i - 1] and the context window [df[max(0, i-10) : i+1]]:
    the relative-volume factor of its strength is
    [min(25, (impulse_volume / mean_context_volume) * 10)] when the frame has
    a volume column, at least 5 candles precede candle [i] and the mean
    context volume is positive; it is 0 when the column is there, at least 5
    candles precede and the mean is not positive; it is the flat 15 when
    there is no volume column or fewer than 5 candles precede. No case
    divides by a zero mean. *)
Theorem fvg_volume_subscore (self : FairValueGapAnalyzer) (df : DataFrame)
    (pip : Q) (i : nat) (s : SmartMoneySignal) :
  In s (fvg_at self df pip i) ->
  exists impulse gap_pips,
    rows df !! (i - 1)%nat = Some impulse
    /\ let context := fvg_context df i in
       let avg_volume := Py.mean (map volume (rows context)) in
       strength s
         = Py.clamp100 (0.0 + fvg_gap_score gap_pips + fvg_impulse_score impulse
                        + fvg_volume_score impulse context + fvg_trend_score context)
       /\ (has_volume df = true -> (5 <= i)%nat -> 0 < avg_volume ->
           fvg_volume_score impulse context
             = Py.min 25 ((volume impulse / avg_volume) * 10))
       /\ (has_volume df = true -> (5 <= i)%nat -> avg_volume <= 0 ->
           fvg_volume_score impulse context = 0)
       /\ (has_volume df = false \/ (i < 5)%nat ->
           fvg_volume_score impulse context = 15).
Proof.
  intros Hin. apply fvg_at_strength in Hin as (impulse & gap & Himp & Hi & Hs).
  exists impulse, gap. split; [exact Himp|]. cbv zeta.
  split; [exact Hs|].
  unfold fvg_volume_score. rewrite fvg_context_length by exact Hi.
  change (has_volume (fvg_context df i)) with (has_volume df).
  repeat split.
  - intros -> H5 Havg.
    destruct (Nat.ltb_spec 5 (Nat.min i 10 + 1)); [|lia]. cbn [andb].
    apply Qltb_true in Havg. rewrite Havg. reflexivity.
  - intros -> H5 Havg.
    destruct (Nat.ltb_spec 5 (Nat.min i 10 + 1)); [|lia]. cbn [andb].
    apply Qltb_false in Havg. rewrite Havg. reflexivity.
  - intros [-> | H5]; [reflexivity|].
    destruct (Nat.ltb_spec 5 (Nat.min i 10 + 1)); [lia|].
    rewrite andb_false_r. reflexivity.
Qed.
End VolumeScore.

(** ** Failure of a detector inside [analyze] *)

(** C1, as amended. For every frame and pair, [analyze] returns whatever its
    detectors do. When a detector raises, the exception is caught and logged
    and the run stops there: the detectors called before it keep their
    signals in the result, the failing detector's category and the
    categories of the detectors after it (in the order gaps, order blocks,
    structure, liquidity) are empty, and [all_signals] is empty. When none
    raises, every category holds its detector's signals and [all_signals] is
    their concatenation, newest first. *)
Theorem analyze_stops_at_first_failure (self : Detectors) (df : DataFrame)
    (pair timeframe : string) :
  match call_identify_fvgs self df pair with
  | Raised e =>
      analyze self df pair timeframe
      = (empty_results,
         [LogInfo "Analisando Fair Value Gaps..."; LogError e])
  | Returned fvgs =>
    match call_identify_order_blocks self df pair with
    | Raised e =>
        analyze self df pair timeframe
        = (mkResults fvgs [] [] [] [],
           [LogInfo "Analisando Fair Value Gaps...";
            LogInfo "Analisando Order Blocks..."; LogError e])
    | Returned obs =>
      match call_identify_structure_shifts self df pair with
      | Raised e =>
          analyze self df pair timeframe
          = (mkResults fvgs obs [] [] [],
             [LogInfo "Analisando Fair Value Gaps...";
              LogInfo "Analisando Order Blocks...";
              LogInfo "Analisando Market Structure..."; LogError e])
      | Returned mss =>
        match call_identify_liquidity_zones self df pair with
        | Raised e =>
            analyze self df pair timeframe
            = (mkResults fvgs obs mss [] [],
               [LogInfo "Analisando Fair Value Gaps...";
                LogInfo "Analisando Order Blocks...";
                LogInfo "Analisando Market Structure...";
                LogInfo "Analisando Liquidez..."; LogError e])
        | Returned liq =>
            let all := sort_newest_first (fvgs ++ obs ++ mss ++ liq) in
            analyze self df pair timeframe
            = (mkResults fvgs obs mss liq all,
               [LogInfo "Analisando Fair Value Gaps...";
                LogInfo "Analisando Order Blocks...";
                LogInfo "Analisando Market Structure...";
                LogInfo "Analisando Liquidez..."; LogComplete (length all)])
        end
      end
    end
  end.
Proof.
  unfold analyze, analyze_body, Run.try_except, Run.bind, Run.call, Run.log,
    Run.update, Run.get.
  destruct (call_identify_fvgs self df pair) as [fvgs|e]; [|reflexivity].
  destruct (call_identify_order_blocks self df pair) as [obs|e]; [|reflexivity].
  destruct (call_identify_structure_shifts self df pair) as [mss|e]; [|reflexivity].
  destruct (call_identify_liquidity_zones self df pair) as [liq|e]; reflexivity.
Qed.

(** ** Market bias *)

(** The scoring loop adds up [direction_weight] for the two directions. *)
Lemma score_fold (signals : list SmartMoneySignal) (acc : Q * Q) :
  fst (fold_left score_step signals acc) == fst acc + direction_weight "bullish" signals
  /\ snd (fold_left score_step signals acc) == snd acc + direction_weight "bearish" signals.
Proof.
  revert acc. induction signals as [|s l IH]; intros [b r]; simpl.
  - unfold direction_weight, Py.sum. simpl. split; lra.
  - destruct (IH (score_step (b, r) s)) as [Hb Hr]. rewrite Hb, Hr.
    unfold score_step, direction_weight. simpl.
    destruct (String.eqb_spec (direction s) "bullish") as [E|E].
    + rewrite E. simpl. rewrite sum_cons. split; lra.
    + destruct (String.eqb_spec (direction s) "bearish") as [E'|E'].
      * simpl. rewrite sum_cons. split; lra.
      * simpl. split; lra.
Qed.


(** ** The greedy loops compute the first-anchor grouping *)

Section GreedyRefinement.
Context {A B : Type} (matches : A -> A -> bool) (emit : list A -> option B).

Lemma unused_ext (U V : gset nat) (start : nat) (l : list A) :
  (forall k, (start <= k)%nat -> k ∈ U <-> k ∈ V) ->
  unused U start l = unused V start l.
Proof.
  revert start. induction l as [|x r IH]; intros start Hext; simpl; [reflexivity|].
  rewrite (IH (S start)) by (intros k Hk; apply Hext; lia).
  rewrite (bool_decide_ext (start ∈ U) (start ∈ V)) by (apply Hext; lia).
  reflexivity.
Qed.

Lemma unused_empty (start : nat) (l : list A) : unused ∅ start l = l.
Proof.
  revert start. induction l as [|x r IH]; intros start; simpl; [reflexivity|].
  rewrite IH. rewrite bool_decide_eq_false_2 by apply not_elem_of_empty. reflexivity.
Qed.

Lemma unused_mark_earlier (used : gset nat) (start : nat) (l : list A) :
  unused (used ∪ {[start]}) (S start) l = unused used (S start) l.
Proof.
  apply unused_ext. intros k Hk.
  rewrite elem_of_union, elem_of_singleton. split; [|tauto].
  intros [Hin|Heq]; [exact Hin | lia].
Qed.

(** The inner loop collects the unused elements the anchor accepts, in
    order, and marks exactly those. *)
Lemma collect_spec (point : A) (l : list A) (start : nat) (group : list A)
    (used : gset nat) :
  exists used',
    fold_left (collect_step matches point) (Py.enumerate start l) (group, used)
      = (group ++ List.filter (matches point) (unused used start l), used')
    /\ (forall k, (k < start)%nat -> k ∈ used' <-> k ∈ used)
    /\ unused used' start l
       = List.filter (fun x => negb (matches point x)) (unused used start l).
Proof.
  revert start group used. induction l as [|x r IH]; intros start group used; simpl.
  - exists used. rewrite app_nil_r. repeat split; auto.
  - destruct (bool_decide (start ∈ used)) eqn:Eu.
    + apply bool_decide_eq_true in Eu.
      destruct (IH (S start) group used) as (U' & Hfold & Hlow & Hrest).
      exists U'. rewrite Hfold. split; [reflexivity|].
      split; [intros k Hk; apply Hlow; lia|].
      rewrite bool_decide_eq_true_2 by (apply Hlow; [lia | exact Eu]).
      exact Hrest.
    + apply bool_decide_eq_false in Eu.
      destruct (matches point x) eqn:Em.
      * destruct (IH (S start) (group ++ [x]) (used ∪ {[start]}))
          as (U' & Hfold & Hlow & Hrest).
        rewrite unused_mark_earlier in Hfold, Hrest.
        exists U'. rewrite Hfold. simpl. rewrite Em. rewrite <- app_assoc. simpl.
        split; [reflexivity|].
        split.
        { intros k Hk. rewrite Hlow by lia.
          rewrite elem_of_union, elem_of_singleton. split; [|tauto].
          intros [Hin|Heq]; [exact Hin | lia]. }
        rewrite bool_decide_eq_true_2
          by (apply Hlow; [lia | apply elem_of_union_r, elem_of_singleton; reflexivity]).
        exact Hrest.
      * destruct (IH (S start) group used) as (U' & Hfold & Hlow & Hrest).
        exists U'. rewrite Hfold. simpl. rewrite Em.
        split; [reflexivity|].
        split; [intros k Hk; apply Hlow; lia|].
        rewrite bool_decide_eq_false_2
          by (intros Hin; apply Hlow in Hin; [contradiction | lia]).
        rewrite Hrest. reflexivity.
Qed.

Lemma place_fold_head (l : list A) (a : A) (members : list A)
    (rest : list (A * list A)) :
  fold_left (fun groups p => place matches p groups) l ((a, members) :: rest)
  = (a, members ++ List.filter (matches a) l)
      :: fold_left (fun groups p => place matches p groups)
           (List.filter (fun x => negb (matches a x)) l) rest.
Proof.
  revert members rest. induction l as [|p l IH]; intros members rest; simpl.
  - rewrite app_nil_r. reflexivity.
  - destruct (matches a p) eqn:Em; simpl.
    + rewrite IH, <- app_assoc. reflexivity.
    + rewrite IH. reflexivity.
Qed.

Lemma first_anchor_groups_cons (x : A) (l : list A) :
  first_anchor_groups matches (x :: l)
  = (x :: List.filter (matches x) l)
      :: first_anchor_groups matches (List.filter (fun y => negb (matches x y)) l).
Proof.
  unfold first_anchor_groups. simpl. rewrite place_fold_head. reflexivity.
Qed.

(** The outer loop, started anywhere in the list. *)
Lemma anchor_scan_spec (xs l : list A) (start : nat) (out : list B) (used : gset nat) :
  drop start xs = l ->
  fst (fold_left (anchor_step matches emit xs) (Py.enumerate start l) (out, used))
  = out ++ omap emit (first_anchor_groups matches (unused used start l)).
Proof.
  revert start out used. induction l as [|x r IH]; intros start out used Hdrop.
  - simpl. rewrite app_nil_r. reflexivity.
  - assert (Hr : drop (S start) xs = r).
    { replace (S start) with (start + 1)%nat by lia.
      rewrite <- drop_drop, Hdrop. reflexivity. }
    cbn [Py.enumerate fold_left unused]. unfold anchor_step at 2.
    destruct (bool_decide (start ∈ used)) eqn:Eu.
    + apply (IH (S start) out used Hr).
    + rewrite Nat.add_1_r, Hr.
      destruct (collect_spec x r (S start) [x] (used ∪ {[start]}))
        as (U' & Hfold & _ & Hrest).
      rewrite unused_mark_earlier in Hfold, Hrest. rewrite Hfold.
      rewrite first_anchor_groups_cons. cbn [omap list_omap app].
      destruct (emit (x :: List.filter (matches x) (unused used (S start) r))) as [b|].
      * rewrite (IH (S start) (out ++ [b]) U' Hr), Hrest, <- app_assoc. reflexivity.
      * rewrite (IH (S start) out U' Hr), Hrest. reflexivity.
Qed.

Lemma greedy_scan_first_anchor (xs : list A) :
  greedy_scan matches emit xs = omap emit (first_anchor_groups matches xs).
Proof.
  unfold greedy_scan. rewrite (anchor_scan_spec xs xs 0 [] ∅) by reflexivity.
  rewrite unused_empty. reflexivity.
Qed.

(** The first-anchor grouping is what its name says. *)
Lemma place_rejects (a p : A) (groups : list (A * list A)) :
  matches a p = false ->
  Forall (rejects matches a) groups ->
  Forall (rejects matches a) (place matches p groups).
Proof.
  intros Hp. induction 1 as [|[b members] rest [Hb Hms] Hrest IH]; simpl.
  - repeat constructor; assumption.
  - destruct (matches b p).
    + constructor; [|assumption]. split; [exact Hb|].
      apply Forall_app. split; [exact Hms | repeat constructor; exact Hp].
    + constructor; [split; assumption | exact IH].
Qed.

Lemma place_ok (p : A) (groups : list (A * list A)) :
  first_anchor_ok matches groups -> first_anchor_ok matches (place matches p groups).
Proof.
  induction 1 as [|a members rest Hms Hrej Hok IH]; simpl.
  - repeat constructor.
  - destruct (matches a p) eqn:Em.
    + constructor; [|assumption|assumption].
      apply Forall_app. split; [exact Hms | repeat constructor; exact Em].
    + constructor; [exact Hms | apply place_rejects; assumption | exact IH].
Qed.

Lemma fold_place_ok (xs : list A) (groups : list (A * list A)) :
  first_anchor_ok matches groups ->
  first_anchor_ok matches (fold_left (fun gs p => place matches p gs) xs groups).
Proof.
  revert groups. induction xs as [|p xs IH]; intros groups Hok; simpl.
  - exact Hok.
  - apply IH, place_ok, Hok.
Qed.
End GreedyRefinement.

(** ** Sorting *)

Section SortFacts.
Context {A : Type} (key : A -> Q).

Lemma insert_by_desc_In (x y : A) (l : list A) :
  In y (Py.insert_by_desc key x l) <-> y = x \/ In y l.
Proof.
  induction l as [|z l IH]; simpl; [intuition congruence|].
  destruct (Py.Qltb (key x) (key z)); simpl; [rewrite IH|]; intuition congruence.
Qed.

Lemma sort_by_desc_In (y : A) (l : list A) :
  In y (Py.sort_by_desc key l) <-> In y l.
Proof.
  induction l as [|x l IH]; simpl; [tauto|].
  rewrite insert_by_desc_In, IH. intuition congruence.
Qed.

Lemma insert_by_desc_HdRel (x a : A) (l : list A) :
  key x <= key a -> HdRel (fun u v => key v <= key u) a l ->
  HdRel (fun u v => key v <= key u) a (Py.insert_by_desc key x l).
Proof.
  intros Hxa Hhd. destruct l as [|z l]; simpl.
  - constructor. exact Hxa.
  - destruct (Py.Qltb (key x) (key z)); constructor.
    + inversion Hhd; assumption.
    + exact Hxa.
Qed.

Lemma insert_by_desc_sorted (x : A) (l : list A) :
  Sorted (fun u v => key v <= key u) l ->
  Sorted (fun u v => key v <= key u) (Py.insert_by_desc key x l).
Proof.
  induction 1 as [|z l Hs IH Hhd]; simpl.
  - repeat constructor.
  - destruct (Qltb_spec (key x) (key z)) as [Hlt|Hge].
    + constructor; [exact IH|].
      apply insert_by_desc_HdRel; [lra | exact Hhd].
    + constructor; [constructor; assumption|]. constructor.
      apply Qnot_lt_le. exact Hge.
Qed.

Lemma sort_by_desc_sorted (l : list A) :
  Sorted (fun u v => key v <= key u) (Py.sort_by_desc key l).
Proof.
  induction l as [|x l IH]; simpl; [constructor|].
  apply insert_by_desc_sorted, IH.
Qed.
End SortFacts.

(** ** Confluence groups and equal levels *)

Lemma within_tolerance_iff (tol p q : Q) :
  within_tolerance tol p q = true <-> Qabs (p - q) <= p * tol.
Proof. unfold within_tolerance. apply Qle_bool_iff. Qed.

Lemma get_confluence_signals_eq (l : list SmartMoneySignal) (tol : Q) :
  get_confluence_signals l tol
  = Py.sort_by_desc combined_strength
      (omap emit_confluence (first_anchor_groups (price_match tol) l)).
Proof.
  unfold get_confluence_signals.
  rewrite (greedy_scan_first_anchor _ _ l). reflexivity.
Qed.

(** C6, as amended. For every signal list, the signals are grouped by first
    anchor: going through the list in order, a signal joins the first group
    whose anchor's price it is within [price_tolerance] times that anchor's
    price of, and otherwise opens a group as its anchor. Every group of two
    or more becomes a confluence with
    [combined_strength = min(100, mean of member strengths * 1.2)] and a
    dominant direction by majority, ties going to bearish; the returned list
    is sorted by [combined_strength], descending. In particular a list of two
    signals whose prices differ by less than [price_tolerance] times the
    first one's price gives the one group of both. *)
Theorem confluence_first_anchor (l : list SmartMoneySignal) (tol : Q) :
  let result := get_confluence_signals l tol in
  result
  = Py.sort_by_desc combined_strength
      (omap emit_confluence (first_anchor_groups (price_match tol) l))
  /\ (forall g, In g result ->
        In (signals g) (first_anchor_groups (price_match tol) l)
        /\ (2 <= length (signals g))%nat
        /\ combined_strength g
           = Py.min 100
               ((Py.sum (map strength (signals g)) / Py.len (signals g)) * 1.2)
        /\ dominant_direction g
           = if (count_direction "bearish" (signals g)
                 <? count_direction "bullish" (signals g))%nat
             then "bullish" else "bearish")
  /\ Sorted (fun g h => combined_strength h <= combined_strength g) result
  /\ first_anchor_ok (price_match tol)
       (fold_left (fun groups p => place (price_match tol) p groups) l [])
  /\ (forall a b, Qabs (price a - price b) < price a * tol ->
        get_confluence_signals [a; b] tol = [confluence_of [a; b]]).
Proof.
  intros result. subst result. rewrite get_confluence_signals_eq.
  split; [reflexivity|]. split; [|split; [|split]].
  - intros g Hg. apply sort_by_desc_In, In_omap in Hg as (grp & Hgrp & Hemit).
    unfold emit_confluence in Hemit.
    destruct (Nat.leb_spec 2 (length grp)) as [Hlen|]; [|discriminate].
    injection Hemit as <-. simpl. auto.
  - apply sort_by_desc_sorted.
  - apply fold_place_ok. constructor.
  - intros a b Hab. rewrite get_confluence_signals_eq.
    unfold first_anchor_groups, price_match. simpl.
    assert (Hm : within_tolerance tol (price a) (price b) = true)
      by (apply within_tolerance_iff; lra).
    rewrite Hm. reflexivity.
Qed.

(** C7. [_find_equal_levels] groups the swing points by first anchor: going
    through them in order, a point joins the first group whose anchor's price
    it is within [equal_level_tolerance] (default 0.0002) times that anchor's
    price of, and otherwise opens a group as its anchor; groups of two or
    more are returned, each sorted by timestamp. Four swing highs at 1.1000,
    1.1001, 1.1050 and 1.1051 give exactly two groups of two. *)
Theorem equal_levels_first_anchor (self : LiquidityAnalyzer)
    (swing_points : list SwingPoint) (level_type : string) :
  _find_equal_levels self swing_points level_type
  = omap emit_level
      (first_anchor_groups (level_match (equal_level_tolerance self)) swing_points)
  /\ first_anchor_ok (level_match (equal_level_tolerance self))
       (fold_left
          (fun groups p => place (level_match (equal_level_tolerance self)) p groups)
          swing_points [])
  /\ equal_level_tolerance default_liquidity_analyzer == 0.0002
  /\ _find_equal_levels default_liquidity_analyzer Samples.four_highs "high"
     = [ [ Samples.swing_high_at 1.1000 0 6; Samples.swing_high_at 1.1001 9900 17 ];
         [ Samples.swing_high_at 1.1050 19800 28; Samples.swing_high_at 1.1051 29700 39 ] ].
Proof.
  split; [|split; [apply fold_place_ok; constructor|];
             split; [reflexivity | vm_compute; reflexivity]].
  unfold _find_equal_levels.
  destruct swing_points as [|x [|y r]]; [reflexivity | reflexivity |].
  cbn [length Nat.ltb Nat.leb].
  rewrite (greedy_scan_first_anchor _ _ (x :: y :: r)). reflexivity.
Qed.

(** ** Concrete runs *)

Section ConcreteRuns.
Import Samples.

(** Counterexample to C1 as stated: the gap detector raises, the order-block detector
    would return one signal on this frame, and yet [order_blocks] and
    [all_signals] come back empty. *)
Lemma analyze_skips_later_detectors :
  exists ob,
    call_identify_fvgs failing_gap_detector rally12 "EURUSD"
      = Raised "KeyError: 'datetime'"
    /\ call_identify_order_blocks failing_gap_detector rally12 "EURUSD" = Returned [ob]
    /\ order_blocks (fst (analyze failing_gap_detector rally12 "EURUSD" "15m")) = []
    /\ all_signals (fst (analyze failing_gap_detector rally12 "EURUSD" "15m")) = [].
Proof.
  eexists. split; [reflexivity|]. split; [vm_compute; reflexivity|].
  split; reflexivity.
Qed.

(** Counterexample to C3 as stated: the four swing points of this frame are all highs,
    and MSS signals are emitted at swing indices 2 and 3, between highs with a
    high, not a low, in the middle. *)
Lemma mss_fires_between_three_highs :
  map (fun p => (sw_type p, sw_timestamp p)) (_identify_swing_points spikes50 5)
  = [ (swing_high, 7200%Z); (swing_high, 17100%Z);
      (swing_high, 27000%Z); (swing_high, 36900%Z) ]
  /\ map (fun s => (signal_type s, timestamp s))
       (identify_structure_shifts default_structure_analyzer spikes50 "EURUSD")
     = [ ("MSS_Bullish", 27000%Z); ("MSS_Bullish", 36900%Z) ].
Proof. split; vm_compute; reflexivity. Qed.

(** Counterexample to C4 as stated: on a frame whose volume column is zero throughout,
    the gap at index 5 has five candles before it and a zero mean context
    volume, and its relative-volume factor is 0, not the fallback 15. *)
Lemma zero_mean_volume_scores_zero :
  exists s impulse,
    @identify_fvgs Reference.numeric default_fvg_analyzer gap_zero_volume "EURUSD" = [s]
    /\ @fvg_at Reference.numeric default_fvg_analyzer gap_zero_volume 0.0001 5 = [s]
    /\ rows gap_zero_volume !! 4%nat = Some impulse
    /\ has_volume gap_zero_volume = true
    /\ Py.mean (map volume (rows (fvg_context gap_zero_volume 5))) == 0
    /\ fvg_volume_score impulse (fvg_context gap_zero_volume 5) == 0
    /\ ~ fvg_volume_score impulse (fvg_context gap_zero_volume 5) == 15
    /\ strength s == 25 + (30 # 34) * 25 + 0 + 12.5.
Proof.
  eexists. eexists.
  split; [vm_compute; reflexivity|]. split; [vm_compute; reflexivity|].
  split; [reflexivity|]. split; [reflexivity|].
  split; [vm_compute; reflexivity|]. split; [vm_compute; reflexivity|].
  split; [vm_compute; discriminate | vm_compute; reflexivity].
Qed.


(** Counterexample to C6 as stated: the second and third signal differ by 2 pips, less
    than the tolerance times any of the three prices, and they are not
    placed in one group: the second joined the first signal's group and the
    third, 11 pips from the first, is left alone. *)
Lemma close_signals_in_different_groups :
  Qabs (price near2 - price near3) < 0.001 * price near1
  /\ Qabs (price near2 - price near3) < 0.001 * price near2
  /\ Qabs (price near2 - price near3) < 0.001 * price near3
  /\ map signals (get_confluence_signals [near1; near2; near3] 0.001)
     = [[near1; near2]].
Proof.
  vm_compute. repeat split; reflexivity.
Qed.


(** *** The theorems at work *)

Lemma mss_only_on_break_witness :
  In three_highs_break
    (structure_signals default_structure_analyzer three_highs 0.0001)
  /\ exists i cur prev2,
       (2 <= i < length three_highs)%nat
       /\ three_highs !! i = Some cur /\ three_highs !! (i - 2)%nat = Some prev2
       /\ price three_highs_break = sw_price cur
       /\ timestamp three_highs_break = sw_timestamp cur
       /\ sw_type cur = swing_high /\ sw_type prev2 = swing_high
       /\ sw_price prev2 < sw_price cur
       /\ min_break_pips default_structure_analyzer
          <= (sw_price cur - sw_price prev2) / 0.0001.
Proof.
  assert (Hin : In three_highs_break
                  (structure_signals default_structure_analyzer three_highs 0.0001))
    by (vm_compute; left; reflexivity).
  split; [exact Hin|].
  exact (proj1 (mss_only_on_break default_structure_analyzer three_highs 0.0001
                  three_highs_break Hin) eq_refl).
Defined.

Lemma fvg_volume_subscore_witness :
  exists s impulse,
    In s (@fvg_at Reference.numeric default_fvg_analyzer gap_then_gap 0.0001 5)
    /\ rows gap_then_gap !! 4%nat = Some impulse
    /\ fvg_volume_score impulse (fvg_context gap_then_gap 5)
       = Py.min 25
           ((volume impulse
             / Py.mean (map volume (rows (fvg_context gap_then_gap 5)))) * 10).
Proof.
  pose (s := nth 0 (@fvg_at Reference.numeric default_fvg_analyzer gap_then_gap 0.0001 5)
               (bull 0 0)).
  assert (Hin : In s (@fvg_at Reference.numeric default_fvg_analyzer gap_then_gap 0.0001 5))
    by (vm_compute; left; reflexivity).
  destruct (@fvg_volume_subscore Reference.numeric default_fvg_analyzer gap_then_gap
              0.0001 5 s Hin) as (impulse & gap_pips & Himp & _ & Hpos & _ & _).
  exists s, impulse. split; [exact Hin|]. split; [exact Himp|].
  apply Hpos; [reflexivity | lia |].
  vm_compute. reflexivity.
Defined.

Lemma fvg_age_filter_witness :
  timestamp old_gap = 18000%Z /\ timestamp recent_gap = 136800%Z
  /\ ~ In old_gap (@identify_fvgs Reference.numeric default_fvg_analyzer gap_then_gap "EURUSD")
  /\ In recent_gap (@identify_fvgs Reference.numeric default_fvg_analyzer gap_then_gap "EURUSD").
Proof.
  assert (Hlen : (3 <= length (rows gap_then_gap))%nat) by (vm_compute; lia).
  assert (Hlast : last (rows gap_then_gap) = Some (quiet 136800 1.0896 1000))
    by reflexivity.
  split; [reflexivity|]. split; [reflexivity|]. split.
  - apply (proj2 (@fvg_age_filter Reference.numeric default_fvg_analyzer gap_then_gap
                    "EURUSD" _ Hlen Hlast old_gap)).
    vm_compute. reflexivity.
  - apply (proj1 (@fvg_age_filter Reference.numeric default_fvg_analyzer gap_then_gap
                    "EURUSD" _ Hlen Hlast recent_gap)).
    split; [vm_compute; right; left; reflexivity | vm_compute; discriminate].
Defined.


Lemma liquidity_needs_twenty_rows_witness :
  length (_find_equal_levels default_liquidity_analyzer
            (swings_of_type swing_high (_identify_swing_points flat15 5)) "high") = 1%nat
  /\ identify_liquidity_zones default_liquidity_analyzer flat15 "EURUSD" = [].
Proof.
  split; [vm_compute; reflexivity|].
  assert (Hlen : (length (rows flat15) < 20)%nat) by (vm_compute; lia).
  exact (proj2 (liquidity_needs_twenty_rows (fun d => _identify_swing_points d 5)
                  default_liquidity_analyzer flat15 "EURUSD" Hlen)).
Defined.


Lemma confluence_first_anchor_witness :
  get_confluence_signals near_pair 0.001 = [confluence_of near_pair].
Proof.
  pose proof (confluence_first_anchor near_pair 0.001) as Hrule. cbv zeta in Hrule.
  destruct Hrule as (_ & _ & _ & _ & Hpair).
  apply Hpair. vm_compute. reflexivity.
Defined.
End ConcreteRuns.

(** * Further properties *)

(** ** Columns, windows and slices *)

Lemma fold_max_spec (r : list Q) (a : Q) :
  let m := fold_left (fun m y => if Py.Qltb m y then y else m) r a in
  (m = a \/ In m r) /\ a <= m /\ Forall (fun x => x <= m) r.
Proof.
  revert a. induction r as [|y r IH]; intros a; simpl.
  - split; [left; reflexivity|]. split; [lra | constructor].
  - destruct (Qltb_spec a y) as [Hlt|Hge].
    + destruct (IH y) as (Hin & Hle & Hall).
      split; [destruct Hin as [->|Hin]; auto|].
      split; [lra|]. constructor; assumption.
    + destruct (IH a) as (Hin & Hle & Hall).
      split; [destruct Hin as [Heq|Hin]; auto|].
      split; [exact Hle|]. constructor; [lra | assumption].
Qed.

Lemma col_max_spec (l : list Q) (m : Q) :
  Py.col_max l = Some m -> In m l /\ Forall (fun x => x <= m) l.
Proof.
  destruct l as [|x r]; [discriminate|]. intros [= <-].
  destruct (fold_max_spec r x) as (Hin & Hle & Hall).
  split; [simpl; destruct Hin as [->|Hin]; auto|]. constructor; assumption.
Qed.

Lemma fold_min_spec (r : list Q) (a : Q) :
  let m := fold_left (fun m y => if Py.Qltb y m then y else m) r a in
  (m = a \/ In m r) /\ m <= a /\ Forall (fun x => m <= x) r.
Proof.
  revert a. induction r as [|y r IH]; intros a; simpl.
  - split; [left; reflexivity|]. split; [lra | constructor].
  - destruct (Qltb_spec y a) as [Hlt|Hge].
    + destruct (IH y) as (Hin & Hle & Hall).
      split; [destruct Hin as [->|Hin]; auto|].
      split; [lra|]. constructor; assumption.
    + destruct (IH a) as (Hin & Hle & Hall).
      split; [destruct Hin as [Heq|Hin]; auto|].
      split; [exact Hle|]. constructor; [lra | assumption].
Qed.

Lemma col_min_spec (l : list Q) (m : Q) :
  Py.col_min l = Some m -> In m l /\ Forall (fun x => m <= x) l.
Proof.
  destruct l as [|x r]; [discriminate|]. intros [= <-].
  destruct (fold_min_spec r x) as (Hin & Hle & Hall).
  split; [simpl; destruct Hin as [->|Hin]; auto|]. constructor; assumption.
Qed.

Lemma col_max_is_Some (l : list Q) : l <> [] -> exists m, Py.col_max l = Some m.
Proof. destruct l; [congruence | eexists; reflexivity]. Qed.

Lemma col_min_is_Some (l : list Q) : l <> [] -> exists m, Py.col_min l = Some m.
Proof. destruct l; [congruence | eexists; reflexivity]. Qed.

Lemma map_lookup {A B} (f : A -> B) (l : list A) (i : nat) :
  map f l !! i = option_map f (l !! i).
Proof.
  revert i. induction l as [|x l IH]; intros [|i]; simpl; auto.
Qed.

Lemma slice_lookup {A} (lo hi k : nat) (l : list A) :
  Py.slice lo hi l !! k = if (k <? hi - lo)%nat then l !! (lo + k)%nat else None.
Proof.
  unfold Py.slice. destruct (Nat.ltb_spec k (hi - lo)).
  - rewrite lookup_take_lt by assumption. apply lookup_drop.
  - apply lookup_take_ge. assumption.
Qed.

Lemma In_lookup {A} (x : A) (l : list A) : In x l <-> exists k, l !! k = Some x.
Proof. rewrite <- list_elem_of_In. apply list_elem_of_lookup. Qed.

Lemma In_slice {A} (x : A) (lo hi : nat) (l : list A) :
  In x (Py.slice lo hi l) <-> exists j, (lo <= j < hi)%nat /\ l !! j = Some x.
Proof.
  rewrite In_lookup. split.
  - intros (k & Hk). rewrite slice_lookup in Hk.
    destruct (Nat.ltb_spec k (hi - lo)); [|discriminate].
    exists (lo + k)%nat. split; [lia | exact Hk].
  - intros (j & Hj & Hx). exists (j - lo)%nat. rewrite slice_lookup.
    destruct (Nat.ltb_spec (j - lo) (hi - lo)); [|lia].
    replace (lo + (j - lo))%nat with j by lia. exact Hx.
Qed.

Lemma In_slice_In {A} (x : A) (lo hi : nat) (l : list A) :
  In x (Py.slice lo hi l) -> In x l.
Proof.
  intros (j & _ & Hj)%In_slice. apply In_lookup. eauto.
Qed.

Lemma slice_length_le {A} (lo hi : nat) (l : list A) :
  (length (Py.slice lo hi l) <= hi - lo)%nat.
Proof. unfold Py.slice. rewrite length_take. lia. Qed.

(** The highs of a window, read off the rows. *)
Lemma window_high_Forall (df : DataFrame) (w i : nat) (c : Candle) :
  window_high df w i c <->
  Forall (fun x => x <= high c) (Py.slice (i - w) (i + w + 1) (map high (rows df))).
Proof.
  unfold window_high. rewrite List.Forall_forall. split.
  - intros Hw x (j & Hj & Hx)%In_slice. rewrite map_lookup in Hx.
    destruct (rows df !! j) as [c'|] eqn:E; [|discriminate].
    injection Hx as <-. apply (Hw j c'); [lia | exact E].
  - intros Hall j c' Hj Hc'. apply Hall. apply In_slice. exists j.
    split; [lia|]. rewrite map_lookup, Hc'. reflexivity.
Qed.

Lemma window_low_Forall (df : DataFrame) (w i : nat) (c : Candle) :
  window_low df w i c <->
  Forall (fun x => low c <= x) (Py.slice (i - w) (i + w + 1) (map low (rows df))).
Proof.
  unfold window_low. rewrite List.Forall_forall. split.
  - intros Hw x (j & Hj & Hx)%In_slice. rewrite map_lookup in Hx.
    destruct (rows df !! j) as [c'|] eqn:E; [|discriminate].
    injection Hx as <-. apply (Hw j c'); [lia | exact E].
  - intros Hall j c' Hj Hc'. apply Hall. apply In_slice. exists j.
    split; [lia|]. rewrite map_lookup, Hc'. reflexivity.
Qed.

(** ** The swing-point scan *)

Lemma swing_at_cases (df : DataFrame) (w i : nat) (c : Candle) :
  rows df !! i = Some c ->
  (window_high df w i c /\ swing_at df w i = [high_swing c i])
  \/ (~ window_high df w i c /\ window_low df w i c /\ swing_at df w i = [low_swing c i])
  \/ (~ window_high df w i c /\ ~ window_low df w i c /\ swing_at df w i = []).
Proof.
  intros Hc. unfold swing_at. rewrite Hc.
  assert (Hhi : In (high c) (Py.slice (i - w) (i + w + 1) (map high (rows df)))).
  { apply In_slice. exists i. split; [lia|]. rewrite map_lookup, Hc. reflexivity. }
  assert (Hlo : In (low c) (Py.slice (i - w) (i + w + 1) (map low (rows df)))).
  { apply In_slice. exists i. split; [lia|]. rewrite map_lookup, Hc. reflexivity. }
  rewrite window_high_Forall, window_low_Forall.
  destruct (Py.col_max _) as [hmax|] eqn:Emax;
    [|destruct (Py.slice _ _ (map high _)); [destruct Hhi | discriminate]].
  destruct (Py.col_min _) as [lmin|] eqn:Emin;
    [|destruct (Py.slice _ _ (map low _)); [destruct Hlo | discriminate]].
  apply col_max_spec in Emax as [Hmin Hmall].
  apply col_min_spec in Emin as [Hlin Hlall].
  rewrite List.Forall_forall in Hmall, Hlall.
  assert (Hh : Qeq_bool (high c) hmax = true <->
               Forall (fun x => x <= high c)
                 (Py.slice (i - w) (i + w + 1) (map high (rows df)))).
  { rewrite Qeq_bool_iff, List.Forall_forall. split.
    - intros He x Hx. rewrite He. apply Hmall, Hx.
    - intros Hall. apply Qle_antisym; [apply Hmall, Hhi | apply Hall, Hmin]. }
  assert (Hl : Qeq_bool (low c) lmin = true <->
               Forall (fun x => low c <= x)
                 (Py.slice (i - w) (i + w + 1) (map low (rows df)))).
  { rewrite Qeq_bool_iff, List.Forall_forall. split.
    - intros He x Hx. rewrite He. apply Hlall, Hx.
    - intros Hall. apply Qle_antisym; [apply Hall, Hlin | apply Hlall, Hlo]. }
  destruct (Qeq_bool (high c) hmax).
  - left. split; [apply Hh; reflexivity | reflexivity].
  - right. assert (Hnh : ~ Forall (fun x => x <= high c)
                           (Py.slice (i - w) (i + w + 1) (map high (rows df))))
      by (intros Hf; apply Hh in Hf; discriminate).
    destruct (Qeq_bool (low c) lmin).
    + left. split; [exact Hnh|]. split; [apply Hl; reflexivity | reflexivity].
    + right. split; [exact Hnh|]. split; [|reflexivity].
      intros Hf. apply Hl in Hf. discriminate.
Qed.

(** X1. For every frame and window size [w], a swing point is reported exactly
    for a scanned index [i] (with [w <= i] and [i + w < len(df)]) whose candle
    has the highest high of the candles [i - w .. i + w] (a swing high), or,
    failing that, the lowest low of those candles (a swing low). A candle that
    is both is reported once, as a high. *)
Theorem swing_points_characterised (df : DataFrame) (w : nat) (p : SwingPoint) :
  In p (_identify_swing_points df w) <->
  exists i c,
    (w <= i)%nat /\ (i + w < length (rows df))%nat /\ rows df !! i = Some c
    /\ ((p = high_swing c i /\ window_high df w i c)
        \/ (p = low_swing c i /\ ~ window_high df w i c /\ window_low df w i c)).
Proof.
  unfold _identify_swing_points. rewrite in_flat_map. split.
  - intros (i & Hi & Hp). apply in_range_iff in Hi.
    destruct (rows df !! i) as [c|] eqn:Hc;
      [|unfold swing_at in Hp; rewrite Hc in Hp; destruct Hp].
    exists i, c. split; [lia|]. split; [lia|]. split; [exact Hc|].
    destruct (swing_at_cases df w i c Hc)
      as [(Hh & E)|[(Hh & Hl & E)|(Hh & Hl & E)]]; rewrite E in Hp.
    + left. destruct Hp as [<-|[]]. auto.
    + right. destruct Hp as [<-|[]]. auto.
    + destruct Hp.
  - intros (i & c & Hlo & Hhi & Hc & Hcase). exists i.
    split; [apply in_range_iff; lia|].
    destruct (swing_at_cases df w i c Hc)
      as [(Hh & E)|[(Hh & Hl & E)|(Hh & Hl & E)]]; rewrite E;
      destruct Hcase as [(-> & Hh')|(-> & Hh' & Hl')]; simpl; tauto.
Qed.

(** A scan that appends at most one record per index, tagged with the index. *)
Lemma flat_map_seq_sorted {B} (f : nat -> list B) (idx : B -> nat) (a k : nat) :
  (forall i, Forall (fun b => idx b = i) (f i)) ->
  (forall i, (length (f i) <= 1)%nat) ->
  StronglySorted lt (map idx (flat_map f (seq a k)))
  /\ Forall (fun b => (a <= idx b < a + k)%nat) (flat_map f (seq a k))
  /\ (length (flat_map f (seq a k)) <= k)%nat.
Proof.
  intros Hidx Hlen. revert a. induction k as [|k IH]; intros a; simpl.
  - repeat split; constructor.
  - destruct (IH (S a)) as (Hs & Hr & Hl).
    pose proof (Hidx a) as Ha. pose proof (Hlen a) as Hla.
    destruct (f a) as [|b [|b' r]]; simpl in *; [| |lia].
    + repeat split; [exact Hs | | lia].
      eapply Forall_impl; [exact Hr|]. simpl. intros; lia.
    + inversion Ha as [|? ? Hb _]; subst.
      split; [|split; [|lia]].
      * constructor; [exact Hs|]. apply Forall_map.
        eapply Forall_impl; [exact Hr|]. simpl. intros; lia.
      * constructor; [lia|].
        eapply Forall_impl; [exact Hr|]. simpl. intros; lia.
Qed.

Lemma swing_at_index (df : DataFrame) (w i : nat) :
  Forall (fun p => sw_index p = i) (swing_at df w i).
Proof. unfold swing_at. repeat case_match; repeat constructor. Qed.

Lemma swing_at_length (df : DataFrame) (w i : nat) :
  (length (swing_at df w i) <= 1)%nat.
Proof. unfold swing_at. repeat case_match; simpl; lia. Qed.

Lemma swing_at_candle (df : DataFrame) (w i : nat) :
  Forall (fun p => exists c, rows df !! i = Some c /\ sw_index p = i
                             /\ sw_timestamp p = datetime c
                             /\ sw_price p = match sw_type p with
                                             | swing_high => high c
                                             | swing_low => low c
                                             end)
    (swing_at df w i).
Proof.
  unfold swing_at. repeat case_match; repeat constructor;
    eexists; repeat split; reflexivity.
Qed.

Lemma swing_points_candle (df : DataFrame) (w : nat) :
  Forall (fun p => exists c, rows df !! sw_index p = Some c
                             /\ sw_timestamp p = datetime c
                             /\ sw_price p = match sw_type p with
                                             | swing_high => high c
                                             | swing_low => low c
                                             end)
    (_identify_swing_points df w).
Proof.
  apply Forall_flat_map_each. intros i.
  eapply Forall_impl; [apply swing_at_candle|]. simpl.
  intros p (c & Hc & Hi & Hrest). exists c. rewrite Hi. auto.
Qed.

Lemma swing_scan_facts (df : DataFrame) (w : nat) :
  StronglySorted lt (map sw_index (_identify_swing_points df w))
  /\ Forall (fun p => (w <= sw_index p)%nat
                      /\ (sw_index p + w < length (rows df))%nat)
       (_identify_swing_points df w)
  /\ (length (_identify_swing_points df w) <= length (rows df) - 2 * w)%nat.
Proof.
  unfold _identify_swing_points, Py.range.
  destruct (flat_map_seq_sorted (swing_at df w) sw_index w
              (length (rows df) - w - w) (swing_at_index df w) (swing_at_length df w))
    as (Hs & Hr & Hl).
  split; [exact Hs|]. split; [|lia].
  eapply Forall_impl; [exact Hr|]. simpl. intros; lia.
Qed.

(** X2. The swing points of a frame come out in strictly increasing index
    order, so at most one per candle; every index lies in the scanned range
    [[w, len(df) - w)], there are at most [len(df) - 2 * w] of them, and each
    carries the time of its candle and that candle's high (for a swing high)
    or low (for a swing low). *)
Theorem swing_points_in_scan_order (df : DataFrame) (w : nat) :
  StronglySorted lt (map sw_index (_identify_swing_points df w))
  /\ Forall (fun p => (w <= sw_index p)%nat
                      /\ (sw_index p + w < length (rows df))%nat)
       (_identify_swing_points df w)
  /\ (length (_identify_swing_points df w) <= length (rows df) - 2 * w)%nat
  /\ Forall (fun p => exists c, rows df !! sw_index p = Some c
                                /\ sw_timestamp p = datetime c
                                /\ sw_price p = match sw_type p with
                                                | swing_high => high c
                                                | swing_low => low c
                                                end)
       (_identify_swing_points df w).
Proof.
  destruct (swing_scan_facts df w) as (Hs & Hr & Hl).
  split; [exact Hs|]. split; [exact Hr|]. split; [exact Hl | apply swing_points_candle].
Qed.

(** ** Trending frames *)

Lemma rising_by_step (f : Candle -> Q) (l : list Candle) (j : nat) (c c' : Candle) :
  rising_by f l = true -> l !! j = Some c -> l !! S j = Some c' -> f c < f c'.
Proof.
  revert j. induction l as [|x [|y r] IH]; intros j Hr Hc Hc'.
  - discriminate.
  - destruct j; discriminate.
  - cbn [rising_by] in Hr. apply andb_prop in Hr as [Hxy Hr].
    destruct j as [|j].
    + injection Hc as <-. injection Hc' as <-. apply Qltb_true, Hxy.
    + apply (IH j Hr Hc Hc').
Qed.

Lemma monotone_not_extreme (f : Candle -> Q) (df : DataFrame) (w i : nat) (c : Candle) :
  strictly_monotone f (rows df) = true ->
  (1 <= w)%nat -> (w <= i)%nat -> (i + w < length (rows df))%nat ->
  rows df !! i = Some c ->
  (exists j c', (i - w <= j <= i + w)%nat /\ rows df !! j = Some c' /\ f c < f c')
  /\ (exists k c'', (i - w <= k <= i + w)%nat /\ rows df !! k = Some c'' /\ f c'' < f c).
Proof.
  intros Hm Hw Hlo Hhi Hc.
  destruct (lookup_lt_is_Some_2 (rows df) (S i)) as [cn Hn]; [lia|].
  destruct (lookup_lt_is_Some_2 (rows df) (i - 1)) as [cp Hp]; [lia|].
  assert (Hp' : rows df !! S (i - 1) = Some c)
    by (replace (S (i - 1)) with i by lia; exact Hc).
  unfold strictly_monotone in Hm. apply orb_prop in Hm as [Hr|Hf].
  - split.
    + exists (S i), cn. split; [lia|]. split; [exact Hn|].
      apply (rising_by_step f _ i c cn Hr Hc Hn).
    + exists (i - 1)%nat, cp. split; [lia|]. split; [exact Hp|].
      apply (rising_by_step f _ (i - 1) cp c Hr Hp Hp').
  - unfold falling_by in Hf.
    pose proof (rising_by_step _ _ i c cn Hf Hc Hn) as H1.
    pose proof (rising_by_step _ _ (i - 1) cp c Hf Hp Hp') as H2.
    simpl in H1, H2. split.
    + exists (i - 1)%nat, cp. split; [lia|]. split; [exact Hp | lra].
    + exists (S i), cn. split; [lia|]. split; [exact Hn | lra].
Qed.

Lemma monotone_no_swings (df : DataFrame) (w : nat) :
  (1 <= w)%nat ->
  strictly_monotone high (rows df) = true ->
  strictly_monotone low (rows df) = true ->
  _identify_swing_points df w = [].
Proof.
  intros Hw Hh Hl.
  destruct (_identify_swing_points df w) as [|p r] eqn:E; [reflexivity|].
  assert (Hin : In p (_identify_swing_points df w)) by (rewrite E; left; reflexivity).
  unfold _identify_swing_points in Hin. apply in_flat_map in Hin as (i & Hi & Hp).
  apply in_range_iff in Hi.
  destruct (rows df !! i) as [c|] eqn:Hc;
    [|unfold swing_at in Hp; rewrite Hc in Hp; destruct Hp].
  destruct (monotone_not_extreme high df w i c Hh Hw) as [(j & c' & Hj & Hc' & Hlt) _];
    [lia | lia | exact Hc |].
  destruct (monotone_not_extreme low df w i c Hl Hw) as [_ (k & c'' & Hk & Hc'' & Hlt')];
    [lia | lia | exact Hc |].
  destruct (swing_at_cases df w i c Hc)
    as [(Hwh & _)|[(_ & Hwl & _)|(_ & _ & E')]].
  - specialize (Hwh j c' Hj Hc'). lra.
  - specialize (Hwl k c'' Hk Hc''). lra.
  - rewrite E' in Hp. destruct Hp.
Qed.

(** X3. In a frame whose highs move strictly one way from candle to candle
    and whose lows do too, the scan with the default window finds no swing
    point; the structure detector and the liquidity detector then return
    nothing, whatever their settings. *)
Theorem no_swings_in_a_trend (ms : MarketStructureAnalyzer) (liq : LiquidityAnalyzer)
    (df : DataFrame) (pair : string) :
  strictly_monotone high (rows df) = true ->
  strictly_monotone low (rows df) = true ->
  _identify_swing_points df 5 = []
  /\ identify_structure_shifts ms df pair = []
  /\ identify_liquidity_zones liq df pair = [].
Proof.
  intros Hh Hl.
  assert (E : _identify_swing_points df 5 = []) by (apply monotone_no_swings; [lia|auto..]).
  split; [exact E|]. split.
  - unfold identify_structure_shifts. rewrite E. simpl.
    destruct (_ <? _)%nat; reflexivity.
  - unfold identify_liquidity_zones, liquidity_zones_with. rewrite E.
    destruct (length (rows df) <? 20)%nat; reflexivity.
Qed.

(** ** Sorting, continued *)

Section SortPermutation.
Context {A : Type} (key : A -> Q).

Lemma insert_by_Permutation (x : A) (l : list A) : Py.insert_by key x l ≡ₚ x :: l.
Proof.
  induction l as [|y l IH]; simpl; [reflexivity|].
  destruct (Py.Qltb (key y) (key x)); [|reflexivity].
  rewrite IH. apply Permutation_swap.
Qed.

Lemma sort_by_Permutation (l : list A) : Py.sort_by key l ≡ₚ l.
Proof.
  induction l as [|x l IH]; simpl; [reflexivity|].
  rewrite insert_by_Permutation, IH. reflexivity.
Qed.

Lemma insert_by_desc_Permutation (x : A) (l : list A) :
  Py.insert_by_desc key x l ≡ₚ x :: l.
Proof.
  induction l as [|y l IH]; simpl; [reflexivity|].
  destruct (Py.Qltb (key x) (key y)); [|reflexivity].
  rewrite IH. apply Permutation_swap.
Qed.

Lemma sort_by_desc_Permutation (l : list A) : Py.sort_by_desc key l ≡ₚ l.
Proof.
  induction l as [|x l IH]; simpl; [reflexivity|].
  rewrite insert_by_desc_Permutation, IH. reflexivity.
Qed.

Lemma insert_by_HdRel (x a : A) (l : list A) :
  key a <= key x -> HdRel (fun u v => key u <= key v) a l ->
  HdRel (fun u v => key u <= key v) a (Py.insert_by key x l).
Proof.
  intros Hax Hhd. destruct l as [|z l]; simpl.
  - constructor. exact Hax.
  - destruct (Py.Qltb (key z) (key x)); constructor.
    + inversion Hhd; assumption.
    + exact Hax.
Qed.

Lemma insert_by_sorted (x : A) (l : list A) :
  Sorted (fun u v => key u <= key v) l ->
  Sorted (fun u v => key u <= key v) (Py.insert_by key x l).
Proof.
  induction 1 as [|z l Hs IH Hhd]; simpl.
  - repeat constructor.
  - destruct (Qltb_spec (key z) (key x)) as [Hlt|Hge].
    + constructor; [exact IH|].
      apply insert_by_HdRel; [lra | exact Hhd].
    + constructor; [constructor; assumption|]. constructor.
      apply Qnot_lt_le. exact Hge.
Qed.

Lemma sort_by_sorted (l : list A) :
  Sorted (fun u v => key u <= key v) (Py.sort_by key l).
Proof.
  induction l as [|x l IH]; simpl; [constructor|].
  apply insert_by_sorted, IH.
Qed.

Lemma ascending_strongly (l : list A) :
  Sorted (fun u v => key u <= key v) l ->
  StronglySorted (fun u v => key u <= key v) l.
Proof.
  apply Sorted_StronglySorted. intros a b c Hab Hbc. lra.
Qed.

Lemma descending_strongly (l : list A) :
  Sorted (fun u v => key v <= key u) l ->
  StronglySorted (fun u v => key v <= key u) l.
Proof.
  apply Sorted_StronglySorted. intros a b c Hab Hbc. lra.
Qed.
End SortPermutation.

Lemma StronglySorted_filter {A} (R : A -> A -> Prop) (f : A -> bool) (l : list A) :
  StronglySorted R l -> StronglySorted R (List.filter f l).
Proof.
  induction 1 as [|x l Hs IH Hall]; simpl; [constructor|].
  destruct (f x); [|exact IH]. constructor; [exact IH|].
  apply List.Forall_forall. intros y [Hy _]%filter_In.
  rewrite List.Forall_forall in Hall. apply Hall, Hy.
Qed.

Lemma StronglySorted_last {A} (R : A -> A -> Prop) (l : list A) (z : A) :
  StronglySorted R l -> last l = Some z -> Forall (fun x => x = z \/ R x z) l.
Proof.
  induction 1 as [|x l Hs IH Hall]; intros Hlast; [constructor|].
  destruct l as [|y l'].
  - injection Hlast as <-. repeat constructor.
  - assert (Hl : last (y :: l') = Some z) by exact Hlast.
    constructor; [|apply IH, Hl].
    right. rewrite List.Forall_forall in Hall. apply Hall.
    apply list_elem_of_In, last_Some_elem_of, Hl.
Qed.

Lemma filter_sublist {A} (f : A -> bool) (l : list A) : List.filter f l `sublist_of` l.
Proof.
  induction l as [|x l IH]; simpl; [constructor|].
  destruct (f x); [apply sublist_skip | apply sublist_cons]; exact IH.
Qed.

Lemma filter_all {A} (f : A -> bool) (l : list A) :
  Forall (fun x => f x = true) l -> List.filter f l = l.
Proof.
  induction 1 as [|x l Hx _ IH]; simpl; [reflexivity|]. rewrite Hx, IH. reflexivity.
Qed.

Lemma filter_none {A} (f : A -> bool) (l : list A) :
  Forall (fun x => f x = false) l -> List.filter f l = [].
Proof.
  induction 1 as [|x l Hx _ IH]; simpl; [reflexivity|]. rewrite Hx, IH. reflexivity.
Qed.

Lemma concat_map_Permutation {A B} (f : A -> list B) (l l' : list A) :
  l ≡ₚ l' -> concat (map f l) ≡ₚ concat (map f l').
Proof.
  induction 1 as [|x l l' _ IH|x y l|l l' l'' _ IH1 _ IH2]; simpl.
  - reflexivity.
  - rewrite IH. reflexivity.
  - rewrite !app_assoc. apply Permutation_app_tail, Permutation_app_comm.
  - rewrite IH1. exact IH2.
Qed.

(** ** The first-anchor grouping, continued *)

Section FirstAnchorPartition.
Context {A : Type} (matches : A -> A -> bool).

Lemma place_Permutation (p : A) (groups : list (A * list A)) :
  concat (map group_list (place matches p groups))
  ≡ₚ concat (map group_list groups) ++ [p].
Proof.
  induction groups as [|[a members] rest IH]; [reflexivity|].
  cbn [place]. destruct (matches a p); cbn [map concat group_list fst snd].
  - simpl. rewrite <- !app_assoc.
    apply Permutation_skip, Permutation_app_head, Permutation_app_comm.
  - rewrite IH. simpl. rewrite <- !app_assoc. reflexivity.
Qed.

Lemma fold_place_Permutation (xs : list A) (groups : list (A * list A)) :
  concat (map group_list (fold_left (fun gs p => place matches p gs) xs groups))
  ≡ₚ concat (map group_list groups) ++ xs.
Proof.
  revert groups. induction xs as [|p xs IH]; intros groups; simpl.
  - rewrite app_nil_r. reflexivity.
  - rewrite IH, place_Permutation, <- app_assoc. reflexivity.
Qed.

(** Every element lands in exactly one group. *)
Lemma first_anchor_groups_Permutation (xs : list A) :
  concat (first_anchor_groups matches xs) ≡ₚ xs.
Proof.
  unfold first_anchor_groups. apply (fold_place_Permutation xs []).
Qed.

Lemma place_sublist (p : A) (pre : list A) (groups : list (A * list A)) :
  Forall (fun g => group_list g `sublist_of` pre) groups ->
  Forall (fun g => group_list g `sublist_of` pre ++ [p]) (place matches p groups).
Proof.
  induction 1 as [|[a members] rest Hg Hrest IH]; simpl.
  - repeat constructor. apply sublist_inserts_l. reflexivity.
  - destruct (matches a p).
    + constructor.
      * change (group_list (a, members ++ [p])) with (group_list (a, members) ++ [p]).
        apply sublist_app; [exact Hg | reflexivity].
      * eapply Forall_impl; [exact Hrest|]. intros g Hs.
        apply sublist_inserts_r, Hs.
    + constructor; [apply sublist_inserts_r, Hg | exact IH].
Qed.

Lemma fold_place_sublist (xs pre : list A) (groups : list (A * list A)) :
  Forall (fun g => group_list g `sublist_of` pre) groups ->
  Forall (fun g => group_list g `sublist_of` pre ++ xs)
    (fold_left (fun gs p => place matches p gs) xs groups).
Proof.
  revert pre groups. induction xs as [|p xs IH]; intros pre groups Hg; simpl.
  - rewrite app_nil_r. exact Hg.
  - replace (pre ++ p :: xs) with ((pre ++ [p]) ++ xs) by (rewrite <- app_assoc; reflexivity).
    apply IH, place_sublist, Hg.
Qed.

(** Every group keeps the order of the input. *)
Lemma first_anchor_groups_sublist (xs : list A) :
  Forall (fun g => g `sublist_of` xs) (first_anchor_groups matches xs).
Proof.
  unfold first_anchor_groups. apply Forall_map.
  apply (fold_place_sublist xs [] []). constructor.
Qed.

Lemma first_anchor_ok_members (groups : list (A * list A)) :
  first_anchor_ok matches groups ->
  Forall (fun g => Forall (fun p => matches (fst g) p = true) (snd g)) groups.
Proof.
  induction 1 as [|a members rest Hms _ _ IH]; constructor; assumption.
Qed.

(** Every group is an anchor followed by elements the anchor accepts. *)
Lemma first_anchor_groups_anchor (xs : list A) :
  Forall (fun g => exists a members,
                     g = a :: members /\ Forall (fun p => matches a p = true) members)
    (first_anchor_groups matches xs).
Proof.
  unfold first_anchor_groups. apply Forall_map.
  eapply Forall_impl; [apply first_anchor_ok_members, fold_place_ok; constructor|].
  intros [a members] Hm. exists a, members. split; [reflexivity | exact Hm].
Qed.

Lemma first_anchor_groups_In (xs g : list A) (p : A) :
  In g (first_anchor_groups matches xs) -> In p g -> In p xs.
Proof.
  intros Hg Hp.
  pose proof (first_anchor_groups_sublist xs) as Hs.
  rewrite List.Forall_forall in Hs. specialize (Hs g Hg).
  apply list_elem_of_In. eapply sublist_submseteq, submseteq_Permutation in Hs as [k Hk].
  rewrite Hk. apply elem_of_app. left. apply list_elem_of_In, Hp.
Qed.
End FirstAnchorPartition.

(** What is emitted is drawn from the groups, group by group. *)
Lemma omap_concat_submseteq {A B} (emit : list A -> option B) (view : B -> list A)
    (groups : list (list A)) :
  (forall g b, emit g = Some b -> view b ≡ₚ g) ->
  concat (map view (omap emit groups)) ⊆+ concat groups.
Proof.
  intros Hview. induction groups as [|g groups IH]; simpl; [constructor|].
  destruct (emit g) as [b|] eqn:E; simpl.
  - apply submseteq_app; [|exact IH].
    apply Permutation_submseteq, Hview, E.
  - apply submseteq_inserts_l, IH.
Qed.

Lemma omap_length_le {A B} (emit : list A -> option B) (groups : list (list A)) :
  (forall g b, emit g = Some b -> (2 <= length g)%nat) ->
  (2 * length (omap emit groups) <= length (concat groups))%nat.
Proof.
  intros Hlen. induction groups as [|g groups IH]; [simpl; lia|].
  cbn [omap list_omap concat]. rewrite length_app.
  destruct (emit g) as [b|] eqn:E; cbn [length].
  - specialize (Hlen g b E). simpl in *. lia.
  - simpl in *. lia.
Qed.

(** ** Groups of equal levels and of confluent signals *)

Lemma Sorted_impl {A} (R S : A -> A -> Prop) (l : list A) :
  (forall x y, R x y -> S x y) -> Sorted R l -> Sorted S l.
Proof.
  intros HRS. induction 1 as [|x l _ IH Hhd]; constructor; [exact IH|].
  destruct Hhd; constructor. auto.
Qed.

Lemma sort_by_timestamp_sorted (g : list SwingPoint) :
  Sorted (fun p q => (sw_timestamp p <= sw_timestamp q)%Z) (sort_by_timestamp g).
Proof.
  unfold sort_by_timestamp.
  eapply Sorted_impl; [|apply sort_by_sorted]. simpl.
  intros x y Hxy. rewrite Zle_Qle. exact Hxy.
Qed.

Lemma find_equal_levels_eq (self : LiquidityAnalyzer) (pts : list SwingPoint)
    (level_type : string) :
  _find_equal_levels self pts level_type
  = omap emit_level (first_anchor_groups (level_match (equal_level_tolerance self)) pts).
Proof.
  unfold _find_equal_levels.
  destruct pts as [|x [|y r]]; [reflexivity | reflexivity |].
  cbn [length Nat.ltb Nat.leb].
  rewrite (greedy_scan_first_anchor _ _ (x :: y :: r)). reflexivity.
Qed.

Lemma emit_level_Some (raw g : list SwingPoint) :
  emit_level raw = Some g ->
  (2 <= length raw)%nat /\ g = sort_by_timestamp raw.
Proof.
  unfold emit_level. destruct (Nat.leb_spec 2 (length raw)); [|discriminate].
  intros [= <-]. auto.
Qed.

Lemma sort_by_timestamp_Permutation (g : list SwingPoint) : sort_by_timestamp g ≡ₚ g.
Proof. apply sort_by_Permutation. Qed.

(** X4. Every group returned by [_find_equal_levels] has at least two swing
    points, is sorted by timestamp, and is a rearrangement of an anchor and
    members that each lie within the tolerance of the anchor's price. The
    groups are disjoint parts of the input: taken together they use no swing
    point more often than the input holds it, so there are at most half as
    many groups as swing points. *)
Theorem equal_level_groups (self : LiquidityAnalyzer) (swing_points : list SwingPoint)
    (level_type : string) :
  Forall (fun g =>
            (2 <= length g)%nat
            /\ Sorted (fun p q => (sw_timestamp p <= sw_timestamp q)%Z) g
            /\ exists anchor members,
                 g ≡ₚ anchor :: members
                 /\ Forall (fun p => Qabs (sw_price anchor - sw_price p)
                                     <= sw_price anchor * equal_level_tolerance self)
                      members)
    (_find_equal_levels self swing_points level_type)
  /\ concat (_find_equal_levels self swing_points level_type) ⊆+ swing_points
  /\ (2 * length (_find_equal_levels self swing_points level_type)
      <= length swing_points)%nat.
Proof.
  rewrite find_equal_levels_eq.
  set (m := level_match (equal_level_tolerance self)).
  split; [|split].
  - apply List.Forall_forall. intros g (raw & Hraw & Hemit)%In_omap.
    apply emit_level_Some in Hemit as [Hlen ->].
    split; [rewrite (Permutation_length (sort_by_timestamp_Permutation raw)); exact Hlen|].
    split; [apply sort_by_timestamp_sorted|].
    pose proof (first_anchor_groups_anchor m swing_points) as Ha.
    rewrite List.Forall_forall in Ha.
    destruct (Ha raw Hraw) as (a & members & -> & Hm).
    exists a, members. split; [apply sort_by_timestamp_Permutation|].
    eapply Forall_impl; [exact Hm|]. intros p Hp. apply within_tolerance_iff, Hp.
  - rewrite <- (first_anchor_groups_Permutation m swing_points) at 2.
    rewrite <- (map_id (omap emit_level (first_anchor_groups m swing_points))).
    apply (omap_concat_submseteq emit_level (fun g => g)).
    intros raw g [_ ->]%emit_level_Some. apply sort_by_timestamp_Permutation.
  - rewrite <- (Permutation_length (first_anchor_groups_Permutation m swing_points)).
    apply omap_length_le. intros raw g [Hlen _]%emit_level_Some. exact Hlen.
Qed.

Lemma emit_confluence_Some (raw : list SmartMoneySignal) (g : ConfluenceGroup) :
  emit_confluence raw = Some g ->
  (2 <= length raw)%nat /\ g = confluence_of raw.
Proof.
  unfold emit_confluence. destruct (Nat.leb_spec 2 (length raw)); [|discriminate].
  intros [= <-]. auto.
Qed.

(** X5. Every confluence returned by [get_confluence_signals] lists an anchor
    signal followed by at least one other signal, each within the price
    tolerance of the anchor's price and in the order of the input; its
    [signal_count] is the length of that list. No signal is used in two
    confluences, so there are at most half as many confluences as signals. *)
Theorem confluence_groups_anchored (l : list SmartMoneySignal) (tol : Q) :
  Forall (fun g =>
            exists anchor members,
              signals g = anchor :: members
              /\ members <> []
              /\ Forall (fun s => Qabs (price anchor - price s) <= price anchor * tol)
                   members
              /\ signals g `sublist_of` l
              /\ signal_count g = length (signals g))
    (get_confluence_signals l tol)
  /\ concat (map signals (get_confluence_signals l tol)) ⊆+ l
  /\ (2 * length (get_confluence_signals l tol) <= length l)%nat.
Proof.
  rewrite get_confluence_signals_eq.
  set (m := price_match tol).
  set (emitted := omap emit_confluence (first_anchor_groups m l)).
  pose proof (sort_by_desc_Permutation combined_strength emitted) as Hperm.
  split; [|split].
  - apply List.Forall_forall. intros g Hg.
    apply sort_by_desc_In, In_omap in Hg as (raw & Hraw & Hemit).
    apply emit_confluence_Some in Hemit as [Hlen ->]. cbn [signals signal_count confluence_of].
    pose proof (first_anchor_groups_anchor m l) as Ha.
    pose proof (first_anchor_groups_sublist m l) as Hs.
    rewrite List.Forall_forall in Ha, Hs.
    destruct (Ha raw Hraw) as (a & members & -> & Hm).
    exists a, members. split; [reflexivity|].
    split; [destruct members; [simpl in Hlen; lia | discriminate]|].
    split; [|split; [apply Hs, Hraw | reflexivity]].
    eapply Forall_impl; [exact Hm|]. intros p Hp. apply within_tolerance_iff, Hp.
  - rewrite (concat_map_Permutation signals _ _ Hperm).
    rewrite <- (first_anchor_groups_Permutation m l) at 1.
    apply omap_concat_submseteq.
    intros raw g [_ ->]%emit_confluence_Some. reflexivity.
  - rewrite (Permutation_length Hperm).
    rewrite <- (Permutation_length (first_anchor_groups_Permutation m l)).
    apply omap_length_le. intros raw g [Hlen _]%emit_confluence_Some. exact Hlen.
Qed.

(** ** What every detector signal carries *)

Lemma lookup_stamped (df : DataFrame) (i : nat) (c : Candle) :
  rows df !! i = Some c -> In (datetime c) (map datetime (rows df)).
Proof.
  intros Hc. apply In_lookup. exists i. rewrite map_lookup, Hc. reflexivity.
Qed.

Lemma swing_stamped (df : DataFrame) (w : nat) (p : SwingPoint) :
  In p (_identify_swing_points df w) -> In (sw_timestamp p) (map datetime (rows df)).
Proof.
  intros Hp. pose proof (swing_points_candle df w) as Hall.
  rewrite List.Forall_forall in Hall. destruct (Hall p Hp) as (c & Hc & -> & _).
  apply (lookup_stamped df _ c Hc).
Qed.

Lemma In_removelast {A} (x : A) (l : list A) : In x (removelast l) -> In x l.
Proof.
  induction l as [|y [|z l] IH]; simpl; [tauto | tauto |].
  intros [->|Hx]; [left; reflexivity | right; apply IH, Hx].
Qed.

Lemma last_In {A} (x : A) (l : list A) : last l = Some x -> In x l.
Proof. intros H. apply list_elem_of_In, last_Some_elem_of, H. Qed.

Lemma swings_of_type_In (t : SwingType) (l : list SwingPoint) (p : SwingPoint) :
  In p (swings_of_type t l) <-> In p l /\ sw_type p = t.
Proof. unfold swings_of_type. rewrite filter_In, SwingType_eqb_eq. reflexivity. Qed.

Section GapFacts.
Context `{Numeric}.

Lemma fvg_at_stamped self df pip i : Forall (stamped_in df) (fvg_at self df pip i).
Proof.
  unfold fvg_at.
  destruct (rows df !! (i - 2)%nat) as [c1|]; [|constructor].
  destruct (rows df !! (i - 1)%nat) as [c2|]; [|constructor].
  destruct (rows df !! i) as [c3|] eqn:E3; [|constructor].
  repeat case_match; repeat constructor; apply (lookup_stamped df i c3 E3).
Qed.

Lemma identify_fvgs_detected self df pair s :
  In s (identify_fvgs self df pair) -> In s (detected_fvgs self df pair).
Proof.
  unfold identify_fvgs. repeat case_match; try (intros []).
  intros [Hs _]%filter_In. exact Hs.
Qed.

Lemma identify_fvgs_Forall (P : SmartMoneySignal -> Prop) self df pair :
  (forall i, Forall P (fvg_at self df (pip_value pair) i)) ->
  Forall P (identify_fvgs self df pair).
Proof.
  intros HP. apply List.Forall_forall. intros s Hs%identify_fvgs_detected.
  unfold detected_fvgs in Hs. apply in_flat_map in Hs as (i & _ & Hs).
  specialize (HP i). rewrite List.Forall_forall in HP. apply HP, Hs.
Qed.

Lemma fvg_at_vocabulary self df pip i : Forall in_vocabulary (fvg_at self df pip i).
Proof.
  unfold fvg_at, in_vocabulary, detector_vocabulary.
  repeat case_match; repeat constructor; simpl; tauto.
Qed.
End GapFacts.

Lemma ob_at_stamped self df pip i : Forall (stamped_in df) (ob_at self df pip i).
Proof.
  unfold ob_at. destruct (rows df !! i) as [c|] eqn:E; [|constructor].
  repeat case_match; repeat constructor; apply (lookup_stamped df i c E).
Qed.

Lemma ob_at_vocabulary self df pip i : Forall in_vocabulary (ob_at self df pip i).
Proof.
  unfold ob_at, in_vocabulary, detector_vocabulary.
  repeat case_match; repeat constructor; simpl; tauto.
Qed.

Lemma identify_order_blocks_Forall (P : SmartMoneySignal -> Prop) self df pair :
  (forall i, Forall P (ob_at self df (pip_value pair) i)) ->
  Forall P (identify_order_blocks self df pair).
Proof.
  intros HP. unfold identify_order_blocks. case_match; [constructor|].
  apply Forall_flat_map_each, HP.
Qed.

(** What a change of character is built from. *)
Lemma choch_at_cases self sp pip i s :
  In s (choch_at self sp pip i) ->
  (3 <= i)%nat /\ strength s = 70.0 /\ timeframe s = "current"
  /\ exists last_low last_high prev,
       In last_low sp /\ In last_high sp /\ In prev sp
       /\ sw_type last_low = swing_low /\ sw_type last_high = swing_high
       /\ ((signal_type s = "ChoCh_Bullish" /\ direction s = "bullish"
            /\ sw_type prev = swing_low
            /\ price s = sw_price last_high /\ timestamp s = sw_timestamp last_low
            /\ sw_price last_low < sw_price prev
            /\ (sw_index last_high < sw_index last_low)%nat
            /\ min_break_pips self <= (sw_price last_high - sw_price prev) / pip)
           \/ (signal_type s = "ChoCh_Bearish" /\ direction s = "bearish"
               /\ sw_type prev = swing_high
               /\ price s = sw_price last_low /\ timestamp s = sw_timestamp last_high
               /\ sw_price prev < sw_price last_high
               /\ (sw_index last_low < sw_index last_high)%nat
               /\ min_break_pips self <= (sw_price prev - sw_price last_low) / pip)).
Proof.
  unfold choch_at, _identify_change_of_character.
  set (recent := Py.slice (Nat.max 0 (i - 4)) (i + 1) sp).
  destruct (Nat.ltb_spec (length recent) 4) as [|Hlen]; [intros []|].
  assert (Hi : (3 <= i)%nat).
  { pose proof (slice_length_le (Nat.max 0 (i - 4)) (i + 1) sp) as Hle.
    fold recent in Hle. lia. }
  assert (Hsub : forall t p, In p (swings_of_type t recent) -> In p sp /\ sw_type p = t).
  { intros t p [Hp Ht]%swings_of_type_In. split; [|exact Ht].
    apply (In_slice_In _ _ _ _ Hp). }
  set (lows := swings_of_type swing_low recent) in *.
  set (highs := swings_of_type swing_high recent) in *.
  intros Hin. split; [exact Hi|].
  destruct (choch_bullish self lows highs pip) as [sig|] eqn:Eb.
  - destruct Hin as [<-|[]]. unfold choch_bullish in Eb.
    destruct ((2 <=? length lows)%nat && (1 <=? length highs)%nat); [|discriminate].
    destruct (last lows) as [ll|] eqn:Ell; [|discriminate].
    destruct (last (removelast lows)) as [pl|] eqn:Epl; [|discriminate].
    destruct (last highs) as [lh|] eqn:Elh; [|discriminate].
    destruct (Py.Qltb (sw_price ll) (sw_price pl) && (sw_index lh <? sw_index ll)%nat)
      eqn:Ec; [|discriminate].
    destruct (Qle_bool (min_break_pips self) ((sw_price lh - sw_price pl) / pip))
      eqn:Em; [|discriminate].
    injection Eb as <-. apply andb_prop in Ec as [Hlt Hidx].
    apply last_In, Hsub in Ell as [Hll Htl].
    apply last_In, In_removelast, Hsub in Epl as [Hpl Htp].
    apply last_In, Hsub in Elh as [Hlh Hth].
    split; [reflexivity|]. split; [reflexivity|].
    exists ll, lh, pl. repeat (split; [assumption|]). left.
    repeat (split; [reflexivity|]). split; [exact Htp|].
    repeat (split; [reflexivity|]).
    split; [apply Qltb_true, Hlt|]. split; [apply Nat.ltb_lt, Hidx|].
    apply Qle_bool_iff, Em.
  - destruct (choch_bearish self lows highs pip) as [sig|] eqn:Er; [|destruct Hin].
    destruct Hin as [<-|[]]. unfold choch_bearish in Er.
    destruct ((2 <=? length highs)%nat && (1 <=? length lows)%nat); [|discriminate].
    destruct (last highs) as [lh|] eqn:Elh; [|discriminate].
    destruct (last (removelast highs)) as [ph|] eqn:Eph; [|discriminate].
    destruct (last lows) as [ll|] eqn:Ell; [|discriminate].
    destruct (Py.Qltb (sw_price ph) (sw_price lh) && (sw_index ll <? sw_index lh)%nat)
      eqn:Ec; [|discriminate].
    destruct (Qle_bool (min_break_pips self) ((sw_price ph - sw_price ll) / pip))
      eqn:Em; [|discriminate].
    injection Er as <-. apply andb_prop in Ec as [Hlt Hidx].
    apply last_In, Hsub in Ell as [Hll Htl].
    apply last_In, In_removelast, Hsub in Eph as [Hph Htp].
    apply last_In, Hsub in Elh as [Hlh Hth].
    split; [reflexivity|]. split; [reflexivity|].
    exists ll, lh, ph. repeat (split; [assumption|]). right.
    repeat (split; [reflexivity|]). split; [exact Htp|].
    repeat (split; [reflexivity|]).
    split; [apply Qltb_true, Hlt|]. split; [apply Nat.ltb_lt, Hidx|].
    apply Qle_bool_iff, Em.
Qed.

Lemma mss_at_types self sp pip i s :
  In s (mss_at self sp pip i) ->
  (signal_type s = "MSS_Bullish" /\ direction s = "bullish"
   \/ signal_type s = "MSS_Bearish" /\ direction s = "bearish")
  /\ timeframe s = "current".
Proof.
  unfold mss_at. repeat case_match; simpl; try tauto;
    intros [<-|[]]; simpl; tauto.
Qed.

Lemma structure_signals_cases self sp pip s :
  In s (structure_signals self sp pip) ->
  exists i, (2 <= i < length sp)%nat
            /\ (In s (mss_at self sp pip i) \/ In s (choch_at self sp pip i)).
Proof.
  unfold structure_signals. intros (i & Hi & Hs)%in_flat_map.
  exists i. split; [apply in_range_iff, Hi | apply in_app_or, Hs].
Qed.


Lemma choch_needs_four_swings self sp pip i :
  (length sp < 4)%nat -> choch_at self sp pip i = [].
Proof.
  intros Hlen. destruct (choch_at self sp pip i) as [|s r] eqn:E; [reflexivity|].
  assert (Hin : In s (choch_at self sp pip i)) by (rewrite E; left; reflexivity).
  unfold choch_at, _identify_change_of_character in Hin.
  pose proof (sublist_length _ _ (sublist_take (drop (Nat.max 0 (i - 4)) sp)
                                    (i + 1 - Nat.max 0 (i - 4)))) as H1.
  rewrite length_drop in H1. fold (Py.slice (Nat.max 0 (i - 4)) (i + 1) sp) in H1.
  destruct (Nat.ltb_spec (length (Py.slice (Nat.max 0 (i - 4)) (i + 1) sp)) 4);
    [destruct Hin | lia].
Qed.


(** ** Strength of a structure shift *)

Lemma max_ge_r (a b : Q) : b <= Py.max a b.
Proof. unfold Py.max. destruct (Qltb_spec a b); lra. Qed.

Lemma clamp100_ge (a x : Q) : a <= 100 -> a <= x -> a <= Py.clamp100 x.
Proof.
  intros Ha Hx. unfold Py.clamp100. apply min_glb; [exact Ha|].
  pose proof (max_ge_r 0 x). lra.
Qed.

Lemma min_nonneg (a b : Q) : 0 <= a -> 0 <= b -> 0 <= Py.min a b.
Proof. intros. apply min_glb; assumption. Qed.

Lemma Qdiv_nonneg (a b : Q) : 0 <= a -> 0 < b -> 0 <= a / b.
Proof.
  intros Ha Hb. apply Qle_shift_div_l; [exact Hb | lra].
Qed.

Lemma structure_strength_floor (ctx : list SwingPoint) (ty : string) :
  (3 <= length ctx)%nat -> 30 <= _calculate_structure_strength ctx ty.
Proof.
  intros Hlen. unfold _calculate_structure_strength.
  destruct (Nat.ltb_spec (length ctx) 2); [lia|].
  apply clamp100_ge; [lra|]. cbv zeta.
  destruct (Nat.leb_spec 3 (length ctx)); [|lia].
  match goal with |- 30 <= ?a + 30 => enough (0 <= a) by lra end.
  set (s1 := if String.eqb ty "bullish_mss" then _ else _).
  assert (H1 : 0 <= s1).
  { subst s1. repeat case_match; lra. }
  destruct (last ctx) as [latest|]; [|exact H1].
  destruct (last (removelast ctx)) as [previous|]; [|exact H1].
  destruct (Qltb_spec 0 ((sw_price latest + sw_price previous) / 2)) as [Havg|];
    [|exact H1].
  assert (0 <= Py.min 30
            (Qabs (sw_price latest - sw_price previous)
             / ((sw_price latest + sw_price previous) / 2) * 100 * 1000)).
  { apply min_nonneg; [lra|].
    pose proof (Qdiv_nonneg _ _ (Qabs_nonneg (sw_price latest - sw_price previous)) Havg).
    nra. }
  lra.
Qed.

Lemma mss_at_strength self sp pip i s :
  (2 <= i)%nat -> In s (mss_at self sp pip i) -> 30 <= strength s <= 100.
Proof.
  intros Hi Hin.
  assert (Hup : strength s <= 100).
  { pose proof (mss_at_in_range self sp pip i) as Hall.
    rewrite List.Forall_forall in Hall. apply (Hall s Hin). }
  split; [|exact Hup]. unfold mss_at in Hin.
  destruct (sp !! i) as [cur|] eqn:Ec; [|destruct Hin].
  apply lookup_lt_Some in Ec.
  assert (Hctx : (3 <= length (Py.slice (Nat.max 0 (i - 3)) (i + 1) sp))%nat)
    by (rewrite slice_length; lia).
  repeat case_match; try destruct Hin as [<-|[]]; try destruct Hin;
    simpl; apply structure_strength_floor, Hctx.
Qed.

(** X7. Every MSS signal returned by [identify_structure_shifts] has a
    strength between 30 and 100 (its context always holds three swing
    points, which alone adds 30); every ChoCh signal has strength exactly
    70. *)
Theorem structure_shift_strength (self : MarketStructureAnalyzer) (df : DataFrame)
    (pair : string) :
  Forall (fun s =>
            (signal_type s = "MSS_Bullish" \/ signal_type s = "MSS_Bearish" ->
             30 <= strength s <= 100)
            /\ (signal_type s = "ChoCh_Bullish" \/ signal_type s = "ChoCh_Bearish" ->
                strength s = 70.0))
    (identify_structure_shifts self df pair).
Proof.
  apply List.Forall_forall. intros s Hs%identify_structure_shifts_signals.
  apply structure_signals_cases in Hs as (i & Hi & [Hm|Hc]).
  - split; [intros _; eapply mss_at_strength; [|exact Hm]; lia|].
    apply mss_at_types in Hm as [[[Hm _]|[Hm _]] _]; intros [?|?]; congruence.
  - pose proof (choch_at_types _ _ _ _ _ Hc) as Hty.
    split; [intros [?|?]; destruct Hty; congruence|].
    intros _. apply choch_at_cases in Hc as (_ & Hst & _). exact Hst.
Qed.

(** ** Liquidity signals *)

Lemma liquidity_signal_cases kind dir g s :
  In s (liquidity_signal kind dir g) ->
  (2 <= length g)%nat
  /\ exists first final,
       head g = Some first /\ last g = Some final
       /\ s = mkSignal kind dir (sw_price first) (sw_timestamp final)
                (Py.min 100 (Py.len g * 25)) "current".
Proof.
  unfold liquidity_signal.
  destruct (Nat.leb_spec 2 (length g)) as [Hlen|]; [|intros []].
  destruct (head g) as [first|]; [|intros []].
  destruct (last g) as [final|]; [|intros []].
  intros [<-|[]]. split; [exact Hlen|]. exists first, final. auto.
Qed.

Lemma touch_strength_values {A} (g : list A) :
  (2 <= length g)%nat ->
  Py.min 100 (Py.len g * 25) == 50
  \/ Py.min 100 (Py.len g * 25) == 75
  \/ Py.min 100 (Py.len g * 25) == 100.
Proof.
  intros Hlen. destruct g as [|a [|b [|c [|d r]]]]; simpl in Hlen; try lia.
  - left. reflexivity.
  - right. left. reflexivity.
  - right. right.
    assert (H4 : 4 <= Py.len (a :: b :: c :: d :: r)).
    { unfold Py.len. change 4 with (inject_Z 4). rewrite <- Zle_Qle. simpl length. lia. }
    unfold Py.min. destruct (Qltb_spec (Py.len (a :: b :: c :: d :: r) * 25) 100); [lra|].
    reflexivity.
Qed.

Lemma equal_level_group_members (self : LiquidityAnalyzer) (pts : list SwingPoint)
    (label : string) (g : list SwingPoint) (p : SwingPoint) :
  In g (_find_equal_levels self pts label) -> In p g -> In p pts.
Proof.
  rewrite find_equal_levels_eq. intros (raw & Hraw & Hemit)%In_omap Hp.
  apply emit_level_Some in Hemit as [_ ->].
  apply (first_anchor_groups_In _ pts raw p Hraw).
  apply list_elem_of_In. rewrite <- (sort_by_timestamp_Permutation raw).
  apply list_elem_of_In, Hp.
Qed.

Lemma equal_level_group_sorted (self : LiquidityAnalyzer) (pts : list SwingPoint)
    (label : string) (g : list SwingPoint) :
  In g (_find_equal_levels self pts label) ->
  StronglySorted (fun p q => (sw_timestamp p <= sw_timestamp q)%Z) g.
Proof.
  rewrite find_equal_levels_eq. intros (raw & Hraw & Hemit)%In_omap.
  apply emit_level_Some in Hemit as [_ ->].
  apply Sorted_StronglySorted; [intros a b c; lia | apply sort_by_timestamp_sorted].
Qed.

Lemma sorted_head_first {A} (R : A -> A -> Prop) (l : list A) (x : A) :
  StronglySorted R l -> head l = Some x -> Forall (fun y => y = x \/ R x y) l.
Proof.
  intros Hs Hh. destruct l as [|a l]; [constructor|]. injection Hh as ->.
  inversion Hs as [|? ? _ Hall]; subst. constructor; [left; reflexivity|].
  eapply Forall_impl; [exact Hall|]. auto.
Qed.

(** What one group of touches turns into. *)
Lemma liquidity_signal_of_group (self : LiquidityAnalyzer) (pts : list SwingPoint)
    (kind dir label : string) (g : list SwingPoint) (s : SmartMoneySignal) :
  In g (_find_equal_levels self pts label) ->
  In s (liquidity_signal kind dir g) ->
  signal_type s = kind /\ direction s = dir /\ timeframe s = "current"
  /\ strength s = Py.min 100 (Py.len g * 25)
  /\ (strength s == 50 \/ strength s == 75 \/ strength s == 100)
  /\ Forall (fun p => In p pts /\ (sw_timestamp p <= timestamp s)%Z) g
  /\ exists first, In first g /\ price s = sw_price first
                   /\ Forall (fun p => (sw_timestamp first <= sw_timestamp p)%Z) g.
Proof.
  intros Hg Hs. apply liquidity_signal_cases in Hs as (Hlen & first & final & Hh & Hl & ->).
  cbn [signal_type direction timeframe strength timestamp price].
  pose proof (equal_level_group_sorted self pts label g Hg) as Hsorted.
  repeat (split; [reflexivity|]).
  split; [apply touch_strength_values, Hlen|]. split.
  - pose proof (StronglySorted_last _ g final Hsorted Hl) as Hlast.
    apply List.Forall_forall. intros p Hp. split.
    + apply (equal_level_group_members self pts label g p Hg Hp).
    + rewrite List.Forall_forall in Hlast. destruct (Hlast p Hp) as [->|Hle]; lia.
  - exists first. split; [apply list_elem_of_In, head_Some_elem_of, Hh|].
    split; [reflexivity|].
    pose proof (sorted_head_first _ g first Hsorted Hh) as Hfirst.
    eapply Forall_impl; [exact Hfirst|]. simpl. intros p [->|Hle]; lia.
Qed.

(** X8. Every signal of [identify_liquidity_zones] stands for a group of two
    or more swing points of one type found by the default swing scan: equal
    highs give a bearish [Liquidity_EqualHighs], equal lows a bullish
    [Liquidity_EqualLows]. Its strength is [min(100, 25 * touches)], hence 50,
    75 or 100; its price is that of the earliest touch and its timestamp is
    not before any touch. *)
Theorem liquidity_signal_values (self : LiquidityAnalyzer) (df : DataFrame)
    (pair : string) :
  Forall (fun s =>
            exists kind touches,
              ((kind = swing_high /\ signal_type s = "Liquidity_EqualHighs"
                /\ direction s = "bearish")
               \/ (kind = swing_low /\ signal_type s = "Liquidity_EqualLows"
                   /\ direction s = "bullish"))
              /\ (2 <= length touches)%nat
              /\ strength s = Py.min 100 (Py.len touches * 25)
              /\ (strength s == 50 \/ strength s == 75 \/ strength s == 100)
              /\ Forall (fun p => In p (_identify_swing_points df 5)
                                  /\ sw_type p = kind
                                  /\ (sw_timestamp p <= timestamp s)%Z) touches
              /\ exists first,
                   In first touches /\ price s = sw_price first
                   /\ Forall (fun p => (sw_timestamp first <= sw_timestamp p)%Z) touches)
    (identify_liquidity_zones self df pair).
Proof.
  unfold identify_liquidity_zones, liquidity_zones_with.
  destruct (_ <? 20)%nat; [constructor|]. cbv zeta.
  set (swings := _identify_swing_points df 5).
  apply Forall_app. split; apply List.Forall_forall; intros s (g & Hg & Hs)%in_flat_map.
  - destruct (liquidity_signal_of_group _ _ _ _ _ g s Hg Hs)
      as (Hk & Hd & _ & Hst & Hv & Hall & Hfirst).
    pose proof (liquidity_signal_cases _ _ _ _ Hs) as [Hlen _].
    exists swing_high, g. split; [left; auto|]. split; [exact Hlen|].
    split; [exact Hst|]. split; [exact Hv|]. split; [|exact Hfirst].
    eapply Forall_impl; [exact Hall|]. simpl.
    intros p [[Hp Ht]%swings_of_type_In Hle]. auto.
  - destruct (liquidity_signal_of_group _ _ _ _ _ g s Hg Hs)
      as (Hk & Hd & _ & Hst & Hv & Hall & Hfirst).
    pose proof (liquidity_signal_cases _ _ _ _ Hs) as [Hlen _].
    exists swing_low, g. split; [right; auto|]. split; [exact Hlen|].
    split; [exact Hst|]. split; [exact Hv|]. split; [|exact Hfirst].
    eapply Forall_impl; [exact Hall|]. simpl.
    intros p [[Hp Ht]%swings_of_type_In Hle]. auto.
Qed.

(** ** Stamps and vocabulary *)

Lemma structure_signals_stamped self df pair w s :
  In s (structure_signals self (_identify_swing_points df w) (pip_value pair)) ->
  stamped_in df s.
Proof.
  intros (i & Hi & [Hm|Hc])%structure_signals_cases.
  - apply mss_at_cases in Hm as (cur & _ & Hcur & _ & _ & Hts & _).
    unfold stamped_in. rewrite Hts. apply (swing_stamped df w).
    apply In_lookup. eauto.
  - apply choch_at_cases in Hc as (_ & _ & _ & ll & lh & prev & Hll & Hlh & _ & _ & _ & Hcase).
    unfold stamped_in.
    destruct Hcase as [(_ & _ & _ & _ & -> & _)|(_ & _ & _ & _ & -> & _)];
      apply (swing_stamped df w); assumption.
Qed.

Lemma liquidity_zones_stamped self df pair :
  Forall (stamped_in df) (identify_liquidity_zones self df pair).
Proof.
  unfold identify_liquidity_zones, liquidity_zones_with.
  destruct (_ <? 20)%nat; [constructor|]. cbv zeta.
  apply Forall_app. split; apply List.Forall_forall; intros s (g & Hg & Hs)%in_flat_map;
    apply liquidity_signal_cases in Hs as (_ & first & final & _ & Hl & ->);
    unfold stamped_in; cbn [timestamp];
    apply (swing_stamped df 5);
    apply last_In in Hl;
    apply (equal_level_group_members _ _ _ _ _ Hg) in Hl;
    apply swings_of_type_In in Hl as [Hl _]; exact Hl.
Qed.

(** X9. For every frame, pair and configuration, each signal returned by the
    four detectors carries the [datetime] of a candle of the frame. *)
Theorem signals_stamped_with_candle_times `{Numeric}
    (fvg : FairValueGapAnalyzer) (ob : OrderBlockAnalyzer)
    (ms : MarketStructureAnalyzer) (liq : LiquidityAnalyzer)
    (df : DataFrame) (pair : string) :
  Forall (fun s => In (timestamp s) (map datetime (rows df))) (identify_fvgs fvg df pair)
  /\ Forall (fun s => In (timestamp s) (map datetime (rows df)))
       (identify_order_blocks ob df pair)
  /\ Forall (fun s => In (timestamp s) (map datetime (rows df)))
       (identify_structure_shifts ms df pair)
  /\ Forall (fun s => In (timestamp s) (map datetime (rows df)))
       (identify_liquidity_zones liq df pair).
Proof.
  split; [|split; [|split]].
  - apply identify_fvgs_Forall. intros i. apply fvg_at_stamped.
  - apply identify_order_blocks_Forall. intros i. apply ob_at_stamped.
  - apply List.Forall_forall. intros s Hs%identify_structure_shifts_signals.
    apply (structure_signals_stamped ms df pair 5 s Hs).
  - apply liquidity_zones_stamped.
Qed.

Lemma structure_signals_vocabulary self sp pip :
  Forall in_vocabulary (structure_signals self sp pip).
Proof.
  apply List.Forall_forall. intros s (i & _ & [Hm|Hc])%structure_signals_cases;
    unfold in_vocabulary.
  - apply mss_at_types in Hm as [[[-> ->]|[-> ->]] Htf];
      (split; [simpl; tauto | exact Htf]).
  - apply choch_at_cases in Hc as (_ & _ & Htf & ll & lh & prev & _ & _ & _ & _ & _ & Hcase).
    destruct Hcase as [(-> & -> & _)|(-> & -> & _)];
      (split; [simpl; tauto | exact Htf]).
Qed.

Lemma liquidity_zones_vocabulary self df pair :
  Forall in_vocabulary (identify_liquidity_zones self df pair).
Proof.
  unfold identify_liquidity_zones, liquidity_zones_with.
  destruct (_ <? 20)%nat; [constructor|]. cbv zeta.
  apply Forall_app. split; apply List.Forall_forall; intros s (g & Hg & Hs)%in_flat_map;
    apply liquidity_signal_cases in Hs as (_ & first & final & _ & _ & ->);
    (split; [simpl; tauto | reflexivity]).
Qed.

(** X10. For every frame, pair and configuration, each signal returned by the
    four detectors has one of ten type names, the direction that belongs to
    that name (always bullish or bearish), and the timeframe "current". *)
Theorem signals_use_fixed_vocabulary `{Numeric}
    (fvg : FairValueGapAnalyzer) (ob : OrderBlockAnalyzer)
    (ms : MarketStructureAnalyzer) (liq : LiquidityAnalyzer)
    (df : DataFrame) (pair : string) :
  let known := fun s =>
    In (signal_type s, direction s) detector_vocabulary
    /\ (direction s = "bullish" \/ direction s = "bearish")
    /\ timeframe s = "current" in
  Forall known (identify_fvgs fvg df pair)
  /\ Forall known (identify_order_blocks ob df pair)
  /\ Forall known (identify_structure_shifts ms df pair)
  /\ Forall known (identify_liquidity_zones liq df pair).
Proof.
  intros known.
  assert (Hk : forall s, in_vocabulary s -> known s).
  { intros s [Hv Htf]. split; [exact Hv|]. split; [|exact Htf].
    unfold detector_vocabulary in Hv. simpl in Hv.
    repeat (destruct Hv as [[= _ <-]|Hv]; [tauto|]). destruct Hv. }
  split; [|split; [|split]]; (eapply Forall_impl; [|exact Hk]).
  - apply identify_fvgs_Forall. intros i. apply fvg_at_vocabulary.
  - apply identify_order_blocks_Forall. intros i. apply ob_at_vocabulary.
  - unfold identify_structure_shifts. repeat case_match; try constructor.
    apply structure_signals_vocabulary.
  - apply liquidity_zones_vocabulary.
Qed.

(** ** How many signals a detector can return *)

Lemma flat_map_length_le {A B} (f : A -> list B) (k : nat) (l : list A) :
  (forall x, (length (f x) <= k)%nat) ->
  (length (flat_map f l) <= k * length l)%nat.
Proof.
  intros Hf. induction l as [|x l IH]; simpl; [lia|].
  rewrite length_app. specialize (Hf x). lia.
Qed.

Lemma range_length (lo hi : nat) : length (Py.range lo hi) = (hi - lo)%nat.
Proof. unfold Py.range. apply length_seq. Qed.

Lemma filter_length_le {A} (f : A -> bool) (l : list A) :
  (length (List.filter f l) <= length l)%nat.
Proof. apply sublist_length, filter_sublist. Qed.

Lemma swings_split_length (l : list SwingPoint) :
  (length (swings_of_type swing_high l) + length (swings_of_type swing_low l)
   = length l)%nat.
Proof.
  induction l as [|p l IH]; simpl; [reflexivity|].
  destruct (sw_type p); simpl; lia.
Qed.

Lemma liquidity_signal_length kind dir g : (length (liquidity_signal kind dir g) <= 1)%nat.
Proof. unfold liquidity_signal. repeat case_match; simpl; lia. Qed.

Lemma find_equal_levels_length self pts label :
  (2 * length (_find_equal_levels self pts label) <= length pts)%nat.
Proof.
  rewrite find_equal_levels_eq.
  rewrite <- (Permutation_length
                (first_anchor_groups_Permutation
                   (level_match (equal_level_tolerance self)) pts)).
  apply omap_length_le. intros raw g [Hlen _]%emit_level_Some. exact Hlen.
Qed.

(** X11. On a frame of [n] rows the gap detector returns at most [n - 2]
    signals and the order-block detector at most [n - confirmation_candles -
    5]; the default swing scan finds at most [n - 10] swing points, the
    structure detector returns at most two signals for each swing point from
    the third on, and the liquidity detector at most one signal for every two
    swing points. *)
Theorem detector_output_sizes `{Numeric}
    (fvg : FairValueGapAnalyzer) (ob : OrderBlockAnalyzer)
    (ms : MarketStructureAnalyzer) (liq : LiquidityAnalyzer)
    (df : DataFrame) (pair : string) :
  let n := length (rows df) in
  let swings := length (_identify_swing_points df 5) in
  (length (identify_fvgs fvg df pair) <= n - 2)%nat
  /\ (length (identify_order_blocks ob df pair) <= n - confirmation_candles ob - 5)%nat
  /\ (swings <= n - 10)%nat
  /\ (length (identify_structure_shifts ms df pair) <= 2 * (swings - 2))%nat
  /\ (2 * length (identify_liquidity_zones liq df pair) <= swings)%nat.
Proof.
  intros n swings. split; [|split; [|split; [|split]]].
  - unfold identify_fvgs. repeat case_match; simpl; try lia.
    etransitivity; [apply filter_length_le|].
    unfold detected_fvgs.
    etransitivity; [apply (flat_map_length_le _ 1)|].
    + intros i. unfold fvg_at. repeat case_match; simpl; lia.
    + rewrite range_length. subst n. lia.
  - unfold identify_order_blocks. case_match; simpl; [lia|].
    etransitivity; [apply (flat_map_length_le _ 1)|].
    + intros i. unfold ob_at. repeat case_match; simpl; lia.
    + rewrite range_length. subst n. lia.
  - subst swings n.
    destruct (swing_scan_facts df 5) as (_ & _ & Hl). lia.
  - unfold identify_structure_shifts. repeat case_match; simpl; try lia.
    unfold structure_signals.
    etransitivity; [apply (flat_map_length_le _ 2)|].
    + intros i. rewrite length_app.
      assert ((length (mss_at ms (_identify_swing_points df 5) (pip_value pair) i) <= 1)%nat)
        by (unfold mss_at; repeat case_match; simpl; lia).
      assert ((length (choch_at ms (_identify_swing_points df 5) (pip_value pair) i) <= 1)%nat)
        by (unfold choch_at; repeat case_match; simpl; lia).
      lia.
    + rewrite range_length. subst swings. lia.
  - unfold identify_liquidity_zones, liquidity_zones_with.
    case_match; [simpl; lia|]. cbv zeta. rewrite length_app.
    pose proof (swings_split_length (_identify_swing_points df 5)) as Hsplit.
    pose proof (find_equal_levels_length liq
                  (swings_of_type swing_high (_identify_swing_points df 5)) "high") as Hh.
    pose proof (find_equal_levels_length liq
                  (swings_of_type swing_low (_identify_swing_points df 5)) "low") as Hl.
    pose proof (flat_map_length_le (liquidity_signal "Liquidity_EqualHighs" "bearish") 1
                  (_find_equal_levels liq
                     (swings_of_type swing_high (_identify_swing_points df 5)) "high")
                  (liquidity_signal_length _ _)) as Fh.
    pose proof (flat_map_length_le (liquidity_signal "Liquidity_EqualLows" "bullish") 1
                  (_find_equal_levels liq
                     (swings_of_type swing_low (_identify_swing_points df 5)) "low")
                  (liquidity_signal_length _ _)) as Fl.
    subst swings. lia.
Qed.

(** ** Fair value gaps *)

Lemma pip_value_cases (pair : string) : pip_value pair = 0.01 \/ pip_value pair = 0.0001.
Proof. unfold pip_value. destruct (Py.contains "JPY" pair); auto. Qed.

Lemma pip_value_pos (pair : string) : 0 < pip_value pair.
Proof. destruct (pip_value_cases pair) as [-> | ->]; reflexivity. Qed.

Lemma pips_to_price (a b pip : Q) : 0 < pip -> a <= b / pip -> a * pip <= b.
Proof.
  intros Hp Hab.
  assert (E : b == b / pip * pip) by (field; lra).
  rewrite E. apply Qmult_le_compat_r; lra.
Qed.

Lemma midpoint_inside (a b : Q) :
  a < b ->
  a < (a + b) / 2 /\ (a + b) / 2 < b /\ (a + b) / 2 - a == b - (a + b) / 2.
Proof.
  intros Hab.
  assert (E : (a + b) / 2 == a * (1 # 2) + b * (1 # 2)) by field.
  rewrite E. repeat split; lra.
Qed.

Lemma bullish_impulse_iff (c : Candle) :
  _is_bullish_impulse c = true <->
  open c < close c /\ 0 < high c - low c
  /\ (high c - low c) * 0.6 < Qabs (close c - open c).
Proof.
  unfold _is_bullish_impulse. cbv zeta. rewrite andb_true_iff, Qltb_true.
  destruct (Qltb_spec 0 (high c - low c)) as [Hr|Hr].
  - rewrite Qltb_true. tauto.
  - split; [intros [_ [=]] | intros (_ & Hr' & _); contradiction].
Qed.

Lemma bearish_impulse_iff (c : Candle) :
  _is_bearish_impulse c = true <->
  close c < open c /\ 0 < high c - low c
  /\ (high c - low c) * 0.6 < Qabs (open c - close c).
Proof.
  unfold _is_bearish_impulse. cbv zeta. rewrite andb_true_iff, Qltb_true.
  destruct (Qltb_spec 0 (high c - low c)) as [Hr|Hr].
  - rewrite Qltb_true. tauto.
  - split; [intros [_ [=]] | intros (_ & Hr' & _); contradiction].
Qed.

(** X12. A candle is a bullish impulse exactly when it closes above its open,
    its range is positive and its body exceeds 0.6 of the range; a bearish
    impulse is the mirror image. No candle is both, and a candle with equal
    open and close, or with no range, is neither. *)
Theorem impulse_candles (c : Candle) :
  (_is_bullish_impulse c = true <->
     open c < close c /\ low c < high c
     /\ (high c - low c) * 0.6 < close c - open c)
  /\ (_is_bearish_impulse c = true <->
        close c < open c /\ low c < high c
        /\ (high c - low c) * 0.6 < open c - close c)
  /\ _is_bullish_impulse c && _is_bearish_impulse c = false
  /\ (open c == close c ->
      _is_bullish_impulse c = false /\ _is_bearish_impulse c = false)
  /\ (high c <= low c ->
      _is_bullish_impulse c = false /\ _is_bearish_impulse c = false).
Proof.
  assert (Hb : _is_bullish_impulse c = true <->
               open c < close c /\ low c < high c
               /\ (high c - low c) * 0.6 < close c - open c).
  { rewrite bullish_impulse_iff. split.
    - intros (Hg & Hr & Hbody). rewrite Qabs_pos in Hbody by lra.
      repeat split; [exact Hg | lra | exact Hbody].
    - intros (Hg & Hr & Hbody). rewrite Qabs_pos by lra.
      repeat split; [exact Hg | lra | exact Hbody]. }
  assert (Hr : _is_bearish_impulse c = true <->
               close c < open c /\ low c < high c
               /\ (high c - low c) * 0.6 < open c - close c).
  { rewrite bearish_impulse_iff. split.
    - intros (Hg & Hr & Hbody). rewrite Qabs_pos in Hbody by lra.
      repeat split; [exact Hg | lra | exact Hbody].
    - intros (Hg & Hr & Hbody). rewrite Qabs_pos by lra.
      repeat split; [exact Hg | lra | exact Hbody]. }
  split; [exact Hb|]. split; [exact Hr|].
  assert (Hnot : forall b, (b = true -> False) -> b = false)
    by (intros [|] Hf; [destruct Hf|]; reflexivity).
  split; [|split].
  - apply Hnot. intros [H1 H2]%andb_prop. apply Hb in H1. apply Hr in H2. lra.
  - intros Heq. split; apply Hnot; [intros H1%Hb | intros H1%Hr]; lra.
  - intros Hflat. split; apply Hnot; [intros H1%Hb | intros H1%Hr]; lra.
Qed.

Section GapGeometry.
Context `{Numeric}.

Lemma fvg_at_cases self df pip i s :
  In s (fvg_at self df pip i) ->
  exists c1 c2 c3,
    rows df !! (i - 2)%nat = Some c1 /\ rows df !! (i - 1)%nat = Some c2
    /\ rows df !! i = Some c3
    /\ timestamp s = datetime c3
    /\ ((signal_type s = "FVG_Bullish"
         /\ high c3 < low c1
         /\ price s = (low c1 + high c3) / 2
         /\ min_gap_pips self <= (low c1 - high c3) / pip
         /\ _is_bullish_impulse c2 = true)
        \/ (signal_type s = "FVG_Bearish"
            /\ high c1 < low c3
            /\ price s = (low c3 + high c1) / 2
            /\ min_gap_pips self <= (low c3 - high c1) / pip
            /\ _is_bearish_impulse c2 = true)).
Proof.
  unfold fvg_at.
  destruct (rows df !! (i - 2)%nat) as [c1|]; [|intros []].
  destruct (rows df !! (i - 1)%nat) as [c2|]; [|intros []].
  destruct (rows df !! i) as [c3|]; [|intros []].
  intros Hin. exists c1, c2, c3. repeat (split; [reflexivity|]).
  destruct (Qltb_spec (high c3) (low c1)) as [Hg|Hg].
  - destruct (Qle_bool _ _ && _is_bullish_impulse c2) eqn:E; [|destruct Hin].
    destruct Hin as [<-|[]]. apply andb_prop in E as [Hmin Himp].
    split; [reflexivity|]. left. repeat (split; [reflexivity|]).
    split; [exact Hg|]. split; [reflexivity|].
    split; [apply Qle_bool_iff, Hmin | exact Himp].
  - destruct (Qltb_spec (high c1) (low c3)) as [Hg'|Hg']; [|destruct Hin].
    destruct (Qle_bool _ _ && _is_bearish_impulse c2) eqn:E; [|destruct Hin].
    destruct Hin as [<-|[]]. apply andb_prop in E as [Hmin Himp].
    split; [reflexivity|]. right. repeat (split; [reflexivity|]).
    split; [exact Hg'|]. split; [reflexivity|].
    split; [apply Qle_bool_iff, Hmin | exact Himp].
Qed.

(** X13. Every signal returned by [identify_fvgs] comes from three consecutive
    candles [i - 2], [i - 1], [i] of the frame and is stamped with candle [i].
    A bullish one lies strictly between the high of candle [i] and the low of
    candle [i - 2], at equal distance from both, the gap is at least
    [min_gap_pips] pips wide, and the middle candle closes above its open; a
    bearish one mirrors this between the high of candle [i - 2] and the low
    of candle [i]. *)
Theorem fvg_price_inside_gap (self : FairValueGapAnalyzer) (df : DataFrame)
    (pair : string) :
  Forall (fun s =>
            exists i c1 c2 c3,
              (2 <= i)%nat
              /\ rows df !! (i - 2)%nat = Some c1 /\ rows df !! (i - 1)%nat = Some c2
              /\ rows df !! i = Some c3
              /\ timestamp s = datetime c3
              /\ ((signal_type s = "FVG_Bullish"
                   /\ high c3 < price s /\ price s < low c1
                   /\ price s - high c3 == low c1 - price s
                   /\ min_gap_pips self * pip_value pair <= low c1 - high c3
                   /\ open c2 < close c2)
                  \/ (signal_type s = "FVG_Bearish"
                      /\ high c1 < price s /\ price s < low c3
                      /\ price s - high c1 == low c3 - price s
                      /\ min_gap_pips self * pip_value pair <= low c3 - high c1
                      /\ close c2 < open c2)))
    (identify_fvgs self df pair).
Proof.
  apply List.Forall_forall. intros s Hs%identify_fvgs_detected.
  unfold detected_fvgs in Hs. apply in_flat_map in Hs as (i & Hi & Hs).
  apply in_range_iff in Hi.
  apply fvg_at_cases in Hs as (c1 & c2 & c3 & E1 & E2 & E3 & Hts & Hcase).
  exists i, c1, c2, c3. split; [lia|]. repeat (split; [assumption|]).
  pose proof (pip_value_pos pair) as Hpip.
  destruct Hcase as [(Hty & Hgap & -> & Hmin & Himp)|(Hty & Hgap & -> & Hmin & Himp)].
  - left. split; [exact Hty|].
    apply bullish_impulse_iff in Himp as (Hgreen & _).
    apply pips_to_price in Hmin; [|exact Hpip].
    destruct (midpoint_inside (high c3) (low c1) Hgap) as (Ha & Hb & Hc).
    rewrite (Qplus_comm (low c1)).
    repeat split; assumption.
  - right. split; [exact Hty|].
    apply bearish_impulse_iff in Himp as (Hred & _).
    apply pips_to_price in Hmin; [|exact Hpip].
    destruct (midpoint_inside (high c1) (low c3) Hgap) as (Ha & Hb & Hc).
    rewrite (Qplus_comm (low c3)).
    repeat split; assumption.
Qed.

(** X14. When no candle of the frame is older than [max_age_hours] at the time
    of the last candle, the age filter of [identify_fvgs] removes nothing:
    the result is the list of detected gaps. *)
Theorem fvg_filter_keeps_fresh_frames (self : FairValueGapAnalyzer) (df : DataFrame)
    (pair : string) (final : Candle) :
  last (rows df) = Some final ->
  Forall (fun c => (datetime final - datetime c <= 3600 * max_age_hours self)%Z)
    (rows df) ->
  identify_fvgs self df pair = detected_fvgs self df pair.
Proof.
  intros Hlast Hfresh. unfold identify_fvgs. rewrite Hlast.
  destruct (Nat.ltb_spec (length (rows df)) 3) as [Hshort|_].
  - unfold detected_fvgs, Py.range.
    replace (length (rows df) - 2)%nat with 0%nat by lia. reflexivity.
  - apply filter_all. apply List.Forall_forall. intros s Hs.
    apply Qle_bool_iff, age_hours_le.
    unfold detected_fvgs in Hs. apply in_flat_map in Hs as (i & _ & Hs).
    apply fvg_at_cases in Hs as (_ & _ & c3 & _ & _ & E3 & -> & _).
    rewrite List.Forall_forall in Hfresh. apply Hfresh.
    apply In_lookup. eauto.
Qed.
End GapGeometry.

(** ** The factors of the gap score *)

Lemma min_lt_glb (a b c : Q) : c < a -> c < b -> c < Py.min a b.
Proof. unfold Py.min. destruct (Qltb_spec b a); lra. Qed.

Lemma min_le_r (a b : Q) : Py.min a b <= b.
Proof. unfold Py.min. destruct (Qltb_spec b a); lra. Qed.

Lemma min_mono_r (a b c : Q) : b <= c -> Py.min a b <= Py.min a c.
Proof.
  intros Hbc. apply min_glb; [apply min_le_l|].
  pose proof (min_le_r a b). lra.
Qed.

Lemma clamp100_gt (a x : Q) : a < 100 -> a < x -> a < Py.clamp100 x.
Proof.
  intros Ha Hx. unfold Py.clamp100. apply min_lt_glb; [exact Ha|].
  pose proof (max_ge_r 0 x). lra.
Qed.

Lemma Qdiv_le_1 (a b : Q) : 0 < b -> a <= b -> a / b <= 1.
Proof. intros Hb Hab. apply Qle_shift_div_r; [exact Hb | lra]. Qed.

Lemma body_le_range (c : Candle) :
  well_formed c -> Qabs (close c - open c) <= high c - low c.
Proof.
  intros (H1 & H2 & H3 & H4). apply Qabs_Qle_condition. split; lra.
Qed.

Section FactorBounds.
Context `{Numeric}.

Lemma trend_strength_bounds (closes : list Q) :
  0 <= _calculate_trend_strength closes <= 1.
Proof.
  unfold _calculate_trend_strength.
  destruct (length closes <? 2)%nat; [lra|]. cbv zeta.
  destruct (Qltb_spec 0 (series_std closes)) as [Hs|Hs]; [|lra].
  split.
  - apply min_nonneg; [lra|].
    apply Qdiv_nonneg; [|lra]. apply Qdiv_nonneg; [apply Qabs_nonneg | exact Hs].
  - pose proof (min_le_l 1.0 (Qabs (polyfit_slope closes) / series_std closes / 2)).
    lra.
Qed.

Lemma fvg_trend_score_bounds (ctx : DataFrame) : 0 <= fvg_trend_score ctx <= 25.
Proof.
  unfold fvg_trend_score. destruct (10 <=? length (rows ctx))%nat; [|lra].
  pose proof (trend_strength_bounds (Py.tail 10 (map close (rows ctx)))). lra.
Qed.

Lemma fvg_impulse_score_nonneg (c : Candle) : 0 <= fvg_impulse_score c.
Proof.
  unfold fvg_impulse_score. cbv zeta.
  destruct (Qltb_spec 0 (high c - low c)) as [Hr|Hr]; [|lra].
  pose proof (Qdiv_nonneg (Qabs (close c - open c)) (high c - low c)
                (Qabs_nonneg _) Hr). lra.
Qed.

Lemma fvg_volume_score_le (c : Candle) (ctx : DataFrame) : fvg_volume_score c ctx <= 25.
Proof.
  unfold fvg_volume_score.
  destruct (has_volume ctx && (5 <? length (rows ctx))%nat); [|lra]. cbv zeta.
  destruct (Py.Qltb 0 _); [apply min_le_l | lra].
Qed.

Lemma fvg_volume_score_nonneg (c : Candle) (ctx : DataFrame) :
  0 <= volume c -> 0 <= fvg_volume_score c ctx.
Proof.
  intros Hv. unfold fvg_volume_score.
  destruct (has_volume ctx && (5 <? length (rows ctx))%nat); [|lra]. cbv zeta.
  destruct (Qltb_spec 0 (Py.mean (map volume (rows ctx)))) as [Ha|Ha]; [|lra].
  apply min_nonneg; [lra|].
  pose proof (Qdiv_nonneg _ _ Hv Ha). lra.
Qed.

(** X15. The trend strength lies between 0 and 1 for every implementation of
    the polyfit and standard-deviation routines. Of the four factors of the
    gap score, the gap, volume and trend factors never exceed 25 and the
    impulse and trend factors are never negative; the volume factor is not
    negative when the impulse candle's volume is not, and for a candle whose
    open and close lie between its low and high the impulse factor is at most
    25, so the four factors add up to at most 100. *)
Theorem fvg_score_factors (gap_pips : Q) (c : Candle) (ctx : DataFrame)
    (closes : list Q) :
  0 <= _calculate_trend_strength closes <= 1
  /\ fvg_gap_score gap_pips <= 25
  /\ 0 <= fvg_impulse_score c
  /\ (well_formed c -> fvg_impulse_score c <= 25)
  /\ fvg_volume_score c ctx <= 25
  /\ (0 <= volume c -> 0 <= fvg_volume_score c ctx)
  /\ 0 <= fvg_trend_score ctx <= 25
  /\ (well_formed c ->
      fvg_gap_score gap_pips + fvg_impulse_score c + fvg_volume_score c ctx
      + fvg_trend_score ctx <= 100).
Proof.
  assert (Himp : well_formed c -> fvg_impulse_score c <= 25).
  { intros Hwf. unfold fvg_impulse_score. cbv zeta.
    destruct (Qltb_spec 0 (high c - low c)) as [Hr|Hr]; [|lra].
    pose proof (Qdiv_le_1 _ _ Hr (body_le_range c Hwf)). lra. }
  pose proof (min_le_l 25 (gap_pips * 2)) as Hgap.
  pose proof (fvg_volume_score_le c ctx) as Hvol.
  pose proof (fvg_trend_score_bounds ctx) as Htrend.
  split; [apply trend_strength_bounds|].
  split; [exact Hgap|].
  split; [apply fvg_impulse_score_nonneg|].
  split; [exact Himp|].
  split; [exact Hvol|].
  split; [apply fvg_volume_score_nonneg|].
  split; [exact Htrend|].
  intros Hwf. specialize (Himp Hwf). unfold fvg_gap_score. lra.
Qed.

Lemma impulse_score_gt_15 (c : Candle) :
  _is_bullish_impulse c = true \/ _is_bearish_impulse c = true ->
  15 < fvg_impulse_score c.
Proof.
  intros Himp.
  assert (Hb : 0 < high c - low c
               /\ (high c - low c) * 0.6 < Qabs (close c - open c)).
  { destruct Himp as [(_ & Hr & Hb)%bullish_impulse_iff|(_ & Hr & Hb)%bearish_impulse_iff].
    - split; assumption.
    - split; [exact Hr|].
      assert (E : close c - open c == - (open c - close c)) by ring.
      rewrite E, Qabs_opp. exact Hb. }
  destruct Hb as [Hr Hb]. unfold fvg_impulse_score. cbv zeta.
  destruct (Qltb_spec 0 (high c - low c)) as [_|Hn]; [|lra].
  assert (0.6 < Qabs (close c - open c) / (high c - low c)).
  { apply Qlt_shift_div_l; [exact Hr|]. lra. }
  lra.
Qed.

Lemma fvg_at_scored self df pip i s :
  0 < pip ->
  In s (fvg_at self df pip i) ->
  exists c2 g,
    rows df !! (i - 1)%nat = Some c2
    /\ min_gap_pips self <= g /\ 0 < g
    /\ (_is_bullish_impulse c2 = true \/ _is_bearish_impulse c2 = true)
    /\ strength s = _calculate_fvg_strength g c2 (fvg_context df i).
Proof.
  intros Hpip. unfold fvg_at.
  destruct (rows df !! (i - 2)%nat) as [c1|]; [|intros []].
  destruct (rows df !! (i - 1)%nat) as [c2|]; [|intros []].
  destruct (rows df !! i) as [c3|]; [|intros []].
  intros Hin.
  destruct (Qltb_spec (high c3) (low c1)) as [Hg|Hg].
  - destruct (Qle_bool _ _ && _is_bullish_impulse c2) eqn:E; [|destruct Hin].
    destruct Hin as [<-|[]]. apply andb_prop in E as [Hmin Himp].
    exists c2, ((low c1 - high c3) / pip). split; [reflexivity|].
    split; [apply Qle_bool_iff, Hmin|].
    split; [apply Qlt_shift_div_l; [exact Hpip | lra]|].
    split; [left; exact Himp | reflexivity].
  - destruct (Qltb_spec (high c1) (low c3)) as [Hg'|Hg']; [|destruct Hin].
    destruct (Qle_bool _ _ && _is_bearish_impulse c2) eqn:E; [|destruct Hin].
    destruct Hin as [<-|[]]. apply andb_prop in E as [Hmin Himp].
    exists c2, ((low c3 - high c1) / pip). split; [reflexivity|].
    split; [apply Qle_bool_iff, Hmin|].
    split; [apply Qlt_shift_div_l; [exact Hpip | lra]|].
    split; [right; exact Himp | reflexivity].
Qed.

(** X16. On a frame without negative volumes every signal returned by
    [identify_fvgs] has a strength above 15, and above 15 plus the gap factor
    of the smallest admitted gap. *)
Theorem fvg_strength_floor (self : FairValueGapAnalyzer) (df : DataFrame)
    (pair : string) :
  Forall (fun c => 0 <= volume c) (rows df) ->
  Forall (fun s =>
            15 < strength s
            /\ 15 + fvg_gap_score (min_gap_pips self) < strength s)
    (identify_fvgs self df pair).
Proof.
  intros Hvol. apply List.Forall_forall. intros s Hs%identify_fvgs_detected.
  unfold detected_fvgs in Hs. apply in_flat_map in Hs as (i & _ & Hs).
  apply fvg_at_scored in Hs as (c2 & g & E2 & Hmin & Hpos & Himp & ->);
    [|apply pip_value_pos].
  assert (Hv : 0 <= volume c2).
  { rewrite List.Forall_forall in Hvol. apply Hvol, In_lookup. eauto. }
  pose proof (impulse_score_gt_15 c2 Himp) as H15.
  pose proof (fvg_volume_score_nonneg c2 (fvg_context df i) Hv) as H3.
  pose proof (fvg_trend_score_bounds (fvg_context df i)) as H4.
  assert (H1 : 0 < fvg_gap_score g)
    by (unfold fvg_gap_score; apply min_lt_glb; lra).
  assert (H1' : fvg_gap_score (min_gap_pips self) <= fvg_gap_score g)
    by (unfold fvg_gap_score; apply min_mono_r; lra).
  assert (H25 : fvg_gap_score (min_gap_pips self) <= 25) by apply min_le_l.
  unfold _calculate_fvg_strength. cbv zeta.
  split; apply clamp100_gt; lra.
Qed.
End FactorBounds.

(** ** Order blocks without confirmation candles *)

Lemma slice_empty {A} (lo : nat) (l : list A) : Py.slice lo (lo + 0) l = [].
Proof. unfold Py.slice. replace (lo + 0 - lo)%nat with 0%nat by lia. reflexivity. Qed.

Lemma ob_at_no_future self df pip i :
  rows (ob_future self df i) = [] -> ob_at self df pip i = [].
Proof.
  intros Hfut. unfold ob_at. destruct (rows df !! i) as [c|]; [|reflexivity].
  cbv zeta. unfold _is_potential_bullish_ob, _is_potential_bearish_ob.
  rewrite Hfut. reflexivity.
Qed.

(** X17. With [confirmation_candles = 0] the order-block detector returns
    nothing on any frame. In general every order block is reported for a
    candle at index 5 or later that is followed by a full window of
    [confirmation_candles] candles inside the frame; a bullish block is
    priced at the low of a candle that closes below its open, a bearish one
    at the high of a candle that closes above its open. *)
Theorem order_blocks_need_future_candles (self : OrderBlockAnalyzer) (df : DataFrame)
    (pair : string) (min_size : Q) :
  identify_order_blocks (mkOB min_size 0) df pair = []
  /\ Forall (fun s =>
               exists i c,
                 (5 <= i)%nat
                 /\ (1 <= confirmation_candles self)%nat
                 /\ (i + confirmation_candles self < length (rows df))%nat
                 /\ length (rows (ob_future self df i)) = confirmation_candles self
                 /\ rows df !! i = Some c
                 /\ timestamp s = datetime c
                 /\ ((signal_type s = "OB_Bullish" /\ price s = low c
                      /\ close c < open c)
                     \/ (signal_type s = "OB_Bearish" /\ price s = high c
                         /\ open c < close c)))
       (identify_order_blocks self df pair).
Proof.
  split.
  - unfold identify_order_blocks. destruct (_ <? _)%nat; [reflexivity|]. cbv zeta.
    induction (Py.range 5 _) as [|i l IH]; [reflexivity|].
    simpl. rewrite IH, ob_at_no_future; [reflexivity|].
    unfold ob_future, iloc_slice. simpl. apply slice_empty.
  - apply List.Forall_forall. intros s Hs. unfold identify_order_blocks in Hs.
    destruct (_ <? _)%nat; [destruct Hs|]. cbv zeta in Hs.
    apply in_flat_map in Hs as (i & Hi & Hs). apply in_range_iff in Hi.
    destruct (confirmation_candles self) as [|k] eqn:Hconf.
    + rewrite ob_at_no_future in Hs; [destruct Hs|].
      unfold ob_future, iloc_slice. simpl. rewrite Hconf. apply slice_empty.
    + unfold ob_at in Hs. destruct (rows df !! i) as [c|] eqn:Hc; [|destruct Hs].
      cbv zeta in Hs. exists i, c.
      split; [lia|]. split; [lia|]. split; [lia|].
      split; [unfold ob_future, iloc_slice; simpl; rewrite slice_length; lia|].
      split; [exact Hc|].
      destruct (_is_potential_bullish_ob _ _ _ _) eqn:Hb.
      * destruct Hs as [<-|[]]. split; [reflexivity|]. left.
        repeat (split; [reflexivity|]).
        unfold _is_potential_bullish_ob in Hb.
        destruct (Py.col_max _); [|discriminate]. cbv zeta in Hb.
        apply andb_prop in Hb as [Hb _]. apply Qltb_true, Hb.
      * destruct (_is_potential_bearish_ob _ _ _ _) eqn:Hr; [|destruct Hs].
        destruct Hs as [<-|[]]. split; [reflexivity|]. right.
        repeat (split; [reflexivity|]).
        unfold _is_potential_bearish_ob in Hr.
        destruct (Py.col_min _); [|discriminate]. cbv zeta in Hr.
        apply andb_prop in Hr as [Hr _]. apply Qltb_true, Hr.
Qed.

(** ** Stability of the descending sort *)

Section SortStable.
Context {A : Type} (key : A -> Q) (f : A -> bool).
Hypothesis same_key : forall a b, f a = true -> f b = true -> key a == key b.

Lemma insert_by_desc_filter (x : A) (l : list A) :
  List.filter f (Py.insert_by_desc key x l) = List.filter f (x :: l).
Proof.
  induction l as [|z l IH]; [reflexivity|].
  cbn [Py.insert_by_desc].
  destruct (Qltb_spec (key x) (key z)) as [Hlt|Hge]; [|reflexivity].
  cbn [List.filter] in *. rewrite IH.
  destruct (f x) eqn:Ex, (f z) eqn:Ez; try reflexivity.
  pose proof (same_key x z Ex Ez). lra.
Qed.

Lemma sort_by_desc_filter (l : list A) :
  List.filter f (Py.sort_by_desc key l) = List.filter f l.
Proof.
  induction l as [|x l IH]; [reflexivity|].
  cbn [Py.sort_by_desc fold_right]. 
  change (fold_right (Py.insert_by_desc key) [] l) with (Py.sort_by_desc key l).
  rewrite insert_by_desc_filter. cbn [List.filter]. rewrite IH. reflexivity.
Qed.
End SortStable.

Lemma sort_newest_first_sorted (l : list SmartMoneySignal) :
  StronglySorted (fun a b => (timestamp b <= timestamp a)%Z) (sort_newest_first l).
Proof.
  pose proof (descending_strongly (fun x => inject_Z (timestamp x)) _
                (sort_by_desc_sorted (fun x => inject_Z (timestamp x)) l)) as Hs.
  unfold sort_newest_first.
  induction Hs as [|x r Hr IH Hall]; constructor; [exact IH|].
  eapply Forall_impl; [exact Hall|]. cbv beta. intros y Hy.
  rewrite Zle_Qle. exact Hy.
Qed.

Lemma sort_newest_first_stable (l : list SmartMoneySignal) (t : Z) :
  List.filter (fun s => Z.eqb (timestamp s) t) (sort_newest_first l)
  = List.filter (fun s => Z.eqb (timestamp s) t) l.
Proof.
  apply sort_by_desc_filter. intros a b Ha%Z.eqb_eq Hb%Z.eqb_eq.
  rewrite Ha, Hb. reflexivity.
Qed.

Lemma analyze_outcome (self : Detectors) (df : DataFrame) (pair timeframe : string) :
  (exists fvgs obs mss liq log,
     analyze self df pair timeframe
     = (mkResults fvgs obs mss liq (sort_newest_first (fvgs ++ obs ++ mss ++ liq)),
        log ++ [LogComplete (length (sort_newest_first (fvgs ++ obs ++ mss ++ liq)))]))
  \/ (exists fvgs obs mss liq log e,
        analyze self df pair timeframe
        = (mkResults fvgs obs mss liq [], log ++ [LogError e])).
Proof.
  unfold analyze, analyze_body, Run.try_except.
  destruct (call_identify_fvgs self df pair) as [fvgs|e].
  2:{ right. exists [], [], [], [], [LogInfo "Analisando Fair Value Gaps..."], e.
      reflexivity. }
  destruct (call_identify_order_blocks self df pair) as [obs|e].
  2:{ right. exists fvgs, [], [], [],
        [LogInfo "Analisando Fair Value Gaps..."; LogInfo "Analisando Order Blocks..."], e.
      reflexivity. }
  destruct (call_identify_structure_shifts self df pair) as [mss|e].
  2:{ right. exists fvgs, obs, [], [],
        [LogInfo "Analisando Fair Value Gaps..."; LogInfo "Analisando Order Blocks...";
         LogInfo "Analisando Market Structure..."], e.
      reflexivity. }
  destruct (call_identify_liquidity_zones self df pair) as [liq|e].
  2:{ right. exists fvgs, obs, mss, [],
        [LogInfo "Analisando Fair Value Gaps..."; LogInfo "Analisando Order Blocks...";
         LogInfo "Analisando Market Structure..."; LogInfo "Analisando Liquidez..."], e.
      reflexivity. }
  left. exists fvgs, obs, mss, liq,
    [LogInfo "Analisando Fair Value Gaps..."; LogInfo "Analisando Order Blocks...";
     LogInfo "Analisando Market Structure..."; LogInfo "Analisando Liquidez..."].
  reflexivity.
Qed.

(** X18. For every set of detectors, the [all_signals] list returned by
    [analyze] is sorted newest first. Either the run completed, and then
    [all_signals] is a rearrangement of the four categories in which signals
    of equal timestamp keep the order gaps, order blocks, structure,
    liquidity, and the last log record reports their number; or a detector
    raised, and then [all_signals] is empty and the last log record is the
    error. *)
Theorem analyze_orders_newest_first (self : Detectors) (df : DataFrame)
    (pair timeframe : string) :
  let results := fst (analyze self df pair timeframe) in
  let log := snd (analyze self df pair timeframe) in
  let found := fair_value_gaps results ++ order_blocks results
               ++ market_structure results ++ liquidity_zones results in
  StronglySorted (fun a b => (timestamp b <= timestamp a)%Z) (all_signals results)
  /\ ((all_signals results ≡ₚ found
       /\ (forall t : Z,
             List.filter (fun s => Z.eqb (timestamp s) t) (all_signals results)
             = List.filter (fun s => Z.eqb (timestamp s) t) found)
       /\ last log = Some (LogComplete (length found)))
      \/ (all_signals results = []
          /\ exists e, last log = Some (LogError e))).
Proof.
  cbv zeta.
  destruct (analyze_outcome self df pair timeframe)
    as [(fvgs & obs & mss & liq & log & ->)|(fvgs & obs & mss & liq & log & e & ->)];
    cbn [fst snd all_signals fair_value_gaps order_blocks market_structure
         liquidity_zones].
  - split; [apply sort_newest_first_sorted|]. left.
    split; [apply sort_by_desc_Permutation|].
    split; [intros t; apply sort_newest_first_stable|].
    rewrite last_snoc. f_equal. f_equal.
    apply Permutation_length, sort_by_desc_Permutation.
  - split; [constructor|]. right. split; [reflexivity|].
    exists e. apply last_snoc.
Qed.

(** ** The strength filter *)

Lemma max_le_iff (a b x : Q) : Py.max a b <= x <-> a <= x /\ b <= x.
Proof. unfold Py.max. destruct (Qltb_spec a b); split; intros; try split; lra. Qed.

Lemma Qle_bool_true (a b : Q) : Qle_bool a b = true <-> a <= b.
Proof. apply Qle_bool_iff. Qed.

Lemma filter_filter {A} (f g : A -> bool) (l : list A) :
  List.filter g (List.filter f l) = List.filter (fun x => f x && g x) l.
Proof.
  induction l as [|x l IH]; [reflexivity|]. cbn [List.filter].
  destruct (f x); cbn [List.filter andb]; [destruct (g x)|]; rewrite IH; reflexivity.
Qed.

(** X19. [filter_signals_by_strength] keeps, in their order, exactly the
    signals whose strength is at least the threshold. Filtering twice is
    filtering once with the larger threshold, so a repeated filter changes
    nothing; the filter distributes over concatenation, and a higher
    threshold keeps a sublist of what a lower one keeps. *)
Theorem filter_by_strength_laws (signals more : list SmartMoneySignal) (a b : Q) :
  filter_signals_by_strength signals a `sublist_of` signals
  /\ Forall (fun s => In s (filter_signals_by_strength signals a) <-> a <= strength s)
       signals
  /\ filter_signals_by_strength (filter_signals_by_strength signals a) b
     = filter_signals_by_strength signals (Py.max a b)
  /\ filter_signals_by_strength (filter_signals_by_strength signals a) a
     = filter_signals_by_strength signals a
  /\ filter_signals_by_strength (signals ++ more) a
     = filter_signals_by_strength signals a ++ filter_signals_by_strength more a
  /\ (a <= b ->
      filter_signals_by_strength signals b
      `sublist_of` filter_signals_by_strength signals a).
Proof.
  assert (Hcomp : forall x y,
            filter_signals_by_strength (filter_signals_by_strength signals x) y
            = filter_signals_by_strength signals (Py.max x y)).
  { intros x y. unfold filter_signals_by_strength. rewrite filter_filter.
    apply filter_ext. intros s.
    apply eq_true_iff_eq. rewrite andb_true_iff, !Qle_bool_true, max_le_iff.
    reflexivity. }
  split; [apply filter_sublist|].
  split.
  { apply List.Forall_forall. intros s Hs. unfold filter_signals_by_strength.
    rewrite filter_In, Qle_bool_true. tauto. }
  split; [apply Hcomp|].
  split.
  { unfold filter_signals_by_strength. rewrite filter_filter.
    apply filter_ext. intros s. destruct (Qle_bool a (strength s)); reflexivity. }
  split; [apply List.filter_app|].
  intros Hab.
  assert (E : filter_signals_by_strength signals b
              = filter_signals_by_strength (filter_signals_by_strength signals a) b).
  { rewrite Hcomp. unfold filter_signals_by_strength. apply filter_ext. intros s.
    apply eq_true_iff_eq. rewrite !Qle_bool_true, max_le_iff. split; [|tauto].
    intros Hb. split; lra. }
  rewrite E. apply filter_sublist.
Qed.

(** ** What the dashboard lists *)

Lemma In_drop {A} (b : A) (n : nat) (l : list A) : In b (drop n l) -> In b l.
Proof.
  revert l. induction n as [|n IH]; intros [|x l]; simpl; auto.
Qed.

Lemma In_sublist {A} (y : A) (k l : list A) : k `sublist_of` l -> In y k -> In y l.
Proof.
  intros Hkl Hy. rewrite <- list_elem_of_In in *. eapply elem_of_sublist; eauto.
Qed.

Lemma filter_Permutation_bool {A} (f : A -> bool) (k l : list A) :
  k ≡ₚ l -> List.filter f k ≡ₚ List.filter f l.
Proof.
  induction 1 as [|x k l _ IH|x y l|k l m _ IH1 _ IH2]; cbn [List.filter].
  - reflexivity.
  - destruct (f x); [rewrite IH|exact IH]; reflexivity.
  - destruct (f x), (f y); try reflexivity. apply perm_swap.
  - etransitivity; eassumption.
Qed.

Lemma StronglySorted_take_drop {A} (R : A -> A -> Prop) (l : list A) (n : nat) :
  StronglySorted R l ->
  Forall (fun a => Forall (fun b => R a b) (drop n l)) (take n l).
Proof.
  intros Hs. revert n. induction Hs as [|x l Hs IH Hall]; intros [|n]; simpl;
    try constructor.
  - rewrite List.Forall_forall in Hall. apply List.Forall_forall.
    intros b Hb. apply Hall. exact (In_drop b n l Hb).
  - apply IH.
Qed.

Lemma StronglySorted_sublist {A} (R : A -> A -> Prop) (k l : list A) :
  k `sublist_of` l -> StronglySorted R l -> StronglySorted R k.
Proof.
  induction 1 as [|x k l Hkl IH|x k l Hkl IH]; intros Hs.
  - constructor.
  - apply StronglySorted_inv in Hs as [Hs Hall]. constructor; [apply IH, Hs|].
    rewrite List.Forall_forall in *. intros y Hy. apply Hall.
    exact (In_sublist y k l Hkl Hy).
  - apply StronglySorted_inv in Hs as [Hs _]. apply IH, Hs.
Qed.

Lemma slice_from_zero {A} (n : nat) (l : list A) : Py.slice 0 n l = take n l.
Proof. unfold Py.slice. rewrite Nat.sub_0_r. reflexivity. Qed.

Lemma analyze_all_signals_sorted (self : Detectors) df pair timeframe :
  StronglySorted (fun a b => (timestamp b <= timestamp a)%Z)
    (all_signals (fst (analyze self df pair timeframe))).
Proof.
  destruct (analyze_outcome self df pair timeframe)
    as [(fvgs & obs & mss & liq & log & ->)|(fvgs & obs & mss & liq & log & e & ->)];
    cbn [fst all_signals]; [apply sort_newest_first_sorted | constructor].
Qed.

(** X20. The dictionary stored by the dashboard's [execute_analysis] keeps the
    four category lists of [analyze] unfiltered and replaces [all_signals] by
    those of its signals that reach the minimum strength, still newest first.
    The signal table lists at most 20 of them: the first 20, none of which is
    older than a signal left out of the table. *)
Theorem dashboard_lists_newest_strong_signals (self : Detectors) (df : DataFrame)
    (pair timeframe : string) (min_signal_strength : Q) :
  let analysed := fst (analyze self df pair timeframe) in
  let stored := execute_analysis self df pair timeframe min_signal_strength in
  let listed := table_signals (all_signals stored) in
  (fair_value_gaps stored = fair_value_gaps analysed
   /\ order_blocks stored = order_blocks analysed
   /\ market_structure stored = market_structure analysed
   /\ liquidity_zones stored = liquidity_zones analysed)
  /\ all_signals stored `sublist_of` all_signals analysed
  /\ Forall (fun s => In s (all_signals stored) <-> min_signal_strength <= strength s)
       (all_signals analysed)
  /\ StronglySorted (fun a b => (timestamp b <= timestamp a)%Z) (all_signals stored)
  /\ (length listed <= 20)%nat
  /\ listed `prefix_of` all_signals stored
  /\ Forall (fun a =>
               Forall (fun b => (timestamp b <= timestamp a)%Z)
                 (drop 20 (all_signals stored)))
       listed.
Proof.
  cbv zeta. unfold execute_analysis. cbv zeta.
  set (analysed := fst (analyze self df pair timeframe)).
  cbn [fair_value_gaps order_blocks market_structure liquidity_zones all_signals
       set_all_signals].
  assert (Hsorted : StronglySorted (fun a b => (timestamp b <= timestamp a)%Z)
                      (filter_signals_by_strength (all_signals analysed)
                         min_signal_strength)).
  { apply StronglySorted_filter, analyze_all_signals_sorted. }
  split; [repeat split|].
  split; [apply filter_sublist|].
  split.
  { apply List.Forall_forall. intros s Hs. unfold filter_signals_by_strength.
    rewrite filter_In, Qle_bool_true. tauto. }
  split; [exact Hsorted|].
  unfold table_signals. rewrite slice_from_zero.
  split; [rewrite length_take; lia|].
  split; [apply prefix_take|].
  apply StronglySorted_take_drop, Hsorted.
Qed.

Section RealAnalyzer.
Context `{Numeric}.

Lemma analyze_SmartMoneyAnalyzer df pair timeframe :
  fst (analyze SmartMoneyAnalyzer df pair timeframe)
  = let fvgs := identify_fvgs default_fvg_analyzer df pair in
    let obs := identify_order_blocks default_ob_analyzer df pair in
    let mss := identify_structure_shifts default_structure_analyzer df pair in
    let liq := identify_liquidity_zones default_liquidity_analyzer df pair in
    mkResults fvgs obs mss liq (sort_newest_first (fvgs ++ obs ++ mss ++ liq)).
Proof. reflexivity. Qed.

Lemma detectors_Forall (P : SmartMoneySignal -> Prop) df pair :
  Forall P (identify_fvgs default_fvg_analyzer df pair) ->
  Forall P (identify_order_blocks default_ob_analyzer df pair) ->
  Forall P (identify_structure_shifts default_structure_analyzer df pair) ->
  Forall P (identify_liquidity_zones default_liquidity_analyzer df pair) ->
  forall timeframe,
    Forall P (all_signals (fst (analyze SmartMoneyAnalyzer df pair timeframe))).
Proof.
  intros H1 H2 H3 H4 timeframe. rewrite analyze_SmartMoneyAnalyzer. cbv zeta.
  cbn [all_signals]. apply List.Forall_forall. intros s Hs.
  apply sort_by_desc_In in Hs.
  assert (Hall : Forall P
            (identify_fvgs default_fvg_analyzer df pair
             ++ identify_order_blocks default_ob_analyzer df pair
             ++ identify_structure_shifts default_structure_analyzer df pair
             ++ identify_liquidity_zones default_liquidity_analyzer df pair)).
  { repeat (apply Forall_app; split); assumption. }
  rewrite List.Forall_forall in Hall. apply Hall, Hs.
Qed.

Lemma analyzed_in_range df pair timeframe :
  Forall in_range (all_signals (fst (analyze SmartMoneyAnalyzer df pair timeframe))).
Proof.
  apply detectors_Forall.
  - apply identify_fvgs_in_range.
  - apply identify_order_blocks_in_range.
  - apply identify_structure_shifts_in_range.
  - apply liquidity_zones_with_in_range.
Qed.

Lemma analyzed_stamped df pair timeframe :
  Forall (stamped_in df)
    (all_signals (fst (analyze SmartMoneyAnalyzer df pair timeframe))).
Proof.
  apply detectors_Forall.
  - apply identify_fvgs_Forall. intros i. apply fvg_at_stamped.
  - apply identify_order_blocks_Forall. intros i. apply ob_at_stamped.
  - apply List.Forall_forall. intros s Hs%identify_structure_shifts_signals.
    apply (structure_signals_stamped default_structure_analyzer df pair 5 s Hs).
  - apply liquidity_zones_stamped.
Qed.

Lemma analyzed_vocabulary df pair timeframe :
  Forall in_vocabulary
    (all_signals (fst (analyze SmartMoneyAnalyzer df pair timeframe))).
Proof.
  apply detectors_Forall.
  - apply identify_fvgs_Forall. intros i. apply fvg_at_vocabulary.
  - apply identify_order_blocks_Forall. intros i. apply ob_at_vocabulary.
  - unfold identify_structure_shifts. repeat case_match; try constructor.
    apply structure_signals_vocabulary.
  - apply liquidity_zones_vocabulary.
Qed.

Lemma vocabulary_direction (s : SmartMoneySignal) :
  in_vocabulary s -> direction s = "bullish" \/ direction s = "bearish".
Proof.
  intros [Hv _]. unfold detector_vocabulary in Hv. simpl in Hv.
  repeat (destruct Hv as [[= _ <-]|Hv]; [tauto|]). destruct Hv.
Qed.

Lemma directions_partition (l : list SmartMoneySignal) :
  Forall (fun s => direction s = "bullish" \/ direction s = "bearish") l ->
  (length (List.filter (fun s => String.eqb (direction s) "bullish") l)
   + length (List.filter (fun s => String.eqb (direction s) "bearish") l)
   = length l)%nat.
Proof.
  induction 1 as [|s l Hs _ IH]; [reflexivity|]. cbn [List.filter].
  destruct Hs as [-> | ->]; cbn [String.eqb Ascii.eqb Bool.eqb length]; simpl; lia.
Qed.

(** X21. With the analyzer's own four detectors, the [all_signals] list the
    dashboard stores is a rearrangement of the detected signals that reach
    the minimum strength; each has a strength up to 100, the time of a candle
    of the frame, and a type and direction of the fixed vocabulary. A minimum
    of 0 or less drops nothing, a minimum above 100 drops everything, and the
    bullish and bearish counters of the key metrics add up to the total. *)
Theorem dashboard_signals_of_the_analyzer (df : DataFrame) (pair timeframe : string)
    (min_signal_strength : Q) :
  let analysed := fst (analyze SmartMoneyAnalyzer df pair timeframe) in
  let stored := execute_analysis SmartMoneyAnalyzer df pair timeframe
                  min_signal_strength in
  let found := identify_fvgs default_fvg_analyzer df pair
               ++ identify_order_blocks default_ob_analyzer df pair
               ++ identify_structure_shifts default_structure_analyzer df pair
               ++ identify_liquidity_zones default_liquidity_analyzer df pair in
  all_signals stored ≡ₚ filter_signals_by_strength found min_signal_strength
  /\ Forall (fun s =>
               min_signal_strength <= strength s /\ strength s <= 100
               /\ In (timestamp s) (map datetime (rows df))
               /\ In (signal_type s, direction s) detector_vocabulary)
       (all_signals stored)
  /\ (min_signal_strength <= 0 -> all_signals stored = all_signals analysed)
  /\ (100 < min_signal_strength -> all_signals stored = [])
  /\ (let '(total, bullish, bearish, strong) := signal_counters (all_signals stored) in
      (bullish + bearish = total)%nat /\ (strong <= total)%nat).
Proof.
  cbv zeta. unfold execute_analysis. cbv zeta. cbn [all_signals set_all_signals].
  set (analysed := fst (analyze SmartMoneyAnalyzer df pair timeframe)).
  pose proof (analyzed_in_range df pair timeframe) as Hrange.
  pose proof (analyzed_stamped df pair timeframe) as Hstamp.
  pose proof (analyzed_vocabulary df pair timeframe) as Hvoc.
  fold analysed in Hrange, Hstamp, Hvoc.
  rewrite List.Forall_forall in Hrange, Hstamp, Hvoc.
  assert (Hdir : Forall (fun s => direction s = "bullish" \/ direction s = "bearish")
                   (filter_signals_by_strength (all_signals analysed)
                      min_signal_strength)).
  { apply List.Forall_forall. intros s [Hs _]%filter_In.
    apply vocabulary_direction, Hvoc, Hs. }
  split.
  { unfold analysed. rewrite analyze_SmartMoneyAnalyzer. cbv zeta. cbn [all_signals].
    apply filter_Permutation_bool, sort_by_desc_Permutation. }
  split.
  { apply List.Forall_forall. intros s [Hs Hmin]%filter_In.
    apply Qle_bool_true in Hmin. split; [exact Hmin|].
    split; [apply (Hrange s Hs)|]. split; [apply (Hstamp s Hs)|].
    apply (Hvoc s Hs). }
  split.
  { intros Hmin. apply filter_all. apply List.Forall_forall. intros s Hs.
    apply Qle_bool_true. pose proof (Hrange s Hs) as [H0 _]. lra. }
  split.
  { intros Hmin. apply filter_none. apply List.Forall_forall. intros s Hs.
    destruct (Qle_bool min_signal_strength (strength s)) eqn:E; [|reflexivity].
    apply Qle_bool_true in E. pose proof (Hrange s Hs) as [_ H100]. lra. }
  unfold signal_counters.
  split; [apply directions_partition, Hdir | apply filter_length_le].
Qed.
End RealAnalyzer.

(** ** Rounding to one decimal *)

Lemma round_half_even_between (x : Q) :
  (Qfloor x <= Py.round_half_even x <= Qceiling x)%Z.
Proof.
  unfold Py.round_half_even. cbv zeta.
  pose proof (Qfloor_le x) as Hfl. pose proof (Qle_ceiling x) as Hce.
  assert (Hfc : (Qfloor x <= Qceiling x)%Z) by (rewrite Zle_Qle; lra).
  assert (Hup : inject_Z (Qfloor x) < x -> (Qfloor x + 1 <= Qceiling x)%Z).
  { intros Hlt. assert (Hz : inject_Z (Qfloor x) < inject_Z (Qceiling x)) by lra.
    rewrite <- Zlt_Qlt in Hz. lia. }
  destruct (Qltb_spec (x - inject_Z (Qfloor x)) (1 # 2)) as [H1|H1]; [lia|].
  destruct (Qltb_spec (1 # 2) (x - inject_Z (Qfloor x))) as [H2|H2].
  - split; [lia | apply Hup; lra].
  - destruct (Z.even (Qfloor x)); [lia|]. split; [lia | apply Hup; lra].
Qed.

Lemma round1_ge (k : Z) (x : Q) : inject_Z k <= x -> inject_Z k <= Py.round1 x.
Proof.
  intros Hk. unfold Py.round1.
  pose proof (round_half_even_between (x * 10)) as [Hlo _].
  assert (Hfl : (k * 10 <= Qfloor (x * 10))%Z).
  { rewrite <- (Qfloor_Z (k * 10)). apply Qfloor_resp_le.
    rewrite inject_Z_mult. change (inject_Z 10) with 10. lra. }
  assert (Hq : inject_Z (k * 10) <= inject_Z (Py.round_half_even (x * 10)))
    by (rewrite <- Zle_Qle; lia).
  rewrite inject_Z_mult in Hq. change (inject_Z 10) with 10 in Hq.
  apply Qle_shift_div_l; [reflexivity | exact Hq].
Qed.

Lemma round1_le (k : Z) (x : Q) : x <= inject_Z k -> Py.round1 x <= inject_Z k.
Proof.
  intros Hk. unfold Py.round1.
  pose proof (round_half_even_between (x * 10)) as [_ Hhi].
  assert (Hce : (Qceiling (x * 10) <= k * 10)%Z).
  { rewrite <- (Qceiling_Z (k * 10)). apply Qceiling_resp_le.
    rewrite inject_Z_mult. change (inject_Z 10) with 10. lra. }
  assert (Hq : inject_Z (Py.round_half_even (x * 10)) <= inject_Z (k * 10))
    by (rewrite <- Zle_Qle; lia).
  rewrite inject_Z_mult in Hq. change (inject_Z 10) with 10 in Hq.
  apply Qle_shift_div_r; [reflexivity | exact Hq].
Qed.

(** ** The bias as a function of the two direction weights *)

#[local] Instance share_proper : Proper (Qeq ==> Qeq ==> Qeq) share.
Proof. intros a a' Ha t t' Ht. unfold share. rewrite Ha, Ht. reflexivity. Qed.

Lemma shares_sum (b r : Q) : ~ b + r == 0 -> share b (b + r) + share r (b + r) == 100.
Proof. intros Hnz. unfold share. field. exact Hnz. Qed.

Lemma market_bias_cases (signals : list SmartMoneySignal) :
  let b := direction_weight "bullish" signals in
  let r := direction_weight "bearish" signals in
  let res := get_market_bias signals in
  (b + r == 0 /\ bias res = "NEUTRAL" /\ confidence res = 0)
  \/ (~ b + r == 0
      /\ ((60 < share b (b + r) /\ bias res = "BULLISH"
           /\ confidence res == Py.round1 (share b (b + r)))
          \/ (share b (b + r) <= 60 /\ 60 < share r (b + r) /\ bias res = "BEARISH"
              /\ confidence res == Py.round1 (share r (b + r)))
          \/ (share b (b + r) <= 60 /\ share r (b + r) <= 60 /\ bias res = "NEUTRAL"
              /\ confidence res == 50))).
Proof.
  intros b r res. destruct signals as [|s0 l].
  - left. repeat split; reflexivity.
  - subst res. unfold get_market_bias. cbv zeta.
    pose proof (score_fold (s0 :: l) (0, 0)) as [Hb Hr].
    change (fst (0, 0)) with 0 in Hb. change (snd (0, 0)) with 0 in Hr.
    set (b' := fst (fold_left score_step (s0 :: l) (0, 0))) in *.
    set (r' := snd (fold_left score_step (s0 :: l) (0, 0))) in *.
    assert (Hb' : b' == b) by (rewrite Hb; unfold b; lra).
    assert (Hr' : r' == r) by (rewrite Hr; unfold r; lra).
    assert (Ht : b' + r' == b + r) by (rewrite Hb', Hr'; reflexivity).
    assert (Hbs : (b' / (b' + r')) * 100 == share b (b + r))
      by (unfold share; rewrite Ht, Hb'; reflexivity).
    assert (Hrs : (r' / (b' + r')) * 100 == share r (b + r))
      by (unfold share; rewrite Ht, Hr'; reflexivity).
    destruct (Qeq_bool (b' + r') 0) eqn:Ez.
    + apply Qeq_bool_iff in Ez. rewrite Ht in Ez. left. repeat split; [exact Ez|..]; reflexivity.
    + right.
      assert (Hnz : ~ b + r == 0).
      { intros Hz. rewrite <- Ht in Hz. apply Qeq_bool_iff in Hz. congruence. }
      split; [exact Hnz|].
      assert (E1 : Py.Qltb 60 ((b' / (b' + r')) * 100) = Py.Qltb 60 (share b (b + r)))
        by (rewrite Hbs; reflexivity).
      assert (E2 : Py.Qltb 60 ((r' / (b' + r')) * 100) = Py.Qltb 60 (share r (b + r)))
        by (rewrite Hrs; reflexivity).
      rewrite E1, E2.
      destruct (Qltb_spec 60 (share b (b + r))) as [Hbull|Hbull];
        [|destruct (Qltb_spec 60 (share r (b + r))) as [Hbear|Hbear]]; simpl.
      * left. repeat split; [exact Hbull|]. rewrite Hbs. reflexivity.
      * apply Qnot_lt_le in Hbull.
        right. left. repeat split; [exact Hbull | exact Hbear |].
        rewrite Hrs. reflexivity.
      * apply Qnot_lt_le in Hbull. apply Qnot_lt_le in Hbear.
        right. right. split; [exact Hbull|]. split; [exact Hbear|].
        split; reflexivity.
Qed.



(** ** Direction weights *)

Lemma sum_nonneg (l : list Q) : Forall (fun x => 0 <= x) l -> 0 <= Py.sum l.
Proof.
  induction 1 as [|x l Hx _ IH]; [unfold Py.sum; simpl; lra|].
  rewrite sum_cons. lra.
Qed.


Lemma direction_weight_nonneg (d : string) (l : list SmartMoneySignal) :
  Forall (fun s => 0 <= strength s) l -> 0 <= direction_weight d l.
Proof.
  intros Hl. unfold direction_weight. apply sum_nonneg.
  apply Forall_map. apply List.Forall_forall. intros s [Hs _]%filter_In.
  rewrite List.Forall_forall in Hl. specialize (Hl s Hs). cbv beta.
  apply Qdiv_nonneg; [exact Hl | reflexivity].
Qed.






(** X22. For signals without negative strengths, [get_market_bias] returns
    BULLISH, BEARISH or NEUTRAL with a confidence between 0 and 100: at least
    60 for a directional bias, 0 or 50 for a neutral one. A bullish bias
    means the bullish weight exceeds the bearish weight, and the reverse; when
    only one direction carries weight the bias is that direction with
    confidence 100. *)
Theorem market_bias_confidence_range (signals : list SmartMoneySignal) :
  Forall (fun s => 0 <= strength s) signals ->
  let result := get_market_bias signals in
  let bullish := direction_weight "bullish" signals in
  let bearish := direction_weight "bearish" signals in
  (bias result = "BULLISH" \/ bias result = "BEARISH" \/ bias result = "NEUTRAL")
  /\ 0 <= confidence result <= 100
  /\ (bias result = "BULLISH" \/ bias result = "BEARISH" -> 60 <= confidence result)
  /\ (bias result = "NEUTRAL" -> confidence result == 0 \/ confidence result == 50)
  /\ (bias result = "BULLISH" -> bearish < bullish)
  /\ (bias result = "BEARISH" -> bullish < bearish)
  /\ (0 < bullish -> bearish == 0 ->
      bias result = "BULLISH" /\ confidence result == 100)
  /\ (0 < bearish -> bullish == 0 ->
      bias result = "BEARISH" /\ confidence result == 100).
Proof.
  intros Hpos result bullish bearish.
  pose proof (direction_weight_nonneg "bullish" signals Hpos) as Hb0.
  pose proof (direction_weight_nonneg "bearish" signals Hpos) as Hr0.
  pose proof (market_bias_cases signals) as Hcases. cbv zeta in Hcases.
  fold result bullish bearish in Hcases, Hb0, Hr0.
  destruct Hcases as [(Hz & Hbias & Hconf)|(Hnz & Hcases)].
  - rewrite Hbias, Hconf.
    split; [auto|]. split; [lra|].
    split; [intros [[=]|[=]]|]. split; [left; reflexivity|].
    split; [intros [=]|]. split; [intros [=]|].
    split; intros; lra.
  - assert (Htot : 0 < bullish + bearish).
    { destruct (Qlt_le_dec 0 (bullish + bearish)) as [Hlt|Hle]; [exact Hlt|].
      exfalso. apply Hnz. lra. }
    pose proof (shares_sum bullish bearish Hnz) as Hsum.
    assert (Hbs : 0 <= share bullish (bullish + bearish)).
    { unfold share. pose proof (Qdiv_nonneg _ _ Hb0 Htot). lra. }
    assert (Hrs : 0 <= share bearish (bullish + bearish)).
    { unfold share. pose proof (Qdiv_nonneg _ _ Hr0 Htot). lra. }
    assert (Hcmp : forall x y, 60 < share x (x + y) -> ~ x + y == 0 ->
                               0 < x + y -> share y (x + y) <= 60 -> y < x).
    { intros x y Hx Hxy Hpos' Hy. unfold share in Hx, Hy.
      assert (Hlt : y / (x + y) < x / (x + y)) by lra.
      apply Qmult_lt_r with (z := x + y) in Hlt; [|exact Hpos'].
      assert (E1 : y / (x + y) * (x + y) == y) by (field; exact Hxy).
      assert (E2 : x / (x + y) * (x + y) == x) by (field; exact Hxy).
      rewrite E1, E2 in Hlt. exact Hlt. }
    assert (Hone : forall x y, 0 < x -> y == 0 -> share x (x + y) == 100).
    { intros x y Hx Hy. unfold share. rewrite Hy. field. lra. }
    destruct Hcases as [(Ha & Hbias & Hconf)|[(Ha & Ha' & Hbias & Hconf)
                                             |(Ha & Ha' & Hbias & Hconf)]];
      rewrite Hbias, Hconf.
    + split; [auto|].
      assert (H60 : 60 <= Py.round1 (share bullish (bullish + bearish)))
        by (apply (round1_ge 60); unfold inject_Z; lra).
      assert (H100 : Py.round1 (share bullish (bullish + bearish)) <= 100)
        by (apply (round1_le 100); unfold inject_Z; lra).
      split; [lra|]. split; [intros _; exact H60|].
      split; [intros [=]|].
      split; [intros _; apply Hcmp; [exact Ha | exact Hnz | exact Htot | lra]|].
      split; [intros [=]|].
      split.
      * intros Hb Hr. split; [reflexivity|].
        rewrite (Hone bullish bearish Hb Hr). reflexivity.
      * intros Hr Hb. exfalso.
        assert (E : share bullish (bullish + bearish) == 0)
          by (unfold share; rewrite Hb; field; lra).
        lra.
    + split; [auto|].
      assert (H60 : 60 <= Py.round1 (share bearish (bullish + bearish)))
        by (apply (round1_ge 60); unfold inject_Z; lra).
      assert (H100 : Py.round1 (share bearish (bullish + bearish)) <= 100)
        by (apply (round1_le 100); unfold inject_Z; lra).
      split; [lra|]. split; [intros _; exact H60|].
      split; [intros [=]|].
      split; [intros [=]|].
      assert (Et : bearish + bullish == bullish + bearish) by ring.
      split.
      { intros _. apply Hcmp; rewrite Et; [exact Ha' | exact Hnz | exact Htot | lra]. }
      split.
      * intros Hb Hr. exfalso.
        assert (E : share bearish (bullish + bearish) == 0)
          by (unfold share; rewrite Hr; field; lra).
        lra.
      * intros Hr Hb. split; [reflexivity|].
        rewrite <- Et, (Hone bearish bullish Hr Hb). reflexivity.
    + split; [auto|]. split; [lra|].
      split; [intros [[=]|[=]]|]. split; [right; reflexivity|].
      split; [intros [=]|]. split; [intros [=]|].
      split.
      * intros Hb Hr. exfalso. rewrite (Hone bullish bearish Hb Hr) in Ha. lra.
      * intros Hr Hb. exfalso.
        assert (Et : bearish + bullish == bullish + bearish) by ring.
        rewrite <- Et, (Hone bearish bullish Hr Hb) in Ha'. lra.
Qed.


(** ** Averages *)

Lemma len_cons {A} (x : A) (l : list A) : Py.len (x :: l) == 1 + Py.len l.
Proof.
  unfold Py.len. cbn [length]. rewrite Nat2Z.inj_succ, <- Z.add_1_l, inject_Z_plus.
  reflexivity.
Qed.

Lemma len_pos {A} (l : list A) : l <> [] -> 0 < Py.len l.
Proof.
  destruct l as [|x l]; [congruence|]. intros _. rewrite len_cons.
  pose proof (len_nonneg l). lra.
Qed.

Lemma sum_between {A} (f : A -> Q) (l : list A) (lo hi : Q) :
  Forall (fun x => lo <= f x <= hi) l ->
  lo * Py.len l <= Py.sum (map f l) <= hi * Py.len l.
Proof.
  induction 1 as [|x l Hx _ IH].
  - change (@Py.len A []) with 0. change (Py.sum (map f [])) with 0. lra.
  - cbn [map]. rewrite sum_cons, len_cons. lra.
Qed.

Lemma mean_between {A} (f : A -> Q) (l : list A) (lo hi : Q) :
  l <> [] -> Forall (fun x => lo <= f x <= hi) l ->
  lo <= Py.sum (map f l) / Py.len l <= hi.
Proof.
  intros Hne Hall. pose proof (len_pos l Hne) as Hlen.
  pose proof (sum_between f l lo hi Hall) as [Hlo Hhi].
  split; [apply Qle_shift_div_l | apply Qle_shift_div_r]; assumption.
Qed.

Lemma dominant_direction_cases (raw : list SmartMoneySignal) :
  (dominant_direction (confluence_of raw) = "bullish"
   \/ dominant_direction (confluence_of raw) = "bearish")
  /\ (dominant_direction (confluence_of raw) = "bullish"
      <-> (count_direction "bearish" raw < count_direction "bullish" raw)%nat).
Proof.
  unfold confluence_of. cbv zeta. cbn [dominant_direction].
  destruct (Nat.ltb_spec (count_direction "bearish" raw)
              (count_direction "bullish" raw)) as [Hlt|Hge].
  - split; [left; reflexivity|]. tauto.
  - split; [right; reflexivity|]. split; [intros [=] | lia].
Qed.

(** X24. For every confluence returned by [get_confluence_signals]: the
    average price lies within the tolerance of the anchor's price; the
    combined strength is at most 100 and lies between [min(100, 1.2 * lo)] and
    [min(100, 1.2 * hi)] whenever the members' strengths lie between [lo] and
    [hi]; the dominant direction is bullish exactly when bullish members
    outnumber bearish ones and bearish otherwise; and the signal types are
    exactly the types of its members. *)
Theorem confluence_summary_values (l : list SmartMoneySignal) (tol : Q) :
  Forall (fun g =>
            exists anchor members,
              signals g = anchor :: members
              /\ Qabs (avg_price g - price anchor) <= price anchor * tol
              /\ combined_strength g <= 100
              /\ (forall lo hi,
                    Forall (fun s => lo <= strength s <= hi) (signals g) ->
                    Py.min 100 (lo * 1.2) <= combined_strength g
                    /\ combined_strength g <= Py.min 100 (hi * 1.2))
              /\ (dominant_direction g = "bullish" \/ dominant_direction g = "bearish")
              /\ (dominant_direction g = "bullish"
                  <-> (count_direction "bearish" (signals g)
                       < count_direction "bullish" (signals g))%nat)
              /\ (forall ty, ty ∈ signal_types g
                             <-> exists s, In s (signals g) /\ signal_type s = ty))
    (get_confluence_signals l tol).
Proof.
  rewrite get_confluence_signals_eq.
  apply List.Forall_forall. intros g Hg.
  apply sort_by_desc_In, In_omap in Hg as (raw & Hraw & Hemit).
  apply emit_confluence_Some in Hemit as [Hlen ->].
  pose proof (first_anchor_groups_anchor (price_match tol) l) as Ha.
  rewrite List.Forall_forall in Ha.
  destruct (Ha raw Hraw) as (a & members & -> & Hm).
  exists a, members. split; [reflexivity|].
  assert (Hne : a :: members <> []) by discriminate.
  assert (Hband : Forall (fun s => price a - price a * tol <= price s
                                   <= price a + price a * tol) (a :: members)).
  { assert (Hm' : Forall (fun s => Qabs (price a - price s) <= price a * tol) members).
    { eapply Forall_impl; [exact Hm|]. intros p Hp. apply within_tolerance_iff, Hp. }
    assert (Htol : 0 <= price a * tol).
    { destruct members as [|m ms]; [simpl in Hlen; lia|].
      apply Forall_inv in Hm'. pose proof (Qabs_nonneg (price a - price m)). lra. }
    constructor; [lra|].
    eapply Forall_impl; [exact Hm'|]. cbv beta. intros s Hs.
    apply Qabs_Qle_condition in Hs. lra. }
  split.
  { cbn [avg_price confluence_of].
    pose proof (mean_between price (a :: members) _ _ Hne Hband) as Hmean.
    apply Qabs_Qle_condition. lra. }
  split; [apply min_le_l|].
  split.
  { intros lo hi Hall. cbn [signals confluence_of] in Hall.
    cbn [combined_strength confluence_of].
    pose proof (mean_between strength (a :: members) lo hi Hne Hall) as Hmean.
    split; apply min_mono_r; lra. }
  split; [apply dominant_direction_cases|].
  split; [apply dominant_direction_cases|].
  intros ty. cbn [signal_types signals confluence_of].
  rewrite elem_of_list_to_set, list_elem_of_In, in_map_iff.
  split; intros (s & H1 & H2); exists s; tauto.
Qed.

(** X25. The confluence panel of the dashboard shows the first five
    confluences found with the default tolerance, or all of them when there
    are fewer: they are in descending order of combined strength, none is
    weaker than a confluence left out, and they number at most half the
    signals. *)
Theorem dashboard_shows_strongest_confluences (l : list SmartMoneySignal) :
  let found := get_confluence_signals l default_price_tolerance in
  let shown := shown_confluences l in
  shown `prefix_of` found
  /\ length shown = Nat.min 5 (length found)
  /\ Forall (fun g =>
               Forall (fun h => combined_strength h <= combined_strength g)
                 (drop 5 found))
       shown
  /\ StronglySorted (fun g h => combined_strength h <= combined_strength g) shown
  /\ (2 * length shown <= length l)%nat.
Proof.
  cbv zeta.
  assert (E : shown_confluences l
              = take 5 (get_confluence_signals l default_price_tolerance)).
  { unfold shown_confluences. destruct l; [reflexivity | apply slice_from_zero]. }
  rewrite E. clear E.
  pose proof (descending_strongly combined_strength _
                (sort_by_desc_sorted combined_strength
                   (omap emit_confluence
                      (first_anchor_groups (price_match default_price_tolerance) l))))
    as Hs.
  rewrite <- get_confluence_signals_eq in Hs.
  split; [apply prefix_take|].
  split; [apply length_take|].
  split; [apply StronglySorted_take_drop, Hs|].
  split; [eapply StronglySorted_sublist; [apply sublist_take | exact Hs]|].
  rewrite length_take.
  assert (Hhalf : (2 * length (get_confluence_signals l default_price_tolerance)
                   <= length l)%nat).
  { rewrite get_confluence_signals_eq.
    rewrite (Permutation_length (sort_by_desc_Permutation combined_strength _)).
    rewrite <- (Permutation_length
                  (first_anchor_groups_Permutation
                     (price_match default_price_tolerance) l)).
    apply omap_length_le. intros raw g [Hlen _]%emit_confluence_Some. exact Hlen. }
  lia.
Qed.

(** ** Stricter settings *)

Lemma flat_map_sublist {A B} (f g : A -> list B) (l : list A) :
  (forall x, f x `sublist_of` g x) -> flat_map f l `sublist_of` flat_map g l.
Proof.
  intros Hfg. induction l as [|x l IH]; simpl; [constructor|].
  apply sublist_app; [apply Hfg | exact IH].
Qed.

Lemma filter_sublist_mono {A} (f g : A -> bool) (k l : list A) :
  (forall x, f x = true -> g x = true) -> k `sublist_of` l ->
  List.filter f k `sublist_of` List.filter g l.
Proof.
  intros Hfg. induction 1 as [|x k l _ IH|x k l _ IH]; cbn [List.filter].
  - constructor.
  - destruct (f x) eqn:E; [rewrite (Hfg x E); apply sublist_skip, IH|].
    destruct (g x); [apply sublist_cons|]; exact IH.
  - destruct (g x); [apply sublist_cons|]; exact IH.
Qed.

Lemma nil_sublist {A} (l : list A) : [] `sublist_of` l.
Proof. apply sublist_nil_l. Qed.

Lemma not_both_colours (c : Candle) :
  Py.Qltb (close c) (open c) = true -> Py.Qltb (open c) (close c) = false.
Proof.
  intros H1%Qltb_true. destruct (Qltb_spec (open c) (close c)); [lra | reflexivity].
Qed.

Section Settings.
Context `{Numeric}.

Lemma fvg_at_stricter (gap gap' : Q) (age age' : Z) df pip i :
  gap <= gap' ->
  fvg_at (mkFVG gap' age') df pip i `sublist_of` fvg_at (mkFVG gap age) df pip i.
Proof.
  intros Hgap. unfold fvg_at. cbn [min_gap_pips].
  destruct (rows df !! (i - 2)%nat) as [c1|]; [|constructor].
  destruct (rows df !! (i - 1)%nat) as [c2|]; [|constructor].
  destruct (rows df !! i) as [c3|]; [|constructor].
  assert (Hmono : forall x, Qle_bool gap' x = true -> Qle_bool gap x = true).
  { intros x Hx%Qle_bool_iff. apply Qle_bool_iff. lra. }
  destruct (Py.Qltb (high c3) (low c1)).
  - destruct (Qle_bool gap' _) eqn:E; [rewrite (Hmono _ E); reflexivity|].
    apply nil_sublist.
  - destruct (Py.Qltb (high c1) (low c3)); [|constructor].
    destruct (Qle_bool gap' _) eqn:E; [rewrite (Hmono _ E); reflexivity|].
    apply nil_sublist.
Qed.

Lemma ob_at_stricter (size size' : Q) (k : nat) df pip i :
  size <= size' ->
  ob_at (mkOB size' k) df pip i `sublist_of` ob_at (mkOB size k) df pip i.
Proof.
  intros Hsize. unfold ob_at.
  destruct (rows df !! i) as [c|]; [|constructor]. cbv zeta.
  assert (Hfut : ob_future (mkOB size' k) df i = ob_future (mkOB size k) df i)
    by reflexivity.
  rewrite Hfut. set (fut := ob_future (mkOB size k) df i).
  assert (Hmono : forall x, Qle_bool size' x = true -> Qle_bool size x = true).
  { intros x Hx%Qle_bool_iff. apply Qle_bool_iff. lra. }
  unfold _is_potential_bullish_ob, _is_potential_bearish_ob. cbn [min_size_pips].
  destruct (Py.col_max (map high (rows fut))) as [hmax|];
    destruct (Py.col_min (map low (rows fut))) as [lmin|]; cbv zeta;
    try apply nil_sublist.
  - destruct (Py.Qltb (close c) (open c)) eqn:Ered; cbn [andb].
    + rewrite (not_both_colours c Ered). cbn [andb].
      destruct (Qle_bool size' _) eqn:E; [rewrite (Hmono _ E); reflexivity|].
      apply nil_sublist.
    + destruct (Py.Qltb (open c) (close c)); cbn [andb]; [|constructor].
      destruct (Qle_bool size' _) eqn:E; [rewrite (Hmono _ E); reflexivity|].
      apply nil_sublist.
  - destruct (Py.Qltb (close c) (open c) && Qle_bool size' _) eqn:E.
    + apply andb_prop in E as [E1 E2]. rewrite E1, (Hmono _ E2). reflexivity.
    + apply nil_sublist.
  - destruct (Py.Qltb (open c) (close c) && Qle_bool size' _) eqn:E.
    + apply andb_prop in E as [E1 E2]. rewrite E1, (Hmono _ E2). reflexivity.
    + apply nil_sublist.
Qed.

(** X26. Raising [min_gap_pips] or lowering [max_age_hours] can only remove
    signals from the result of [identify_fvgs], and raising [min_size_pips]
    can only remove signals from the result of [identify_order_blocks]: the
    stricter result is a sublist of the laxer one, with the same strengths. *)
Theorem stricter_settings_drop_signals (df : DataFrame) (pair : string)
    (gap gap' size size' : Q) (age age' : Z) (k : nat) :
  gap <= gap' -> (age' <= age)%Z -> size <= size' ->
  identify_fvgs (mkFVG gap' age') df pair `sublist_of` identify_fvgs (mkFVG gap age) df pair
  /\ identify_order_blocks (mkOB size' k) df pair
     `sublist_of` identify_order_blocks (mkOB size k) df pair.
Proof.
  intros Hgap Hage Hsize. split.
  - unfold identify_fvgs. destruct (_ <? 3)%nat; [constructor|]. cbv zeta.
    destruct (last (rows df)) as [final|]; [|constructor].
    cbn [max_age_hours]. apply filter_sublist_mono.
    + intros s Hs%Qle_bool_iff. apply Qle_bool_iff.
      assert (inject_Z age' <= inject_Z age) by (rewrite <- Zle_Qle; exact Hage). lra.
    + unfold detected_fvgs. apply flat_map_sublist. intros i.
      apply fvg_at_stricter, Hgap.
  - unfold identify_order_blocks. destruct (_ <? 10)%nat; [constructor|]. cbv zeta.
    cbn [confirmation_candles]. apply flat_map_sublist. intros i.
    apply ob_at_stricter, Hsize.
Qed.
End Settings.

(** ** Short histories *)

(** X27. [identify_structure_shifts] returns nothing on a frame of fewer than
    [2 * lookback_period] rows, and nothing on a frame of fewer than 14 rows
    whatever the lookback period: such a frame has fewer than four swing
    points. *)
Theorem structure_shifts_need_history (self : MarketStructureAnalyzer)
    (df : DataFrame) (pair : string) :
  (length (rows df) < Nat.max (2 * lookback_period self) 14)%nat ->
  identify_structure_shifts self df pair = [].
Proof.
  intros Hshort. unfold identify_structure_shifts.
  destruct (Nat.ltb_spec (length (rows df)) (lookback_period self * 2)) as [|Hlong];
    [reflexivity|]. cbv zeta.
  destruct (swing_scan_facts df 5) as (_ & _ & Hl).
  destruct (Nat.ltb_spec (length (_identify_swing_points df 5)) 4) as [|Hmany];
    [reflexivity | lia].
Qed.

(** ** The factors of the order-block score *)

#[local] Instance min_proper : Proper (Qeq ==> Qeq ==> Qeq) Py.min.
Proof.
  intros a a' Ha b b' Hb. unfold Py.min.
  assert (E : Py.Qltb b a = Py.Qltb b' a') by (rewrite Ha, Hb; reflexivity).
  rewrite E. destruct (Py.Qltb b' a'); assumption.
Qed.

#[local] Instance max_proper : Proper (Qeq ==> Qeq ==> Qeq) Py.max.
Proof.
  intros a a' Ha b b' Hb. unfold Py.max.
  assert (E : Py.Qltb a b = Py.Qltb a' b') by (rewrite Ha, Hb; reflexivity).
  rewrite E. destruct (Py.Qltb a' b'); assumption.
Qed.

#[local] Instance clamp100_proper : Proper (Qeq ==> Qeq) Py.clamp100.
Proof. intros a a' Ha. unfold Py.clamp100. rewrite Ha. reflexivity. Qed.

Lemma clamp100_id (x : Q) : 0 <= x <= 100 -> Py.clamp100 x == x.
Proof.
  intros [H0 H100]. unfold Py.clamp100, Py.min, Py.max.
  destruct (Qltb_spec 0 x) as [Hx|Hx].
  - destruct (Qltb_spec x 100); lra.
  - destruct (Qltb_spec 0 100); lra.
Qed.

Lemma ob_strength_factors (c : Candle) (fut ctx : DataFrame) (d : string) :
  _calculate_ob_strength c fut ctx d
  == Py.clamp100
       (ob_move_score (_calculate_confirmation_move fut d)
        + ob_speed_score (_calculate_confirmation_move fut d) fut
        + ob_volume_score c ctx + ob_quality_score c).
Proof.
  unfold _calculate_ob_strength, ob_move_score, ob_speed_score, ob_volume_score,
    ob_quality_score. cbv zeta.
  apply clamp100_proper.
  destruct (Py.Qltb 0 (_calculate_confirmation_move fut d));
    destruct (0 <? length (rows fut))%nat;
    destruct (has_volume ctx && (5 <? length (rows ctx))%nat);
    try destruct (Py.Qltb 0 (Py.mean (map volume (rows ctx))));
    destruct (Py.Qltb 0 (high c - low c)); ring.
Qed.

Lemma In_col_le (l : list Q) (m x : Q) : Py.col_max l = Some m -> In x l -> x <= m.
Proof.
  intros [_ Hall]%col_max_spec Hx. rewrite List.Forall_forall in Hall. auto.
Qed.

Lemma In_col_ge (l : list Q) (m x : Q) : Py.col_min l = Some m -> In x l -> m <= x.
Proof.
  intros [_ Hall]%col_min_spec Hx. rewrite List.Forall_forall in Hall. auto.
Qed.

Lemma confirmation_move_nonneg (fut : DataFrame) (d : string) :
  Forall well_formed (rows fut) -> 0 <= _calculate_confirmation_move fut d.
Proof.
  intros Hwf. unfold _calculate_confirmation_move.
  destruct (rows fut) as [|first rest] eqn:Hrows; [lra|].
  apply Forall_inv in Hwf. destruct Hwf as (_ & _ & Hlo & Hhi).
  destruct (String.eqb d "bullish"); cbv zeta.
  - destruct (Py.col_max _) as [m|] eqn:Em; [|lra].
    pose proof (In_col_le _ m (high first) Em) as Hm.
    cbn [map] in Hm. specialize (Hm (or_introl eq_refl)). lra.
  - destruct (Py.col_min _) as [m|] eqn:Em; [|lra].
    pose proof (In_col_ge _ m (low first) Em) as Hm.
    cbn [map] in Hm. specialize (Hm (or_introl eq_refl)). lra.
Qed.

(** X28. The order-block score is the clamped sum of its four factors. The
    move factor lies between 0 and 30, the speed and volume factors are at
    most 25 and the quality factor is never negative; without confirmation
    candles the move is 0 and the move and speed factors add nothing. When
    the confirmation candles have their close between low and high the move
    and the speed factor are not negative, and when also the block candle is
    such a candle with a volume that is not negative, the sum lies between 0
    and 100 and the clamp leaves it as it is. *)
Theorem ob_score_factors (c : Candle) (fut ctx : DataFrame) (d : string) :
  let move := _calculate_confirmation_move fut d in
  let total := ob_move_score move + ob_speed_score move fut
               + ob_volume_score c ctx + ob_quality_score c in
  _calculate_ob_strength c fut ctx d == Py.clamp100 total
  /\ 0 <= ob_move_score move <= 30
  /\ ob_speed_score move fut <= 25
  /\ ob_volume_score c ctx <= 25
  /\ 0 <= ob_quality_score c
  /\ (rows fut = [] -> move == 0 /\ ob_move_score move + ob_speed_score move fut == 0)
  /\ (Forall well_formed (rows fut) -> 0 <= move /\ 0 <= ob_speed_score move fut)
  /\ (well_formed c -> ob_quality_score c <= 20)
  /\ (well_formed c -> Forall well_formed (rows fut) -> 0 <= volume c ->
      0 <= total <= 100 /\ _calculate_ob_strength c fut ctx d == total).
Proof.
  intros move total.
  assert (H1 : 0 <= ob_move_score move <= 30).
  { unfold ob_move_score. destruct (Qltb_spec 0 move) as [Hm|Hm]; [|lra].
    split; [apply min_nonneg; lra | apply min_le_l]. }
  assert (H2 : ob_speed_score move fut <= 25).
  { unfold ob_speed_score. destruct (0 <? _)%nat; [apply min_le_l | lra]. }
  assert (H3 : ob_volume_score c ctx <= 25).
  { unfold ob_volume_score. destruct (_ && _); [|lra]. cbv zeta.
    destruct (Py.Qltb 0 _); [apply min_le_l | lra]. }
  assert (H3' : 0 <= volume c -> 0 <= ob_volume_score c ctx).
  { intros Hv. unfold ob_volume_score. destruct (_ && _); [|lra]. cbv zeta.
    destruct (Qltb_spec 0 (Py.mean (map volume (rows ctx)))) as [Ha|Ha]; [|lra].
    apply min_nonneg; [lra|]. pose proof (Qdiv_nonneg _ _ Hv Ha). lra. }
  assert (H4 : 0 <= ob_quality_score c).
  { unfold ob_quality_score. cbv zeta.
    destruct (Qltb_spec 0 (high c - low c)) as [Hr|Hr]; [|lra].
    pose proof (Qdiv_nonneg _ _ (Qabs_nonneg (close c - open c)) Hr). lra. }
  assert (H4' : well_formed c -> ob_quality_score c <= 20).
  { intros Hwf. unfold ob_quality_score. cbv zeta.
    destruct (Qltb_spec 0 (high c - low c)) as [Hr|Hr]; [|lra].
    pose proof (Qdiv_le_1 _ _ Hr (body_le_range c Hwf)). lra. }
  assert (H5 : Forall well_formed (rows fut) -> 0 <= move /\ 0 <= ob_speed_score move fut).
  { intros Hwf. pose proof (confirmation_move_nonneg fut d Hwf) as Hm.
    split; [exact Hm|]. unfold ob_speed_score.
    destruct (Nat.ltb_spec 0 (length (rows fut))) as [Hlen|Hlen]; [|lra].
    apply min_nonneg; [lra|].
    assert (Hpos : 0 < Py.len (rows fut)).
    { apply len_pos. destruct (rows fut); [simpl in Hlen; lia | discriminate]. }
    pose proof (Qdiv_nonneg _ _ Hm Hpos) as Hd. fold move in Hd. lra. }
  split; [apply ob_strength_factors|].
  split; [exact H1|]. split; [exact H2|]. split; [exact H3|]. split; [exact H4|].
  split.
  { intros Hempty. subst move total.
    unfold _calculate_confirmation_move, ob_move_score, ob_speed_score.
    rewrite Hempty. split; reflexivity. }
  split; [exact H5|]. split; [exact H4'|].
  intros Hc Hfut Hv. specialize (H3' Hv). specialize (H4' Hc).
  destruct (H5 Hfut) as [_ H2'].
  assert (Hrange : 0 <= total <= 100) by (unfold total; lra).
  split; [exact Hrange|].
  rewrite ob_strength_factors. apply clamp100_id, Hrange.
Qed.

(** ** Further concrete runs *)

Section FurtherRuns.
Import Samples Examples.

Lemma Forall_by_forallb {A} (P : A -> Prop) (f : A -> bool) (l : list A) :
  (forall x, f x = true -> P x) -> forallb f l = true -> Forall P l.
Proof.
  intros Hf Hall. apply List.Forall_forall. intros x Hx. apply Hf.
  rewrite forallb_forall in Hall. apply Hall, Hx.
Defined.

Lemma no_swings_in_a_trend_witness :
  strictly_monotone high (rows trend45) = true
  /\ strictly_monotone low (rows trend45) = true
  /\ (40 <= length (rows trend45))%nat
  /\ _identify_swing_points trend45 5 = []
  /\ identify_structure_shifts default_structure_analyzer trend45 "EURUSD" = []
  /\ identify_liquidity_zones default_liquidity_analyzer trend45 "EURUSD" = [].
Proof.
  assert (Hh : strictly_monotone high (rows trend45) = true) by (vm_compute; reflexivity).
  assert (Hl : strictly_monotone low (rows trend45) = true) by (vm_compute; reflexivity).
  split; [exact Hh|]. split; [exact Hl|]. split; [vm_compute; lia|].
  exact (no_swings_in_a_trend default_structure_analyzer default_liquidity_analyzer
           trend45 "EURUSD" Hh Hl).
Defined.

Lemma fvg_filter_keeps_fresh_frames_witness :
  last (rows gap_zero_volume) = Some (quiet 18000 1.0948 0)
  /\ length (@detected_fvgs Reference.numeric default_fvg_analyzer gap_zero_volume
               "EURUSD") = 1%nat
  /\ @identify_fvgs Reference.numeric default_fvg_analyzer gap_zero_volume "EURUSD"
     = @detected_fvgs Reference.numeric default_fvg_analyzer gap_zero_volume "EURUSD".
Proof.
  assert (Hlast : last (rows gap_zero_volume) = Some (quiet 18000 1.0948 0))
    by reflexivity.
  assert (Hfresh : Forall (fun c => (datetime (quiet 18000 1.0948 0) - datetime c
                                     <= 3600 * max_age_hours default_fvg_analyzer)%Z)
                     (rows gap_zero_volume)).
  { apply (Forall_by_forallb _
             (fun c => (datetime (quiet 18000 1.0948 0) - datetime c
                        <=? 3600 * max_age_hours default_fvg_analyzer)%Z)).
    - intros c Hc. apply Z.leb_le, Hc.
    - vm_compute. reflexivity. }
  split; [exact Hlast|]. split; [vm_compute; reflexivity|].
  exact (@fvg_filter_keeps_fresh_frames Reference.numeric default_fvg_analyzer
           gap_zero_volume "EURUSD" _ Hlast Hfresh).
Defined.

Lemma fvg_strength_floor_witness :
  length (@identify_fvgs Reference.numeric default_fvg_analyzer gap_then_gap "EURUSD")
  = 1%nat
  /\ Forall (fun s => 15 < strength s /\ 21 < strength s)
       (@identify_fvgs Reference.numeric default_fvg_analyzer gap_then_gap "EURUSD").
Proof.
  assert (Hvol : Forall (fun c => 0 <= volume c) (rows gap_then_gap)).
  { apply (Forall_by_forallb _ (fun c => Qle_bool 0 (volume c))).
    - intros c Hc. apply Qle_bool_iff, Hc.
    - vm_compute. reflexivity. }
  split; [vm_compute; reflexivity|].
  pose proof (@fvg_strength_floor Reference.numeric default_fvg_analyzer gap_then_gap
                "EURUSD" Hvol) as Hfloor.
  eapply Forall_impl; [exact Hfloor|]. cbv beta. intros s [H15 Hgap].
  split; [exact H15|].
  assert (E : 15 + fvg_gap_score (min_gap_pips default_fvg_analyzer) == 21)
    by (vm_compute; reflexivity).
  rewrite E in Hgap. exact Hgap.
Defined.

Lemma market_bias_confidence_range_witness :
  bias (get_market_bias eight_to_two) = "BULLISH"
  /\ 60 <= confidence (get_market_bias eight_to_two)
  /\ confidence (get_market_bias eight_to_two) <= 100
  /\ direction_weight "bearish" eight_to_two < direction_weight "bullish" eight_to_two.
Proof.
  assert (Hpos : Forall (fun s => 0 <= strength s) eight_to_two).
  { apply (Forall_by_forallb _ (fun s => Qle_bool 0 (strength s))).
    - intros s Hs. apply Qle_bool_iff, Hs.
    - vm_compute. reflexivity. }
  pose proof (market_bias_confidence_range eight_to_two Hpos) as Hrange.
  cbv zeta in Hrange.
  destruct Hrange as (_ & [_ H100] & H60 & _ & Hmore & _).
  assert (Hbias : bias (get_market_bias eight_to_two) = "BULLISH")
    by (vm_compute; reflexivity).
  split; [exact Hbias|]. split; [apply H60; left; exact Hbias|].
  split; [exact H100 | apply Hmore, Hbias].
Defined.

Lemma stricter_settings_drop_signals_witness :
  @identify_fvgs Reference.numeric strict_fvg_analyzer gap_then_gap "EURUSD"
    `sublist_of`
    @identify_fvgs Reference.numeric default_fvg_analyzer gap_then_gap "EURUSD"
  /\ identify_order_blocks strict_ob_analyzer rally12 "EURUSD"
     `sublist_of` identify_order_blocks default_ob_analyzer rally12 "EURUSD"
  /\ length (identify_order_blocks default_ob_analyzer rally12 "EURUSD") = 1%nat.
Proof.
  assert (Hgap : 3.0 <= 5) by (vm_compute; discriminate).
  assert (Hage : (12 <= 24)%Z) by lia.
  assert (Hsize : 5.0 <= 8) by (vm_compute; discriminate).
  split; [|split; [|vm_compute; reflexivity]].
  - exact (proj1 (@stricter_settings_drop_signals Reference.numeric gap_then_gap
                    "EURUSD" 3.0 5 5.0 8 24 12 2 Hgap Hage Hsize)).
  - exact (proj2 (@stricter_settings_drop_signals Reference.numeric rally12
                    "EURUSD" 3.0 5 5.0 8 24 12 2 Hgap Hage Hsize)).
Defined.

Lemma structure_shifts_need_history_witness :
  length (_identify_swing_points flat15 5) = 5%nat
  /\ identify_structure_shifts default_structure_analyzer flat15 "EURUSD" = [].
Proof.
  split; [vm_compute; reflexivity|].
  apply structure_shifts_need_history. vm_compute. lia.
Defined.
End FurtherRuns.
